(** * Canvas -> Notion sync pass (main.py): model and properties

    The script is one linear procedure: load the ids already present in
    the Notion data source, compute a seven day window, walk the active
    Canvas courses and their upcoming assignments, and create one Notion
    page per assignment that survives the filters.

    The two API clients, the wall clock and the datetime library are
    external to main.py.  They enter the model as explicit inputs:
    - the Notion client is a deterministic state machine ([NotionClient]);
    - the Canvas client is the lazily paginated data it yields
      ([PaginatedList]), which may raise while being iterated;
    - [datetime.fromisoformat] and [datetime.isoformat] are the two fields
      of [DatetimeLib];
    - the instant returned by [datetime.now(timezone.utc)] is a number.
    Everything main.py itself does is written out below, statement by
    statement, in a state and exception monad that also records every
    external call and every log record in a trace. *)

From Stdlib Require Import ZArith Lia Ascii DecimalString DecimalNat.
From stdpp Require Import base option list strings gmap pretty.

#[local] Set Warnings "-clear-no-such-hyp".

Local Open Scope Z_scope.

(** ** Python exceptions

    Only subclasses of [Exception] occur: these are the ones the
    [except Exception] clause of main.py catches. *)

Inductive exn : Type :=
| ValueError
| TypeError
| KeyError (key : string)
| OverflowError
| APIResponseError (detail : string)
| CanvasException (detail : string).

(** Result of a pure Python expression that may raise. *)
Inductive result (A : Type) : Type :=
| Ok (a : A)
| Err (e : exn).
Arguments Ok {A} a.
Arguments Err {A} e.

(** ** [str] helpers *)

(** [s.replace(old, new)] for a non-empty [old]: left to right, non
    overlapping.  [skip] counts the characters of a match that are still
    to be dropped. *)
Fixpoint replace_from (old new : string) (skip : nat) (s : string) : string :=
  match s with
  | EmptyString => EmptyString
  | String c s' =>
      match skip with
      | S k => replace_from old new k s'
      | O =>
          if String.prefix old s
          then new +:+ replace_from old new (Nat.pred (String.length old)) s'
          else String c (replace_from old new O s')
      end
  end.

Definition str_replace (old new s : string) : string :=
  replace_from old new O s.

(** Truth value of an optional string attribute: [None] and [""] are
    falsy. *)
Definition str_truthy (o : option string) : bool :=
  match o with
  | None => false
  | Some EmptyString => false
  | Some _ => true
  end.

(** [str(n)] for an [int]. *)
Definition str_of_int (n : Z) : string := pretty n.

(** ** [datetime] and [timedelta]

    A [datetime] is its wall-clock fields, counted in microseconds since
    0001-01-01T00:00:00, together with the UTC offset of its [tzinfo]
    ([None] for a naive value).  A [timedelta] is a number of
    microseconds. *)

Record datetime : Type := mk_datetime {
  wall : Z;
  utcoffset : option Z
}.

Definition usec_per_second : Z := 1000000.
Definition usec_per_minute : Z := 60 * usec_per_second.
Definition usec_per_day : Z := 86400 * usec_per_second.

Definition timedelta_days (n : Z) : Z := n * usec_per_day.
Definition timedelta_minutes (n : Z) : Z := n * usec_per_minute.
Definition timedelta_seconds (n : Z) : Z := n * usec_per_second.

(** [datetime.max] is 9999-12-31T23:59:59.999999, the last microsecond of
    day 3652059. *)
Definition max_wall : Z := 3652059 * usec_per_day - 1.

(** [d + td]: the fields move, the [tzinfo] stays; a result outside
    [datetime.min .. datetime.max] raises [OverflowError]. *)
Definition dt_add (d : datetime) (td : Z) : result datetime :=
  let w := wall d + td in
  if (0 <=? w) && (w <=? max_wall)
  then Ok (mk_datetime w (utcoffset d))
  else Err OverflowError.

(** [a <= b]: two aware values compare by their UTC instants, two naive
    values by their fields, and a naive with an aware value raises
    [TypeError]. *)
Definition dt_le (a b : datetime) : result bool :=
  match utcoffset a, utcoffset b with
  | Some oa, Some ob => Ok (wall a - oa <=? wall b - ob)
  | None, None => Ok (wall a <=? wall b)
  | _, _ => Err TypeError
  end.

(** The UTC instant of an aware value. *)
Definition instant (d : datetime) : option Z :=
  match utcoffset d with
  | Some o => Some (wall d - o)
  | None => None
  end.

(** [datetime.now(timezone.utc)] when the clock reads [T]. *)
Definition utc_now (T : Z) : datetime := mk_datetime T (Some 0).

(** [now <= due_at <= week_out], a chained comparison: the second test is
    evaluated only when the first one holds. *)
Definition window_check (now due_at week_out : datetime) : result bool :=
  match dt_le now due_at with
  | Err e => Err e
  | Ok false => Ok false
  | Ok true => dt_le due_at week_out
  end.

(** The part of the datetime library main.py calls by name. *)
Record DatetimeLib : Type := {
  (** [datetime.fromisoformat(s)]; [None] is [ValueError]. *)
  fromisoformat : string -> option datetime;
  (** [d.isoformat()]. *)
  isoformat : datetime -> string
}.

(** ** The Notion client

    Shapes of the objects exchanged with the Notion API, as far as
    main.py reads or writes them. *)

(** One item of a rich text value. *)
Record TextRun : Type := { plain_text : string }.

(** A property value of a page.  Only the rich text type has a
    ["rich_text"] key; subscripting another type with it is a
    [KeyError]. *)
Inductive PropertyValue : Type :=
| RichTextProperty (rich_text : list TextRun)
| OtherProperty (type : string).

(** A page returned by a query: its ["properties"] dictionary. *)
Record Page : Type := { properties : gmap string PropertyValue }.

(** The dictionary returned by [data_sources.query].  main.py reads the
    keys with [.get], so each of them may be missing. *)
Record QueryResponse : Type := {
  results : option (list Page);
  has_more : option bool;
  next_cursor : option string
}.

(** Keyword arguments of [pages.create]: the parent and the six
    properties main.py fills in. *)
Record CreateRequest : Type := {
  parent_data_source_id : string;
  prop_Name : string;
  prop_Date_start : string;
  prop_Date_end : string;
  prop_Class : string;
  prop_Ref : string;
  prop_Status : string;
  prop_Canvas_ID : string
}.

(** The client as a deterministic state machine: every call moves the
    remote store to a new state and either returns or raises. *)
Record NotionClient : Type := {
  notion_state : Type;
  (** [data_sources.query(data_source_id, start_cursor, page_size)] *)
  data_sources_query :
    notion_state -> string -> option string -> Z ->
    notion_state * result QueryResponse;
  (** [pages.create(parent, properties)] *)
  pages_create :
    notion_state -> CreateRequest -> notion_state * result unit
}.

(** ** The Canvas client *)

(** A [PaginatedList]: items are produced one at a time while the list
    is iterated, and fetching the next item may raise. *)
Inductive PaginatedList (A : Type) : Type :=
| PLNil
| PLCons (x : A) (rest : PaginatedList A)
| PLRaise (e : exn).
Arguments PLNil {A}.
Arguments PLCons {A} x rest.
Arguments PLRaise {A} e.

Fixpoint paginated {A : Type} (l : list A) : PaginatedList A :=
  match l with
  | [] => PLNil
  | x :: l' => PLCons x (paginated l')
  end.

(** [l] followed by [rest]. *)
Fixpoint pl_app {A : Type} (l : list A) (rest : PaginatedList A)
  : PaginatedList A :=
  match l with
  | [] => rest
  | x :: l' => PLCons x (pl_app l' rest)
  end.

(** The items a [PaginatedList] yields before it ends or raises. *)
Fixpoint pl_items {A : Type} (l : PaginatedList A) : list A :=
  match l with
  | PLCons x rest => x :: pl_items rest
  | PLNil | PLRaise _ => []
  end.

Record Assignment : Type := {
  assignment_id : Z;
  assignment_name : string;
  assignment_due_at : option string;
  assignment_html_url : string
}.

Record Course : Type := {
  course_id : Z;
  course_name : string;
  (** what [course.get_assignments(include=["due_at"], bucket="upcoming")]
      yields *)
  course_assignments : PaginatedList Assignment
}.

(** ** Trace of a run *)

Inductive level : Type := DEBUG | INFO | ERROR.

Inductive event : Type :=
| EvQuery (data_source_id : string) (start_cursor : option string)
    (page_size : Z) (res : result QueryResponse)
| EvGetCourses
| EvGetAssignments (course : Z) (name : string)
| EvCreate (req : CreateRequest) (res : result unit)
| EvLog (lvl : level) (template : string) (args : list string)
| EvLogException (template : string) (args : list string) (e : exn).

(** The create calls of a trace, in order, and those that returned. *)
Definition create_calls (tr : list event) : list CreateRequest :=
  omap (fun ev => match ev with EvCreate r _ => Some r | _ => None end) tr.

Definition created (tr : list event) : list CreateRequest :=
  omap (fun ev => match ev with EvCreate r (Ok _) => Some r | _ => None end)
    tr.

Definition failed_creates (tr : list event) : list (CreateRequest * exn) :=
  omap (fun ev => match ev with
                  | EvCreate r (Err e) => Some (r, e)
                  | _ => None
                  end) tr.

Definition query_calls (tr : list event) : list (option string * Z) :=
  omap (fun ev => match ev with EvQuery _ c n _ => Some (c, n) | _ => None end)
    tr.

Definition failed_queries (tr : list event) : list exn :=
  omap (fun ev => match ev with EvQuery _ _ _ (Err e) => Some e | _ => None end)
    tr.

Definition canvas_calls (tr : list event) : list event :=
  omap (fun ev => match ev with
                  | EvGetCourses | EvGetAssignments _ _ => Some ev
                  | _ => None
                  end) tr.

(** Names of the courses whose assignments were asked for. *)
Definition fetched_courses (tr : list event) : list string :=
  omap (fun ev => match ev with
                  | EvGetAssignments _ name => Some name
                  | _ => None
                  end) tr.

Definition logged_exceptions (tr : list event) : list exn :=
  omap (fun ev => match ev with
                  | EvLogException _ _ e => Some e
                  | _ => None
                  end) tr.

(** The external calls of a trace: everything but the log records. *)
Definition calls (tr : list event) : list event :=
  omap (fun ev => match ev with
                  | EvLog _ _ _ | EvLogException _ _ _ => None
                  | _ => Some ev
                  end) tr.

Definition is_log (ev : event) : Prop :=
  match ev with
  | EvLog _ _ _ | EvLogException _ _ _ => True
  | _ => False
  end.

(** [%s] of a cursor. *)
Definition str_of_cursor (c : option string) : string :=
  match c with
  | None => "None"
  | Some s => s
  end.

(** ** The run monad: state, exceptions, fuel *)

Inductive outcome (A : Type) : Type :=
| Done (a : A)
| Raised (e : exn)
| OutOfFuel.
Arguments Done {A} a.
Arguments Raised {A} e.
Arguments OutOfFuel {A}.

Section Run.

Context (lib : DatetimeLib) (notion : NotionClient).

(** Configuration imported from privVars. *)
Context (NOTION_DATABASE_ID : string) (name_map : gmap string string).

Record run_state : Type := mk_state {
  notion_st : notion_state notion;
  existing_canvas_ids : gset string;
  trace : list event
}.

Definition M (A : Type) : Type := run_state -> run_state * outcome A.

Definition ret {A : Type} (a : A) : M A := fun s => (s, Done a).

Definition bind {A B : Type} (m : M A) (k : A -> M B) : M B :=
  fun s =>
    match m s with
    | (s', Done a) => k a s'
    | (s', Raised e) => (s', Raised e)
    | (s', OutOfFuel) => (s', OutOfFuel)
    end.

Definition raise {A : Type} (e : exn) : M A := fun s => (s, Raised e).

Definition out_of_fuel {A : Type} : M A := fun s => (s, OutOfFuel).

(** [try: body except Exception: handler].  What [body] did before it
    raised stays done. *)
Definition try_except {A : Type} (body : M A) (handler : exn -> M A) : M A :=
  fun s =>
    match body s with
    | (s', Raised e) => handler e s'
    | r => r
    end.

Definition lift {A : Type} (r : result A) : M A :=
  match r with
  | Ok a => ret a
  | Err e => raise e
  end.

Definition emit (ev : event) : M unit :=
  fun s =>
    (mk_state (notion_st s) (existing_canvas_ids s) (trace s ++ [ev]),
     Done tt).

Definition log (lvl : level) (template : string) (args : list string)
  : M unit :=
  emit (EvLog lvl template args).

Definition log_exception (template : string) (args : list string) (e : exn)
  : M unit :=
  emit (EvLogException template args e).

Definition get_ids : M (gset string) :=
  fun s => (s, Done (existing_canvas_ids s)).

Definition set_ids (ids : gset string) : M unit :=
  fun s => (mk_state (notion_st s) ids (trace s), Done tt).

Definition notion_query (cursor : option string) (page_size : Z)
  : M QueryResponse :=
  fun s =>
    match data_sources_query notion (notion_st s) NOTION_DATABASE_ID
            cursor page_size with
    | (n', res) =>
        (mk_state n' (existing_canvas_ids s)
           (trace s ++ [EvQuery NOTION_DATABASE_ID cursor page_size res]),
         match res with
         | Ok resp => Done resp
         | Err e => Raised e
         end)
    end.

Definition notion_create (req : CreateRequest) : M unit :=
  fun s =>
    match pages_create notion (notion_st s) req with
    | (n', res) =>
        (mk_state n' (existing_canvas_ids s) (trace s ++ [EvCreate req res]),
         match res with
         | Ok _ => Done tt
         | Err e => Raised e
         end)
    end.

Notation "x <- m ;; k" := (bind m (fun x => k))
  (at level 100, m at next level, right associativity).
Notation "m ;;; k" := (bind m (fun _ => k))
  (at level 100, right associativity).

(** ** fetch_existing_canvas_ids (main.py 65-99) *)

(** The body of [for page in results]. *)
Definition scan_page (page : Page) (ids : gset string) : M (gset string) :=
  match properties page !! "Canvas ID" with
  | None => ret ids
  | Some (OtherProperty _) => raise (KeyError "rich_text")
  | Some (RichTextProperty []) => ret ids
  | Some (RichTextProperty (run :: _)) =>
      let cur_canvas_id := plain_text run in
      log DEBUG "Found existing Canvas ID: %s" [cur_canvas_id] ;;;
      ret ({[cur_canvas_id]} ∪ ids)
  end.

Fixpoint scan_pages (pages : list Page) (ids : gset string)
  : M (gset string) :=
  match pages with
  | [] => ret ids
  | page :: rest =>
      ids' <- scan_page page ids ;;
      scan_pages rest ids'
  end.

(** The [while True] loop; one unit of [fuel] per iteration. *)
Fixpoint fetch_loop (fuel : nat) (ids : gset string) (cursor : option string)
    (batch : Z) : M (gset string) :=
  match fuel with
  | O => out_of_fuel
  | S fuel' =>
      let batch := batch + 1 in
      log DEBUG "Querying Notion (batch %d, cursor=%s)"
        [pretty batch; str_of_cursor cursor] ;;;
      resp <- notion_query cursor 100 ;;
      let results := default [] (results resp) in
      log DEBUG "Received %d results from Notion"
        [pretty (Z.of_nat (length results))] ;;;
      ids' <- scan_pages results ids ;;
      if negb (default false (has_more resp))
      then
        log DEBUG "No more Notion pages" [] ;;;
        ret ids'
      else
        fetch_loop fuel' ids' (next_cursor resp) batch
  end.

Definition fetch_existing_canvas_ids (fuel : nat) : M (gset string) :=
  log INFO "Fetching existing Canvas IDs from Notion" [] ;;;
  ids <- fetch_loop fuel ∅ None 0 ;;
  log INFO "Loaded %d existing Canvas IDs" [pretty (Z.of_nat (size ids))] ;;;
  ret ids.

(** ** The time window and the walk over courses (main.py 107-227) *)

(** The keyword arguments of [notion.pages.create] (main.py 186-203). *)
Definition build_request (a : Assignment) (class_select : string)
    (due_at end_at : datetime) (canvas_id : string) : CreateRequest :=
  {| parent_data_source_id := NOTION_DATABASE_ID;
     prop_Name := assignment_name a;
     prop_Date_start := isoformat lib due_at;
     prop_Date_end := isoformat lib end_at;
     prop_Class := class_select;
     prop_Ref := assignment_html_url a;
     prop_Status := "Not started";
     prop_Canvas_ID := canvas_id |}.

(** The body of [for assignment in assignments] after the counter
    (main.py 141-219).  Returning corresponds to reaching the end of the
    body or a [continue]. *)
Definition process_assignment (now week_out : datetime)
    (class_select : string) (a : Assignment) : M unit :=
  log DEBUG "Checking assignment: %s (ID %s)"
    [assignment_name a; str_of_int (assignment_id a)] ;;;
  match assignment_due_at a with
  | None | Some EmptyString =>
      log DEBUG "No due date, skipping assignment" []
  | Some due_str =>
    due_at <-
      match fromisoformat lib (str_replace "Z" "+00:00" due_str) with
      | Some d => ret d
      | None => raise ValueError
      end ;;
    log DEBUG "Parsed due date: %s" [isoformat lib due_at] ;;;
    in_window <- lift (window_check now due_at week_out) ;;
    if negb in_window
    then
      log DEBUG "Assignment outside window (due %s), skipping"
        [isoformat lib due_at]
    else
      let canvas_id := str_of_int (assignment_id a) in
      ids <- get_ids ;;
      if decide (canvas_id ∈ ids)
      then
        log DEBUG "Duplicate detected, already synced (Canvas ID %s)"
          [canvas_id]
      else
        end_at <- lift (dt_add due_at (timedelta_minutes 30)) ;;
        log DEBUG "Creating Notion page for assignment '%s' (Canvas ID %s)"
          [assignment_name a; canvas_id] ;;;
        try_except
          (notion_create
             (build_request a class_select due_at end_at canvas_id) ;;;
           ids' <- get_ids ;;
           set_ids ({[canvas_id]} ∪ ids') ;;;
           log INFO "Added assignment: %s -> %s"
             [assignment_name a; class_select])
          (fun e =>
             log_exception
               "Failed to create Notion page for assignment '%s' (Canvas ID %s)"
               [assignment_name a; canvas_id] e)
  end.

(** [for assignment in assignments], with its counter. *)
Fixpoint process_assignments (now week_out : datetime)
    (class_select : string) (assignments : PaginatedList Assignment)
    (assignment_count : Z) : M Z :=
  match assignments with
  | PLNil => ret assignment_count
  | PLRaise e => raise e
  | PLCons a rest =>
      let assignment_count := assignment_count + 1 in
      process_assignment now week_out class_select a ;;;
      process_assignments now week_out class_select rest assignment_count
  end.

(** The body of [for course in courses] (main.py 123-225). *)
Definition process_course (now week_out : datetime) (course : Course)
  : M unit :=
  log DEBUG "Evaluating course: %s (ID %s)"
    [course_name course; str_of_int (course_id course)] ;;;
  match name_map !! course_name course with
  | None =>
      log DEBUG "Course not in name_map, skipping: %s" [course_name course]
  | Some class_select =>
      log INFO "Processing course: %s -> %s"
        [course_name course; class_select] ;;;
      emit (EvGetAssignments (course_id course) (course_name course)) ;;;
      assignment_count <-
        process_assignments now week_out class_select
          (course_assignments course) 0 ;;
      log DEBUG "Finished course %s, checked %d assignments"
        [course_name course; pretty assignment_count]
  end.

Fixpoint process_courses (now week_out : datetime)
    (courses : PaginatedList Course) : M unit :=
  match courses with
  | PLNil => ret tt
  | PLRaise e => raise e
  | PLCons course rest =>
      process_course now week_out course ;;;
      process_courses now week_out rest
  end.

(** Everything from the window computation on (main.py 107-227), for a
    clock that reads [T]. *)
Definition sync_pass (T : Z) (courses : PaginatedList Course) : M unit :=
  let now := utc_now T in
  week_out <- lift (dt_add now (timedelta_days 7)) ;;
  log INFO "Scanning assignments due between %s and %s"
    [isoformat lib now; isoformat lib week_out] ;;;
  emit EvGetCourses ;;;
  log DEBUG "Canvas returned courses iterator" [] ;;;
  process_courses now week_out courses ;;;
  log INFO "Sync run complete" [].

(** The script from the first Notion query on (main.py 102-227). *)
Definition main (fuel : nat) (T : Z) (courses : PaginatedList Course)
  : M unit :=
  ids <- fetch_existing_canvas_ids fuel ;;
  set_ids ids ;;;
  sync_pass T courses.

(** The state main.py starts from: the remote store as it is, nothing
    loaded, nothing recorded. *)
Definition initial_state (n0 : notion_state notion) : run_state :=
  mk_state n0 ∅ [].

Definition run (n0 : notion_state notion) (fuel : nat) (T : Z)
    (courses : PaginatedList Course) : run_state * outcome unit :=
  main fuel T courses (initial_state n0).

End Run.

Arguments mk_state {notion} _ _ _.
Arguments notion_st {notion} _.
Arguments existing_canvas_ids {notion} _.
Arguments trace {notion} _.

(** ** A datetime library to run the model with

    The properties below hold for every [DatetimeLib].  To evaluate the
    model on concrete due-date strings this instance reads and prints the
    layout Canvas sends, [YYYY-MM-DDTHH:MM:SS] followed by nothing (a
    naive value) or by a [+HH:MM] / [-HH:MM] offset (an aware value), in
    the proleptic Gregorian calendar; it rejects every other string. *)

Module IsoSeconds.

Definition digit_of (c : ascii) : option Z :=
  let n := Z.of_nat (nat_of_ascii c) in
  if (48 <=? n) && (n <=? 57) then Some (n - 48) else None.

Fixpoint digits (n : nat) (acc : Z) (s : string) : option (Z * string) :=
  match n, s with
  | O, _ => Some (acc, s)
  | S n', String c s' =>
      match digit_of c with
      | Some d => digits n' (10 * acc + d) s'
      | None => None
      end
  | S _, EmptyString => None
  end.

Definition expect (c : ascii) (s : string) : option string :=
  match s with
  | String c' s' => if decide (c = c') then Some s' else None
  | EmptyString => None
  end.

Definition skip_one (s : string) : option string :=
  match s with
  | String _ s' => Some s'
  | EmptyString => None
  end.

Definition is_leap (y : Z) : bool :=
  (y mod 4 =? 0) && (negb (y mod 100 =? 0) || (y mod 400 =? 0)).

Definition days_in_month (y m : Z) : Z :=
  if m =? 2 then (if is_leap y then 29 else 28)
  else if (m =? 4) || (m =? 6) || (m =? 9) || (m =? 11) then 30
  else 31.

(** Days from 0001-01-01 to [y]-[m]-[d]. *)
Definition days_from_civil (y m d : Z) : Z :=
  let y' := if m <=? 2 then y - 1 else y in
  let era := y' / 400 in
  let yoe := y' - era * 400 in
  let mp := if 2 <? m then m - 3 else m + 9 in
  let doy := (153 * mp + 2) / 5 + d - 1 in
  let doe := yoe * 365 + yoe / 4 - yoe / 100 + doy in
  era * 146097 + doe - 306.

(** The inverse: year, month and day of a day number. *)
Definition civil_from_days (n : Z) : Z * Z * Z :=
  let z := n + 306 in
  let era := z / 146097 in
  let doe := z - era * 146097 in
  let yoe := (doe - doe / 1460 + doe / 36524 - doe / 146096) / 365 in
  let doy := doe - (365 * yoe + yoe / 4 - yoe / 100) in
  let mp := (5 * doy + 2) / 153 in
  let d := doy - (153 * mp + 2) / 5 + 1 in
  let m := if mp <? 10 then mp + 3 else mp - 9 in
  let y := yoe + era * 400 + (if m <=? 2 then 1 else 0) in
  (y, m, d).

Definition parse_offset (s : string) : option (option Z) :=
  match s with
  | EmptyString => Some None
  | String c s1 =>
      sign ← (if decide (c = "+"%char) then Some 1
              else if decide (c = "-"%char) then Some (-1) else None);
      '(hh, s2) ← digits 2 0 s1;
      s3 ← expect ":" s2;
      '(mm, s4) ← digits 2 0 s3;
      if decide (s4 = EmptyString) then
        if (hh <? 24) && (mm <? 60)
        then Some (Some (sign * (hh * 60 + mm) * usec_per_minute))
        else None
      else None
  end.

Definition parse (s : string) : option datetime :=
  '(y, s1) ← digits 4 0 s;
  s2 ← expect "-" s1;
  '(m, s3) ← digits 2 0 s2;
  s4 ← expect "-" s3;
  '(d, s5) ← digits 2 0 s4;
  s6 ← skip_one s5;
  '(hh, s7) ← digits 2 0 s6;
  s8 ← expect ":" s7;
  '(mi, s9) ← digits 2 0 s8;
  s10 ← expect ":" s9;
  '(ss, s11) ← digits 2 0 s10;
  off ← parse_offset s11;
  if (1 <=? y) && (1 <=? m) && (m <=? 12) && (1 <=? d)
     && (d <=? days_in_month y m) && (hh <? 24) && (mi <? 60) && (ss <? 60)
  then
    Some (mk_datetime
            (days_from_civil y m d * usec_per_day
             + (hh * 3600 + mi * 60 + ss) * usec_per_second)
            off)
  else None.

(** Decimal rendering, zero padded on the left to [width] digits. *)
Fixpoint pad (width : nat) (n : Z) : string :=
  match width with
  | O => EmptyString
  | S w => pad w (n / 10) +:+ pretty (n mod 10)
  end.

Definition print_fraction (us : Z) : string :=
  if us =? 0 then EmptyString else "." +:+ pad 6 us.

Definition print_offset (o : option Z) : string :=
  match o with
  | None => EmptyString
  | Some off =>
      let a := Z.abs off in
      let secs := a / usec_per_second in
      (if off <? 0 then "-" else "+")
      +:+ pad 2 (secs / 3600) +:+ ":" +:+ pad 2 (secs / 60 mod 60)
      +:+ (if (secs mod 60 =? 0) && (a mod usec_per_second =? 0)
           then EmptyString
           else ":" +:+ pad 2 (secs mod 60)
                +:+ print_fraction (a mod usec_per_second))
  end.

Definition print (dt : datetime) : string :=
  let '(y, m, d) := civil_from_days (wall dt / usec_per_day) in
  let secs := wall dt mod usec_per_day / usec_per_second in
  pad 4 y +:+ "-" +:+ pad 2 m +:+ "-" +:+ pad 2 d +:+ "T"
  +:+ pad 2 (secs / 3600) +:+ ":" +:+ pad 2 (secs / 60 mod 60) +:+ ":"
  +:+ pad 2 (secs mod 60)
  +:+ print_fraction (wall dt mod usec_per_second)
  +:+ print_offset (utcoffset dt).

Definition lib : DatetimeLib :=
  {| fromisoformat := parse; isoformat := print |}.

End IsoSeconds.

(** ** A Notion data source to run the model with

    A store that keeps its pages in a list, serves queries in slices of
    [page_size] pages with the offset of the next slice as cursor, and
    appends one page per successful create.  Failures are scripted:
    [pending_failures] lists the Canvas ids whose next create is to raise
    (one entry per failure), and [failing_query] tells how many queries
    still succeed before one raises. *)

Module SimNotion.

Record store : Type := mk_store {
  stored : list Page;
  pending_failures : list string;
  failing_query : option nat
}.

Definition encode_cursor (offset : nat) : string :=
  NilEmpty.string_of_uint (Nat.to_uint offset).

Definition decode_cursor (c : string) : option nat :=
  Nat.of_uint <$> NilEmpty.uint_of_string c.

Definition slice (pages : list Page) (offset : nat) (page_size : Z)
  : QueryResponse :=
  let n := Z.to_nat page_size in
  let more := Nat.ltb (offset + n) (length pages) in
  {| results := Some (take n (drop offset pages));
     has_more := Some more;
     next_cursor := if more then Some (encode_cursor (offset + n)) else None |}.

Definition query (st : store) (data_source_id : string)
    (start_cursor : option string) (page_size : Z)
  : store * result QueryResponse :=
  match failing_query st with
  | Some O =>
      (mk_store (stored st) (pending_failures st) None,
       Err (APIResponseError "query failed"))
  | budget =>
      let st' :=
        mk_store (stored st) (pending_failures st) (Nat.pred <$> budget) in
      match start_cursor with
      | None => (st', Ok (slice (stored st) 0 page_size))
      | Some c =>
          match decode_cursor c with
          | Some offset => (st', Ok (slice (stored st) offset page_size))
          | None => (st', Err (APIResponseError "invalid cursor"))
          end
      end
  end.

(** The page a create request turns into. *)
Definition page_of_request (req : CreateRequest) : Page :=
  {| properties :=
       <["Canvas ID" :=
           RichTextProperty [{| plain_text := prop_Canvas_ID req |}]]>
       (<["Name" := OtherProperty "title"]>
       (<["Date" := OtherProperty "date"]>
       (<["Class" := OtherProperty "select"]>
       (<["Ref" := OtherProperty "url"]>
       (<["Status" := OtherProperty "status"]> ∅))))) |}.

Fixpoint remove_first (x : string) (l : list string) : list string :=
  match l with
  | [] => []
  | y :: l' => if decide (x = y) then l' else y :: remove_first x l'
  end.

Definition create (st : store) (req : CreateRequest) : store * result unit :=
  if decide (prop_Canvas_ID req ∈ pending_failures st)
  then
    (mk_store (stored st)
       (remove_first (prop_Canvas_ID req) (pending_failures st))
       (failing_query st),
     Err (APIResponseError "create failed"))
  else
    (mk_store (stored st ++ [page_of_request req]) (pending_failures st)
       (failing_query st),
     Ok tt).

Definition client : NotionClient :=
  {| notion_state := store;
     data_sources_query := query;
     pages_create := create |}.

(** A page whose only property is a Canvas id. *)
Definition page_with_id (canvas_id : string) : Page :=
  {| properties :=
       {["Canvas ID" := RichTextProperty [{| plain_text := canvas_id |}]]} |}.

(** A healthy store holding [pages]. *)
Definition holding (pages : list Page) : store := mk_store pages [] None.

End SimNotion.

(** * Vocabulary of the properties

    What the statements below are written in: the decision taken for
    an assignment, the atomic steps of a run and what they record,
    the invariants, and the concrete inputs the properties are
    exercised on. *)

(** The character [c] occurs in [s]. *)
Fixpoint has_char (c : ascii) (s : string) : bool :=
  match s with
  | EmptyString => false
  | String x s' => if decide (c = x) then true else has_char c s'
  end.

(** A state with further events recorded. *)
Definition add_events {notion : NotionClient} (s : run_state notion)
    (evs : list event) : run_state notion :=
  mk_state (notion_st s) (existing_canvas_ids s) (trace s ++ evs).

(** The decision main.py takes for one assignment, given the ids known
    so far: leave it ([Skip]), die on it ([Abort]) or call
    [pages.create] for it ([Attempt]). *)
Inductive verdict : Type :=
| Skip
| Abort (e : exn)
| Attempt (due_at end_at : datetime).

(** The tests of main.py 147-176, in their order: due date present, due
    date parsed, window, duplicate, end of the date range. *)
Definition assess (lib : DatetimeLib) (now week_out : datetime)
    (ids : gset string) (a : Assignment) : verdict :=
  match assignment_due_at a with
  | None | Some EmptyString => Skip
  | Some due_str =>
      match fromisoformat lib (str_replace "Z" "+00:00" due_str) with
      | None => Abort ValueError
      | Some due_at =>
          match window_check now due_at week_out with
          | Err e => Abort e
          | Ok false => Skip
          | Ok true =>
              if decide (str_of_int (assignment_id a) ∈ ids) then Skip
              else
                match dt_add due_at (timedelta_minutes 30) with
                | Err e => Abort e
                | Ok end_at => Attempt due_at end_at
                end
          end
      end
  end.

(** The assignment has a due date that parses to [d] and lies in the
    window: it passes the due-date and window filters. *)
Definition due_in_window (lib : DatetimeLib) (now week_out : datetime)
    (a : Assignment) (d : datetime) : Prop :=
  exists due_str,
    assignment_due_at a = Some due_str /\ due_str <> EmptyString /\
    fromisoformat lib (str_replace "Z" "+00:00" due_str) = Some d /\
    window_check now d week_out = Ok true.

(** The assignment has a due date that parses to the aware value [d],
    whose UTC instant is [i]. *)
Definition due_instant (lib : DatetimeLib) (a : Assignment) (d : datetime)
    (i : Z) : Prop :=
  exists due_str,
    assignment_due_at a = Some due_str /\ due_str <> EmptyString /\
    fromisoformat lib (str_replace "Z" "+00:00" due_str) = Some d /\
    instant d = Some i.

(** The records the loop body writes on its way to the create call
    (main.py 141-174). *)
Definition checking_record (a : Assignment) : event :=
  EvLog DEBUG "Checking assignment: %s (ID %s)"
    [assignment_name a; str_of_int (assignment_id a)].

Definition no_due_date_record : event :=
  EvLog DEBUG "No due date, skipping assignment" [].

Definition parsed_record (lib : DatetimeLib) (due_at : datetime) : event :=
  EvLog DEBUG "Parsed due date: %s" [isoformat lib due_at].

Definition outside_window_record (lib : DatetimeLib) (due_at : datetime)
  : event :=
  EvLog DEBUG "Assignment outside window (due %s), skipping"
    [isoformat lib due_at].

Definition duplicate_record (a : Assignment) : event :=
  EvLog DEBUG "Duplicate detected, already synced (Canvas ID %s)"
    [str_of_int (assignment_id a)].

(** Once a create call for an id has returned, the trace holds no later
    create call for that id. *)
Definition no_call_after_success (tr : list event) : Prop :=
  forall tr1 r tr2,
    tr = tr1 ++ EvCreate r (Ok tt) :: tr2 ->
    forall r', r' ∈ create_calls tr2 -> prop_Canvas_ID r' <> prop_Canvas_ID r.

(** The Canvas id main.py reads off a page, if any. *)
Definition canvas_id_of (page : Page) : option string :=
  match properties page !! "Canvas ID" with
  | Some (RichTextProperty (run :: _)) => Some (plain_text run)
  | _ => None
  end.

(** The ["Canvas ID"] property, when present, is of the rich text type. *)
Definition well_typed (page : Page) : Prop :=
  forall type, properties page !! "Canvas ID" <> Some (OtherProperty type).

Section Vocabulary.

Context (lib : DatetimeLib) (notion : NotionClient).
Context (db : string) (name_map : gmap string string).

Implicit Types (s : run_state notion) (a : Assignment) (ids : gset string).

(** Every state change main.py makes is one of a few atomic steps.  The
    loader only logs and queries. *)
Inductive load_step : relation (run_state notion) :=
| load_log s lvl template args :
    load_step s (add_events s [EvLog lvl template args])
| load_query s cursor n' res :
    data_sources_query notion (notion_st s) db cursor 100 = (n', res) ->
    load_step s
      (mk_state n' (existing_canvas_ids s)
         (trace s ++ [EvQuery db cursor 100 res])).

(** The pass over the courses only logs, calls Canvas and calls
    [pages.create], the latter only for an id that is not in the set,
    which then receives the id exactly when the call returns. *)
Inductive sync_step : relation (run_state notion) :=
| sync_log s ev :
    is_log ev -> sync_step s (add_events s [ev])
| sync_get_courses s :
    sync_step s (add_events s [EvGetCourses])
| sync_get_assignments s course class_select :
    name_map !! course_name course = Some class_select ->
    sync_step s
      (add_events s [EvGetAssignments (course_id course) (course_name course)])
| sync_create s a class_select due_at end_at n' res :
    let canvas_id := str_of_int (assignment_id a) in
    let req := build_request lib db a class_select due_at end_at canvas_id in
    (exists name, name_map !! name = Some class_select) ->
    canvas_id ∉ existing_canvas_ids s ->
    pages_create notion (notion_st s) req = (n', res) ->
    sync_step s
      (mk_state n'
         (match res with
          | Ok _ => {[canvas_id]} ∪ existing_canvas_ids s
          | Err _ => existing_canvas_ids s
          end)
         (trace s ++ [EvCreate req res])).

(** The events a load step records. *)
Definition load_event (ev : event) : Prop :=
  match ev with
  | EvLog _ _ _ => True
  | EvQuery d _ n _ => d = db /\ n = 100
  | _ => False
  end.

(** The events a step of the pass records. *)
Definition sync_event (ev : event) : Prop :=
  match ev with
  | EvLog _ _ _ | EvLogException _ _ _ | EvGetCourses => True
  | EvGetAssignments _ name => is_Some (name_map !! name)
  | EvCreate req _ =>
      parent_data_source_id req = db /\ prop_Status req = "Not started" /\
      exists name, name_map !! name = Some (prop_Class req)
  | EvQuery _ _ _ _ => False
  end.

(** The set holds [baseline] and the ids of the pages created so far,
    and nothing else; no create call follows a successful one for the
    same id; and no create call was made for an id of [baseline]. *)
Definition dedup_inv (baseline : gset string) s : Prop :=
  baseline ⊆ existing_canvas_ids s /\
  (forall r, r ∈ created (trace s) ->
     prop_Canvas_ID r ∈ existing_canvas_ids s) /\
  no_call_after_success (trace s) /\
  (forall r, r ∈ create_calls (trace s) -> prop_Canvas_ID r ∉ baseline) /\
  (forall x, x ∈ existing_canvas_ids s ->
     x ∈ baseline \/ exists r, r ∈ created (trace s) /\ prop_Canvas_ID r = x).

(** An assignment that passes the due-date and window filters and whose
    end time is representable. *)
Definition eligible now week_out a : Prop :=
  exists due_at end_at,
    due_in_window lib now week_out a due_at /\
    dt_add due_at (timedelta_minutes 30) = Ok end_at.

(** The request main.py builds for an eligible assignment. *)
Definition request_of now week_out class_select a (req : CreateRequest)
  : Prop :=
  exists due_at end_at,
    due_in_window lib now week_out a due_at /\
    dt_add due_at (timedelta_minutes 30) = Ok end_at /\
    req = build_request lib db a class_select due_at end_at
            (str_of_int (assignment_id a)).

(** The exception a due-date string leads to, if any: [ValueError] when
    it does not parse, [TypeError] when it parses to a naive value, which
    cannot be compared with the aware bounds of the window. *)
Definition due_error (due_str : string) : option exn :=
  match fromisoformat lib (str_replace "Z" "+00:00" due_str) with
  | None => Some ValueError
  | Some d =>
      match utcoffset d with
      | None => Some TypeError
      | Some _ => None
      end
  end.

(** Every assignment of a mapped course that passes the due-date and
    window filters has its id in [ids]. *)
Definition all_known now week_out (courses : PaginatedList Course)
    (ids : gset string) : Prop :=
  forall course class_select a d,
    course ∈ pl_items courses ->
    name_map !! course_name course = Some class_select ->
    a ∈ pl_items (course_assignments course) ->
    due_in_window lib now week_out a d ->
    str_of_int (assignment_id a) ∈ ids.

(** A stretch of the run that made no create call and left the store and
    the set alone. *)
Definition quiet s s' : Prop :=
  notion_st s' = notion_st s /\
  existing_canvas_ids s' = existing_canvas_ids s /\
  exists evs, trace s' = trace s ++ evs /\ create_calls evs = [].

(** Same store, same id set, same external calls so far. *)
Definition same_calls s t : Prop :=
  notion_st s = notion_st t /\
  existing_canvas_ids s = existing_canvas_ids t /\
  calls (trace s) = calls (trace t).

(** The loop body, run on [a] from [s], stops at the window filter: the
    due date [d] is reported as outside the window and nothing else
    happens (main.py 157-162). *)
Definition stopped_by_window_filter now week_out (class_select : string) a
    (d : datetime) s : Prop :=
  process_assignment lib notion db now week_out class_select a s =
  (add_events s
     [checking_record a; parsed_record lib d; outside_window_record lib d],
   Done tt).

(** The loop body, run on [a] from [s], gets past the window filter with
    the due date [d] and does what follows it (main.py 164-219): an id
    that is in the set is reported as a duplicate; otherwise the end of
    the date range is computed, which may raise, and [pages.create] is
    called with the request built from [d]. *)
Definition passes_window_filter now week_out (class_select : string) a
    (d : datetime) s : Prop :=
  let canvas_id := str_of_int (assignment_id a) in
  let r := process_assignment lib notion db now week_out class_select a s in
  if decide (canvas_id ∈ existing_canvas_ids s)
  then
    r = (add_events s
           [checking_record a; parsed_record lib d; duplicate_record a],
         Done tt)
  else
    match dt_add d (timedelta_minutes 30) with
    | Err e =>
        r = (add_events s [checking_record a; parsed_record lib d], Raised e)
    | Ok end_at =>
        r.2 = Done tt /\
        create_calls (trace r.1) =
        create_calls (trace s)
        ++ [build_request lib db a class_select d end_at canvas_id]
    end.

End Vocabulary.

Arguments load_log {_ _}.
Arguments load_query {_ _}.
Arguments sync_log {_ _ _ _}.
Arguments sync_get_courses {_ _ _ _}.
Arguments sync_get_assignments {_ _ _ _}.
Arguments sync_create {_ _ _ _}.

(** ** The loader against the simulated store *)

(** Number of queries the loader needs for a store of [n] pages. *)
Definition queries_needed (n : nat) : nat := S ((n - 1) / 100).

Module SimLoader.

Import SimNotion.

(** The cursor the store hands out for an offset; the first query has
    none. *)
Definition cursor_at (offset : nat) : option string :=
  match offset with
  | O => None
  | S _ => Some (encode_cursor offset)
  end.

(** Queries still to come when the loader stands at [offset]. *)
Definition cursors_from (offset count : nat) : list (option string * Z) :=
  (fun j => (cursor_at (offset + 100 * j), 100)) <$> seq 0 count.

End SimLoader.

(** * Concrete runs

    A small Canvas account, the simulated Notion store and the
    [IsoSeconds] datetime library: the properties above, exercised. *)

Module Scenario.

Definition db : string := "assignments".

Definition name_map : gmap string string :=
  {["Math 101" := "Math"; "Physics 2" := "Physics"]}.

(** 2024-01-01T00:00:00Z, and one hour later. *)
Definition T0 : Z := IsoSeconds.days_from_civil 2024 1 1 * usec_per_day.
Definition T1 : Z := T0 + 3600 * usec_per_second.

Definition week_out0 : datetime :=
  mk_datetime (T0 + timedelta_days 7) (Some 0).

Definition assignment (id : Z) (name : string) (due_at : option string)
  : Assignment :=
  {| assignment_id := id;
     assignment_name := name;
     assignment_due_at := due_at;
     assignment_html_url := "https://canvas.example/assignments/" +:+ pretty id |}.

Definition hw1 := assignment 1 "Homework 1" (Some "2024-01-03T10:00:00Z").
Definition hw2 := assignment 2 "Homework 2" (Some "2024-01-04T10:00:00Z").
Definition hw3 := assignment 3 "Homework 3" (Some "2024-01-05T10:00:00Z").
Definition quiz7 := assignment 7 "Quiz" (Some "2024-01-02T08:00:00Z").
Definition essay := assignment 8 "Essay" (Some "tomorrow").
Definition naive := assignment 9 "Lab" (Some "2024-01-02T08:00:00").
Definition undated := assignment 10 "Reading" None.
Definition late := assignment 11 "Project" (Some "2024-01-08T00:00:01Z").

(** Due when the window opens, when it closes, and one second before it
    opens. *)
Definition at_open := assignment 20 "Warm-up" (Some "2024-01-01T00:00:00Z").
Definition at_close := assignment 21 "Wrap-up" (Some "2024-01-08T00:00:00Z").
Definition early := assignment 22 "Survey" (Some "2023-12-31T23:59:59Z").

Definition course (id : Z) (name : string) (l : PaginatedList Assignment)
  : Course :=
  {| course_id := id; course_name := name; course_assignments := l |}.

Definition math : Course := course 101 "Math 101" (paginated [hw1; hw2; hw3]).
Definition art : Course := course 300 "Art" (paginated [hw1; quiz7]).

Definition run_with (n0 : SimNotion.store) (fuel : nat) (T : Z)
    (courses : PaginatedList Course) :=
  run IsoSeconds.lib SimNotion.client db name_map n0 fuel T courses.

Definition canvas_ids (l : list CreateRequest) : list string :=
  prop_Canvas_ID <$> l.

(** The course yields the quiz, a homework and the quiz again; the store
    fails the first create call for the quiz. *)
Definition quiz_twice : PaginatedList Course :=
  paginated [course 101 "Math 101" (paginated [quiz7; hw1; quiz7])].

Definition quiz_twice_run :=
  run_with (SimNotion.mk_store [] ["7"] None) 5 T0 quiz_twice.

Definition second_fails : SimNotion.store := SimNotion.mk_store [] ["2"] None.

Definition second_fails_loaded :=
  (fetch_existing_canvas_ids SimNotion.client db 5
     (initial_state SimNotion.client second_fails)).1.

Definition pages250 : list Page :=
  (fun n => SimNotion.page_with_id (pretty n)) <$> seq 0 250.

Definition flaky : SimNotion.store :=
  SimNotion.mk_store pages250 [] (Some 1%nat).

Definition two_homeworks : PaginatedList Course :=
  paginated [course 101 "Math 101" (paginated [hw1; hw2])].

Definition first_run := run_with (SimNotion.holding []) 5 T0 two_homeworks.

(** The second run starts an hour later from the store the first run
    left behind. *)
Definition second_run :=
  run_with (notion_st first_run.1) 5 T1 two_homeworks.

Definition before_quiz : run_state SimNotion.client :=
  mk_state (SimNotion.mk_store [] ["7"] None : notion_state SimNotion.client)
    ∅ [].

Definition after_quiz :=
  (process_assignment IsoSeconds.lib SimNotion.client db (utc_now T0)
     week_out0 "Math" quiz7 before_quiz).1.

Definition after_homework :=
  (process_assignments IsoSeconds.lib SimNotion.client db (utc_now T0)
     week_out0 "Math" (paginated [hw1]) (0 + 1) after_quiz).1.

Definition essay_first : Course :=
  course 101 "Math 101" (PLCons essay (paginated [hw1])).

Definition physics : Course := course 202 "Physics 2" (paginated [hw2]).

(** Math 101 with an assignment due one second before the window opens,
    one due when it opens, one due when it closes and one due a second
    later. *)
Definition window_ends : PaginatedList Course :=
  paginated [course 101 "Math 101" (paginated [early; at_open; at_close; late])].

(** Math 101 with a reading that has no due date and a homework. *)
Definition reading_and_homework : PaginatedList Course :=
  paginated [course 101 "Math 101" (paginated [undated; hw1])].

End Scenario.

Import Scenario.

(** * Vocabulary of the further properties *)

(** ** The loader's dialogue with the store *)

(** The queries of a trace, each with its cursor and what was
    returned. *)
Definition query_results (tr : list event)
  : list (option string * result QueryResponse) :=
  omap (fun ev => match ev with
                  | EvQuery _ c _ res => Some (c, res)
                  | _ => None
                  end) tr.

(** The pages main.py reads off a response: [resp.get("results", [])]. *)
Definition pages_of (res : result QueryResponse) : list Page :=
  match res with
  | Ok resp => default [] (results resp)
  | Err _ => []
  end.

(** Every page the queries of a trace returned, in order. *)
Definition pages_seen (tr : list event) : list Page :=
  query_results tr ≫= (fun q => pages_of q.2).

(** The first query carries [cursor]; every later one follows a response
    whose [has_more] was true and carries that response's
    [next_cursor]. *)
Fixpoint follows_cursors (cursor : option string)
    (qs : list (option string * result QueryResponse)) : Prop :=
  match qs with
  | [] => True
  | (c, res) :: rest =>
      c = cursor /\
      match rest with
      | [] => True
      | _ :: _ =>
          match res with
          | Ok resp =>
              has_more resp = Some true /\
              follows_cursors (next_cursor resp) rest
          | Err _ => False
          end
      end
  end.

(** Queried along the cursors from state [n] on, the store answers with
    the responses [resps], one after the other: each but the last says
    that there is more, the last does not. *)
Fixpoint answers (notion : NotionClient) (db : string)
    (n : notion_state notion) (cursor : option string)
    (resps : list QueryResponse) : Prop :=
  match resps with
  | [] => False
  | resp :: rest =>
      exists n',
        data_sources_query notion n db cursor 100 = (n', Ok resp) /\
        match rest with
        | [] => has_more resp <> Some true
        | _ :: _ =>
            has_more resp = Some true /\
            answers notion db n' (next_cursor resp) rest
        end
  end.

(** The ["Canvas ID"] property of the page is of another type than rich
    text. *)
Definition ill_typed (page : Page) : Prop :=
  exists type, properties page !! "Canvas ID" = Some (OtherProperty type).

(** ** Canvas enumerations *)

(** The enumeration ends without raising. *)
Fixpoint ends_normally {A : Type} (l : PaginatedList A) : Prop :=
  match l with
  | PLNil => True
  | PLCons _ rest => ends_normally rest
  | PLRaise _ => False
  end.

(** The assignments a run gets to see, in the order of the enumeration,
    each with the label of its course: those of the mapped courses. *)
Definition candidates (name_map : gmap string string)
    (courses : PaginatedList Course) : list (string * Assignment) :=
  pl_items courses ≫= (fun course =>
    match name_map !! course_name course with
    | Some class_select =>
        (fun a => (class_select, a)) <$> pl_items (course_assignments course)
    | None => []
    end).

(** ** The log handlers (main.py 13-36) *)

(** [logging.DEBUG], [logging.INFO], [logging.ERROR]. *)
Definition levelno (lvl : level) : Z :=
  match lvl with
  | DEBUG => 10
  | INFO => 20
  | ERROR => 40
  end.

(** A log record: [logger.exception] records at [ERROR] and attaches the
    exception being handled. *)
Record LogRecord : Type := {
  record_level : level;
  record_template : string;
  record_args : list string;
  record_exc : option exn
}.

Definition log_record (ev : event) : option LogRecord :=
  match ev with
  | EvLog lvl template args =>
      Some {| record_level := lvl; record_template := template;
              record_args := args; record_exc := None |}
  | EvLogException template args e =>
      Some {| record_level := ERROR; record_template := template;
              record_args := args; record_exc := Some e |}
  | _ => None
  end.

(** [logger.setLevel(logging.DEBUG)], [console_handler.setLevel(logging.INFO)],
    [file_handler.setLevel(logging.DEBUG)]. *)
Definition logger_level : level := DEBUG.
Definition console_handler_level : level := INFO.
Definition file_handler_level : level := DEBUG.

(** The records a handler of level [handler_level] emits: those the
    logger lets through and whose level is not below the handler's. *)
Definition handled (handler_level : level) (tr : list event)
  : list LogRecord :=
  filter (fun r => levelno logger_level <= levelno (record_level r) /\
                   levelno handler_level <= levelno (record_level r))
    (omap log_record tr).

Definition console (tr : list event) : list LogRecord :=
  handled console_handler_level tr.

Definition log_file (tr : list event) : list LogRecord :=
  handled file_handler_level tr.

(** The record main.py writes once a create call has ended. *)
Definition create_report (ev : event) : option LogRecord :=
  match ev with
  | EvCreate req (Ok _) =>
      Some {| record_level := INFO;
              record_template := "Added assignment: %s -> %s";
              record_args := [prop_Name req; prop_Class req];
              record_exc := None |}
  | EvCreate req (Err e) =>
      Some {| record_level := ERROR;
              record_template :=
                "Failed to create Notion page for assignment '%s' (Canvas ID %s)";
              record_args := [prop_Name req; prop_Canvas_ID req];
              record_exc := Some e |}
  | _ => None
  end.

(** The records that report on create calls: the ["Added assignment"]
    ones and those that carry an exception. *)
Definition about_creates (r : LogRecord) : Prop :=
  record_template r = "Added assignment: %s -> %s" \/ is_Some (record_exc r).

#[global] Instance about_creates_dec (r : LogRecord)
  : Decision (about_creates r) :=
  or_dec (decide (record_template r = "Added assignment: %s -> %s"))
    (decide (is_Some (record_exc r))).

(** ** A store that loses its cursor

    The simulated store, except that its responses carry no
    [next_cursor]. *)

Module LostCursor.

Definition query (st : SimNotion.store) (data_source_id : string)
    (start_cursor : option string) (page_size : Z)
  : SimNotion.store * result QueryResponse :=
  match SimNotion.query st data_source_id start_cursor page_size with
  | (st', Ok resp) =>
      (st', Ok {| results := results resp; has_more := has_more resp;
                  next_cursor := None |})
  | r => r
  end.

Definition client : NotionClient :=
  {| notion_state := SimNotion.store;
     data_sources_query := query;
     pages_create := SimNotion.create |}.

End LostCursor.

(** ** Due dates that cannot abort a run *)

(** The due date of the assignment, when it has one, parses to an aware
    value whose end of range, 30 minutes later, is representable. *)
Definition well_dated (lib : DatetimeLib) (a : Assignment) : Prop :=
  forall due_str,
    assignment_due_at a = Some due_str -> due_str <> EmptyString ->
    exists d o end_at,
      fromisoformat lib (str_replace "Z" "+00:00" due_str) = Some d /\
      utcoffset d = Some o /\
      dt_add d (timedelta_minutes 30) = Ok end_at.

(** ** Exceptions of the Canvas enumerations *)

(** The exception an enumeration ends with, if it does. *)
Fixpoint pl_error {A : Type} (l : PaginatedList A) : option exn :=
  match l with
  | PLNil => None
  | PLCons _ rest => pl_error rest
  | PLRaise e => Some e
  end.

(** The exceptions the enumerations a run may iterate can end with: that
    of the courses and those of the assignments of the mapped courses. *)
Definition listing_errors (name_map : gmap string string)
    (courses : PaginatedList Course) : list exn :=
  option_list (pl_error courses) ++
  (pl_items courses ≫= (fun course =>
     match name_map !! course_name course with
     | Some _ => option_list (pl_error (course_assignments course))
     | None => []
     end)).

(** The run dies on the due date of [a] with the exception [e], the
    trace ending as [tr] does.  The due date does not parse
    ([ValueError], after the record that [a] is being checked); or it
    parses to a naive value, which cannot be compared with the aware
    bounds of the window ([TypeError]); or it lies in the window, which
    began at [T], and its end, 30 minutes later, is not representable
    ([OverflowError]). *)
Definition due_date_fault (lib : DatetimeLib) (T : Z) (a : Assignment)
    (e : exn) (tr : list event) : Prop :=
  exists due_str tr0,
    assignment_due_at a = Some due_str /\ due_str <> EmptyString /\
    match fromisoformat lib (str_replace "Z" "+00:00" due_str) with
    | None => e = ValueError /\ tr = tr0 ++ [checking_record a]
    | Some d =>
        tr = tr0 ++ [checking_record a; parsed_record lib d] /\
        match utcoffset d with
        | None => e = TypeError
        | Some o =>
            e = OverflowError /\
            T <= wall d - o <= T + timedelta_days 7 /\
            dt_add d (timedelta_minutes 30) = Err OverflowError
        end
    end.

(** ** Further concrete inputs *)

(** Pages of all the shapes the loader tells apart: with an id, without
    the property, with an empty rich text, with a rich text of two
    items, and with an id already seen. *)
Definition assorted_pages : list Page :=
  [SimNotion.page_with_id "41";
   {| properties := ∅ |};
   {| properties := {["Canvas ID" := RichTextProperty []]} |};
   {| properties :=
        {["Canvas ID" := RichTextProperty [{| plain_text := "42" |};
                                          {| plain_text := "b" |}]]} |};
   SimNotion.page_with_id "41"].

(** A page of a data source whose Canvas id column is a number column. *)
Definition numbered_page : Page :=
  {| properties := {["Canvas ID" := OtherProperty "number"]} |}.

Definition mistyped : SimNotion.store :=
  SimNotion.holding
    [SimNotion.page_with_id "1"; numbered_page; SimNotion.page_with_id "3"].

Definition connection_reset : exn := CanvasException "connection reset".

(** Math 101 when Canvas fails after the first homework. *)
Definition math_interrupted : Course :=
  course 101 "Math 101" (pl_app [hw1] (PLRaise connection_reset)).

(** * Properties *)

(** ** Strings *)

Lemma append_assoc (a b c : string) : (a +:+ b) +:+ c = a +:+ (b +:+ c).
Proof.
  induction a as [|x a IH]; [done |].
  change (String x ((a +:+ b) +:+ c) = String x (a +:+ b +:+ c)).
  by rewrite IH.
Qed.

Lemma prefix_empty (s : string) : String.prefix EmptyString s = true.
Proof. by destruct s. Qed.

(** Replacing a one-character pattern works character by character. *)
Lemma str_replace_char_app (c : ascii) (new p q : string) :
  str_replace (String c EmptyString) new (p +:+ q) =
  str_replace (String c EmptyString) new p
  +:+ str_replace (String c EmptyString) new q.
Proof.
  unfold str_replace. induction p as [|x p IH]; [done |].
  change (String x p +:+ q) with (String x (p +:+ q)).
  cbn [replace_from String.prefix String.length Nat.pred].
  destruct (ascii_dec c x) as [->|Hne].
  - rewrite !prefix_empty, IH. by rewrite append_assoc.
  - by rewrite IH.
Qed.

Lemma str_replace_char_absent (c : ascii) (new p : string) :
  has_char c p = false ->
  str_replace (String c EmptyString) new p = p.
Proof.
  unfold str_replace. induction p as [|x p IH]; [done |].
  cbn [has_char replace_from String.prefix].
  destruct (decide (c = x)) as [|Hne]; [done |]. intros Hp.
  destruct (ascii_dec c x); [done |]. by rewrite IH.
Qed.

Lemma str_replace_Z_suffix (p : string) :
  str_replace "Z" "+00:00" (p +:+ "Z") =
  str_replace "Z" "+00:00" p +:+ "+00:00".
Proof. by rewrite str_replace_char_app. Qed.

Lemma str_truthy_false (o : option string) :
  str_truthy o = false <-> o = None \/ o = Some EmptyString.
Proof.
  destruct o as [[|c s]|]; simpl; split; try done; try tauto.
  - intros [|]; done.
Qed.

(** ** The window *)

Lemma dt_add_utc_now (T td : Z) (d : datetime) :
  dt_add (utc_now T) td = Ok d -> d = mk_datetime (T + td) (Some 0).
Proof.
  unfold dt_add, utc_now; simpl.
  destruct (_ && _); [|done]. by intros [= <-].
Qed.

Lemma window_check_aware (T : Z) (week_out d : datetime) (i : Z) :
  dt_add (utc_now T) (timedelta_days 7) = Ok week_out ->
  instant d = Some i ->
  window_check (utc_now T) d week_out =
  Ok (bool_decide (T <= i <= T + timedelta_days 7)).
Proof.
  intros Hw Hi. apply dt_add_utc_now in Hw as ->.
  unfold instant in Hi. unfold window_check, dt_le, utc_now; simpl.
  destruct (utcoffset d) as [o|]; [|done]. injection Hi as <-.
  rewrite Z.sub_0_r.
  destruct (Z.leb_spec T (wall d - o)).
  - f_equal. destruct (Z.leb_spec (wall d - o) (T + timedelta_days 7 - 0));
      [rewrite bool_decide_eq_true_2 | rewrite bool_decide_eq_false_2];
      try done; lia.
  - f_equal. rewrite bool_decide_eq_false_2; [done | lia].
Qed.

Lemma window_check_naive (T : Z) (week_out d : datetime) :
  utcoffset d = None ->
  window_check (utc_now T) d week_out = Err TypeError.
Proof.
  intros Hd. unfold window_check, dt_le, utc_now; simpl. by rewrite Hd.
Qed.

(** ** Create calls in a trace *)

Lemma snoc_split {A : Type} (l l1 l2 : list A) (x y : A) :
  l ++ [x] = l1 ++ y :: l2 ->
  (l2 = [] /\ l = l1 /\ x = y)
  \/ (exists l2', l2 = l2' ++ [x] /\ l = l1 ++ y :: l2').
Proof.
  destruct l2 as [|z l2 _] using rev_ind; intros H.
  - left. apply app_inj_tail in H as [-> ->]. done.
  - right. exists l2.
    change (l1 ++ y :: l2 ++ [z]) with (l1 ++ (y :: l2) ++ [z]) in H.
    rewrite app_assoc in H. apply app_inj_tail in H as [-> ->]. done.
Qed.

Lemma created_create_calls (tr : list event) (r : CreateRequest) :
  r ∈ created tr -> r ∈ create_calls tr.
Proof.
  unfold created, create_calls. rewrite !list_elem_of_omap.
  intros (ev & Hev & Hr). exists ev. split; [done |].
  destruct ev as [| | |req [[]|]| |]; naive_solver.
Qed.

Lemma no_call_after_success_snoc (tr : list event) (ev : event) :
  no_call_after_success tr ->
  (forall req res, ev = EvCreate req res ->
     forall r, r ∈ created tr -> prop_Canvas_ID r <> prop_Canvas_ID req) ->
  no_call_after_success (tr ++ [ev]).
Proof.
  intros Htr Hev tr1 r tr2 Heq r' Hr'.
  apply snoc_split in Heq as [(-> & _ & _)|(tr2' & -> & ->)].
  - by apply elem_of_nil in Hr'.
  - unfold create_calls in Hr'. rewrite omap_app in Hr'.
    apply elem_of_app in Hr' as [Hr'|Hr'].
    + by eapply Htr.
    + destruct ev as [| | |req res| |]; simpl in Hr';
        try by apply elem_of_nil in Hr'.
      apply list_elem_of_singleton in Hr' as ->.
      intros Heq. eapply Hev; [done | | by symmetry].
      unfold created. rewrite omap_app. apply elem_of_app. right.
      simpl. by left.
Qed.

Lemma no_call_after_success_nodup (tr : list event) :
  no_call_after_success tr -> NoDup (prop_Canvas_ID <$> created tr).
Proof.
  induction tr as [|ev tr IH]; intros H; [constructor |].
  assert (Htr : no_call_after_success tr).
  { intros tr1 r tr2 -> . by apply (H (ev :: tr1)). }
  destruct ev as [| | |req [[]|e]| |]; simpl; try by apply IH.
  constructor; [| by apply IH].
  rewrite list_elem_of_fmap. intros (r' & Heq & Hr').
  by apply (H [] req tr eq_refl r'); [apply created_create_calls |].
Qed.

Section Properties.

Context (lib : DatetimeLib) (notion : NotionClient).
Context (db : string) (name_map : gmap string string).

Implicit Types (s : run_state notion) (a : Assignment) (ids : gset string).

Local Abbreviation load_step := (load_step notion db).
Local Abbreviation sync_step := (sync_step lib notion db name_map).
Local Abbreviation load_event := (load_event db).
Local Abbreviation sync_event := (sync_event db name_map).
Local Abbreviation dedup_inv := (dedup_inv notion).
Local Abbreviation eligible := (eligible lib).
Local Abbreviation request_of := (request_of lib db).
Local Abbreviation due_error := (due_error lib).
Local Abbreviation all_known := (all_known lib name_map).
Local Abbreviation quiet := (quiet notion).
Local Abbreviation same_calls := (same_calls notion).

(** ** What one assignment does *)

Lemma add_events_nil s : add_events s [] = s.
Proof. destruct s. unfold add_events; simpl. by rewrite app_nil_r. Qed.

Lemma add_events_app s (l1 l2 : list event) :
  add_events (add_events s l1) l2 = add_events s (l1 ++ l2).
Proof. unfold add_events; simpl. by rewrite app_assoc. Qed.

Lemma emit_eq (ev : event) s : emit notion ev s = (add_events s [ev], Done tt).
Proof. done. Qed.

Lemma log_eq lvl t args s :
  log notion lvl t args s = (add_events s [EvLog lvl t args], Done tt).
Proof. done. Qed.

Lemma assess_due_in_window now week_out ids a d :
  due_in_window lib now week_out a d ->
  assess lib now week_out ids a =
  if decide (str_of_int (assignment_id a) ∈ ids) then Skip
  else match dt_add d (timedelta_minutes 30) with
       | Err e => Abort e
       | Ok end_at => Attempt d end_at
       end.
Proof.
  intros (due_str & Hdue & Hne & Hparse & Hwin). unfold assess.
  rewrite Hdue. destruct due_str; [done |]. by rewrite Hparse, Hwin.
Qed.

Ltac close_case :=
  rewrite <- ?app_assoc; simpl;
  refine (conj _ (conj _ (conj _ (conj eq_refl _))));
  by repeat constructor.

(** [process_assignment] carries out the verdict: apart from log
    records, the only thing it can do is one [pages.create] call, whose
    id joins the set exactly when the call returns; a failed call is
    logged and swallowed. *)
Lemma process_assignment_assess now week_out class_select a s :
  exists logs1 logs2,
    Forall is_log logs1 /\ Forall is_log logs2 /\
    logged_exceptions logs1 = [] /\
    process_assignment lib notion db now week_out class_select a s =
    match assess lib now week_out (existing_canvas_ids s) a with
    | Skip => (add_events s logs1, Done tt)
    | Abort e => (add_events s logs1, Raised e)
    | Attempt due_at end_at =>
        let canvas_id := str_of_int (assignment_id a) in
        let req := build_request lib db a class_select due_at end_at canvas_id in
        let (n', res) := pages_create notion (notion_st s) req in
        (mk_state n'
           (match res with
            | Ok _ => {[canvas_id]} ∪ existing_canvas_ids s
            | Err _ => existing_canvas_ids s
            end)
           (trace s ++ logs1 ++ EvCreate req res :: logs2),
         Done tt)
    end /\
    match assess lib now week_out (existing_canvas_ids s) a with
    | Attempt due_at end_at =>
        let canvas_id := str_of_int (assignment_id a) in
        let req := build_request lib db a class_select due_at end_at canvas_id in
        logged_exceptions logs2 =
        match (pages_create notion (notion_st s) req).2 with
        | Ok _ => []
        | Err e => [e]
        end
    | _ => True
    end.
Proof.
  unfold process_assignment, assess, bind, log, log_exception, emit, raise,
    ret, lift, get_ids, set_ids, try_except, notion_create, add_events.
  destruct (assignment_due_at a) as [[|c due_str]|]; simpl.
  1,3: eexists [_; _], []; close_case.
  destruct (fromisoformat _ _) as [due_at|]; simpl.
  2: eexists [_], []; close_case.
  destruct (window_check _ _ _) as [[|]|e]; simpl.
  2: eexists [_; _; _], []; close_case.
  2: eexists [_; _], []; close_case.
  destruct (decide _) as [Hin|Hnotin]; simpl.
  { eexists [_; _; _], []; close_case. }
  destruct (dt_add _ _) as [end_at|e]; simpl.
  2: eexists [_; _], []; close_case.
  destruct (pages_create _ _ _) as [n' [[]|e]]; simpl;
    eexists [_; _; _], [_]; close_case.
Qed.

(** ** The run as a transition system *)

Lemma rtc_logs (R : relation (run_state notion)) s (logs : list event) :
  (forall s ev, is_log ev -> R s (add_events s [ev])) ->
  Forall is_log logs -> rtc R s (add_events s logs).
Proof.
  intros HR Hlogs. revert s.
  induction Hlogs as [|ev logs Hev _ IH]; intros s.
  - by rewrite add_events_nil.
  - change (ev :: logs) with ([ev] ++ logs). rewrite <- add_events_app.
    eapply rtc_l; [by apply HR | apply IH].
Qed.

Lemma process_assignment_steps now week_out class_select a s s' o :
  (exists name, name_map !! name = Some class_select) ->
  process_assignment lib notion db now week_out class_select a s = (s', o) ->
  rtc sync_step s s'.
Proof.
  intros Hmapped.
  destruct (process_assignment_assess now week_out class_select a s)
    as (logs1 & logs2 & Hl1 & Hl2 & _ & -> & _).
  assert (Hlog : forall s ev, is_log ev -> sync_step s (add_events s [ev]))
    by (intros; by constructor).
  destruct (assess _ _ _ _ _) eqn:Hv.
  1,2: intros [= <- <-]; by apply rtc_logs.
  cbv zeta. destruct (pages_create _ _ _) as [n' res] eqn:Hc.
  intros [= <- <-].
  etrans; [apply (rtc_logs _ s logs1 Hlog Hl1) |].
  eapply rtc_l.
  { eapply (sync_create (add_events s logs1) a class_select due_at end_at);
      simpl; [exact Hmapped | | exact Hc].
    unfold assess in Hv. repeat case_match; simplify_eq; done. }
  simpl. pose proof (rtc_logs _ (mk_state n'
         (match res with
          | Ok _ => {[str_of_int (assignment_id a)]} ∪ existing_canvas_ids s
          | Err _ => existing_canvas_ids s
          end)
         ((trace s ++ logs1) ++ [EvCreate (build_request lib db a class_select due_at end_at (str_of_int (assignment_id a))) res])) logs2 Hlog Hl2) as H.
  unfold add_events in H; simpl in H.
  rewrite <- !app_assoc in H. rewrite <- !app_assoc. exact H.
Qed.

Lemma bind_inv {A B : Type} (m : M notion A) (k : A -> M notion B) s s' o :
  bind notion m k s = (s', o) ->
  (exists s1 x, m s = (s1, Done x) /\ k x s1 = (s', o))
  \/ (exists e, m s = (s', Raised e) /\ o = Raised e)
  \/ (m s = (s', OutOfFuel) /\ o = OutOfFuel).
Proof.
  unfold bind. destruct (m s) as [s1 [x|e|]]; intros H.
  - left. by exists s1, x.
  - right; left. exists e. by simplify_eq.
  - right; right. by simplify_eq.
Qed.

Lemma bind_emit {B : Type} (ev : event) (k : unit -> M notion B) s :
  bind notion (emit notion ev) k s = k tt (add_events s [ev]).
Proof. done. Qed.

Lemma bind_assoc {A B C : Type} (m : M notion A) (k : A -> M notion B)
    (k' : B -> M notion C) s :
  bind notion (bind notion m k) k' s =
  bind notion m (fun x => bind notion (k x) k') s.
Proof. unfold bind. by destruct (m s) as [s1 [x|e|]]. Qed.

Lemma bind_ext {A B : Type} (m : M notion A) (k1 k2 : A -> M notion B) s :
  (forall x s1, k1 x s1 = k2 x s1) ->
  bind notion m k1 s = bind notion m k2 s.
Proof. intros Hk. unfold bind. by destruct (m s) as [s1 [x|e|]]. Qed.

Lemma bind_ret {A B : Type} (x : A) (k : A -> M notion B) s :
  bind notion (ret notion x) k s = k x s.
Proof. done. Qed.

Ltac bind_inv H :=
  let s1 := fresh "s1" in
  let x := fresh "x" in
  let e := fresh "e" in
  let H1 := fresh "Hm" in
  let H2 := fresh "Hk" in
  apply bind_inv in H as [(s1 & x & H1 & H2)|[(e & H1 & ->)|[H1 ->]]].

(** The same when the outcome is known to be [Done]. *)
Ltac bind_done H :=
  let s1 := fresh "s1" in
  let x := fresh "x" in
  let H1 := fresh "Hm" in
  let H2 := fresh "Hk" in
  apply bind_inv in H as [(s1 & x & H1 & H2)|[(? & _ & [=])|[_ [=]]]].

(** Consume a leading [emit] of [H] and the matching step of the goal. *)
Ltac step_emit H :=
  unfold log, log_exception in H; rewrite bind_emit in H;
  match type of H with
  | _ (add_events ?s0 [?ev]) = _ =>
      apply (rtc_l _ _ (add_events s0 [ev]));
      [first [ (by apply sync_log) | (by apply load_log)
             | (by apply sync_get_courses)
             | (eapply sync_get_assignments; eassumption) ] |]
  end.

Ltac last_emit H :=
  unfold log, log_exception in H; rewrite emit_eq in H;
  injection H as <- <-;
  apply rtc_once; first [ by apply sync_log | by apply load_log ].

Lemma process_assignments_steps now week_out class_select
    (l : PaginatedList Assignment) (n : Z) s s' o :
  (exists name, name_map !! name = Some class_select) ->
  process_assignments lib notion db now week_out class_select l n s = (s', o) ->
  rtc sync_step s s'.
Proof.
  intros Hmapped. revert n s. induction l as [|a rest IH|e]; intros n s; simpl.
  - by intros [= <- <-].
  - intros H. bind_inv H.
    + etrans; [by eapply process_assignment_steps | by eapply IH].
    + by eapply process_assignment_steps.
    + by eapply process_assignment_steps.
  - by intros [= <- <-].
Qed.

Lemma process_course_steps now week_out (course : Course) s s' o :
  process_course lib notion db name_map now week_out course s = (s', o) ->
  rtc sync_step s s'.
Proof.
  unfold process_course. intros H. step_emit H.
  destruct (name_map !! course_name course) as [class_select|] eqn:Hmap.
  - step_emit H. step_emit H. bind_inv H.
    + etrans; [eapply process_assignments_steps; eauto | last_emit Hk].
    + eapply process_assignments_steps; eauto.
    + eapply process_assignments_steps; eauto.
  - last_emit H.
Qed.

Lemma process_courses_steps now week_out (l : PaginatedList Course) s s' o :
  process_courses lib notion db name_map now week_out l s = (s', o) ->
  rtc sync_step s s'.
Proof.
  revert s. induction l as [|c rest IH|e]; intros s; simpl.
  - by intros [= <- <-].
  - intros H. bind_inv H.
    + etrans; [by eapply process_course_steps | by eapply IH].
    + by eapply process_course_steps.
    + by eapply process_course_steps.
  - by intros [= <- <-].
Qed.

Lemma sync_pass_steps (T : Z) (courses : PaginatedList Course) s s' o :
  sync_pass lib notion db name_map T courses s = (s', o) ->
  rtc sync_step s s'.
Proof.
  unfold sync_pass. intros H.
  destruct (dt_add (utc_now T) (timedelta_days 7)) as [week_out|e]; simpl in H.
  2: { injection H as <- <-. done. }
  rewrite bind_ret in H. step_emit H. step_emit H. step_emit H.
  bind_inv H.
  - etrans; [by eapply process_courses_steps | last_emit Hk].
  - by eapply process_courses_steps.
  - by eapply process_courses_steps.
Qed.

Lemma scan_pages_steps (pages : list Page) ids s s' o :
  scan_pages notion pages ids s = (s', o) -> rtc load_step s s'.
Proof.
  revert ids s. induction pages as [|page rest IH]; intros ids s; simpl.
  - by intros [= <- <-].
  - intros H. unfold scan_page in H.
    destruct (properties page !! "Canvas ID") as [[[|run runs]|k]|].
    + rewrite bind_ret in H. by eapply IH.
    + rewrite bind_assoc in H. step_emit H. rewrite bind_ret in H.
      by eapply IH.
    + injection H as <- <-. done.
    + rewrite bind_ret in H. by eapply IH.
Qed.

Lemma notion_query_step cursor s s' (out : outcome QueryResponse) :
  notion_query notion db cursor 100 s = (s', out) -> load_step s s'.
Proof.
  unfold notion_query.
  destruct (data_sources_query _ _ _ _ _) as [n' res] eqn:Hd.
  intros [= <- _]. by apply load_query.
Qed.

Lemma fetch_loop_steps (fuel : nat) ids cursor (batch : Z) s s' o :
  fetch_loop notion db fuel ids cursor batch s = (s', o) ->
  rtc load_step s s'.
Proof.
  revert ids cursor batch s.
  induction fuel as [|fuel IH]; intros ids cursor batch s; simpl.
  - by intros [= <- <-].
  - intros H. step_emit H.
    bind_inv H; [| by eapply rtc_once, notion_query_step..].
    eapply rtc_l; [by eapply notion_query_step |].
    step_emit Hk.
    bind_inv Hk; [| by eapply scan_pages_steps..].
    etrans; [by eapply scan_pages_steps |].
    destruct (negb _).
    + step_emit Hk0. injection Hk0 as <- <-. done.
    + by eapply IH.
Qed.

Lemma fetch_existing_canvas_ids_steps (fuel : nat) s s' o :
  fetch_existing_canvas_ids notion db fuel s = (s', o) ->
  rtc load_step s s'.
Proof.
  unfold fetch_existing_canvas_ids. intros H. step_emit H.
  bind_inv H; [| by eapply fetch_loop_steps..].
  etrans; [by eapply fetch_loop_steps |].
  step_emit Hk. injection Hk as <- <-. done.
Qed.

(** ** What the steps leave in the trace *)

Lemma load_steps_trace s s' :
  rtc load_step s s' ->
  existing_canvas_ids s' = existing_canvas_ids s /\
  exists evs, trace s' = trace s ++ evs /\ Forall load_event evs.
Proof.
  induction 1 as [s|s s1 s' Hstep _ (Hids & evs & Htr & Hevs)].
  - split; [done |]. exists []. by rewrite app_nil_r.
  - rewrite Hids, Htr.
    destruct Hstep as [s lvl t args|s cursor n' res Hq]; simpl.
    + split; [done |]. eexists (_ :: evs). rewrite <- app_assoc.
      split; [done |]. by constructor.
    + split; [done |]. eexists (_ :: evs). rewrite <- app_assoc.
      split; [done |]. by constructor.
Qed.

Lemma sync_steps_trace s s' :
  rtc sync_step s s' ->
  existing_canvas_ids s ⊆ existing_canvas_ids s' /\
  exists evs, trace s' = trace s ++ evs /\ Forall sync_event evs.
Proof.
  induction 1 as [s|s s1 s' Hstep _ (Hids & evs & Htr & Hevs)].
  - split; [done |]. exists []. by rewrite app_nil_r.
  - rewrite Htr.
    destruct Hstep as [s ev Hev|s|s c cls Hmap
                      |s a cls due_at end_at n' res cid req Hmapped Hnotin Hc];
      simpl in Hids, Htr |- *.
    + split; [done |]. exists (ev :: evs). rewrite <- app_assoc.
      split; [done |]. constructor; [by destruct ev | done].
    + split; [done |]. eexists (_ :: evs). rewrite <- app_assoc.
      split; [done |]. by constructor.
    + split; [done |]. eexists (_ :: evs). rewrite <- app_assoc.
      split; [done |]. constructor; [by simpl; eauto | done].
    + split.
      { destruct res; [| done]. etrans; [| exact Hids].
        apply union_subseteq_r. }
      eexists (_ :: evs). rewrite <- app_assoc.
      split; [done |]. by constructor.
Qed.

Lemma omap_none {A B : Type} (f : A -> option B) (P : A -> Prop)
    (l : list A) :
  (forall x, P x -> f x = None) -> Forall P l -> omap f l = [].
Proof.
  intros Hf. induction 1 as [|x l Hx _ IH]; [done |].
  simpl. by rewrite (Hf x Hx).
Qed.

Lemma load_events_projections (evs : list event) :
  Forall load_event evs ->
  create_calls evs = [] /\ canvas_calls evs = [] /\
  Forall (fun q => q.2 = 100) (query_calls evs).
Proof.
  intros H. split_and!.
  - eapply omap_none; [| exact H]. by intros [].
  - eapply omap_none; [| exact H]. by intros [].
  - induction H as [|ev evs Hev _ IH]; [constructor |].
    destruct ev; simpl in *; try done. constructor; [by destruct Hev | done].
Qed.

Lemma load_events_no_creates (evs : list event) :
  Forall load_event evs ->
  created evs = [] /\ failed_creates evs = [] /\
  logged_exceptions evs = [] /\ fetched_courses evs = [].
Proof.
  intros H. split_and!; (eapply omap_none; [| exact H]); by intros [].
Qed.

Lemma sync_events_projections (evs : list event) :
  Forall sync_event evs -> query_calls evs = [] /\ failed_queries evs = [].
Proof.
  intros H. split.
  - eapply omap_none; [| exact H]. by intros [].
  - eapply omap_none; [| exact H]. intros [] Hx; try done.
Qed.

Lemma log_events_projections (evs : list event) :
  Forall is_log evs ->
  create_calls evs = [] /\ created evs = [] /\ failed_creates evs = [] /\
  canvas_calls evs = [] /\ fetched_courses evs = [] /\
  query_calls evs = [] /\ failed_queries evs = [].
Proof.
  intros H. split_and!; (eapply omap_none; [| exact H]); by intros [].
Qed.

(** ** How [main] splits into the load and the pass *)

Lemma main_inv (fuel : nat) (T : Z) (courses : PaginatedList Course) s s' o :
  main lib notion db name_map fuel T courses s = (s', o) ->
  (fetch_existing_canvas_ids notion db fuel s = (s', OutOfFuel)
   /\ o = OutOfFuel)
  \/ (exists e, fetch_existing_canvas_ids notion db fuel s = (s', Raised e)
      /\ o = Raised e)
  \/ (exists sf ids,
        fetch_existing_canvas_ids notion db fuel s = (sf, Done ids) /\
        sync_pass lib notion db name_map T courses
          (mk_state (notion_st sf) ids (trace sf)) = (s', o)).
Proof.
  unfold main. intros H. bind_inv H; [| eauto..].
  right; right. exists s1, x. split; [done |].
  exact Hk.
Qed.

(** ** The loader and failing queries *)

Lemma scan_pages_logs (pages : list Page) ids s s' o :
  scan_pages notion pages ids s = (s', o) ->
  exists logs, Forall is_log logs /\ s' = add_events s logs.
Proof.
  revert ids s. induction pages as [|page rest IH]; intros ids s; simpl.
  - intros [= <- <-]. exists []. split; [done | by rewrite add_events_nil].
  - intros H. unfold scan_page in H.
    destruct (properties page !! "Canvas ID") as [[[|run runs]|k]|].
    + rewrite bind_ret in H. by eapply IH.
    + rewrite bind_assoc in H. unfold log in H. rewrite bind_emit in H.
      rewrite bind_ret in H. apply IH in H as (logs & Hlogs & ->).
      eexists (_ :: logs). split; last by rewrite add_events_app.
      by constructor.
    + injection H as <- <-. exists []. split; [done | by rewrite add_events_nil].
    + rewrite bind_ret in H. by eapply IH.
Qed.

(** A query that raises ends the loader on the spot, with that very
    exception. *)
Lemma fetch_loop_failed_queries (fuel : nat) ids cursor (batch : Z) s s' o :
  fetch_loop notion db fuel ids cursor batch s = (s', o) ->
  failed_queries (trace s) = [] ->
  failed_queries (trace s') = []
  \/ exists e, o = Raised e /\ failed_queries (trace s') = [e].
Proof.
  revert ids cursor batch s.
  induction fuel as [|fuel IH]; intros ids cursor batch s; simpl.
  - intros [= <- <-]. by left.
  - intros H Hs. unfold log in H. rewrite bind_emit in H.
    unfold bind at 1 in H. unfold notion_query in H.
    destruct (data_sources_query _ _ _ _ _) as [n' [resp|e]]; simpl in H.
    + rewrite bind_emit in H. bind_inv H.
      * apply scan_pages_logs in Hm as (logs & Hlogs & ->).
        assert (Hs1 : failed_queries (trace (add_events (add_events
          (mk_state n' (existing_canvas_ids s)
             ((trace s ++ [EvLog DEBUG "Querying Notion (batch %d, cursor=%s)"
                 [pretty (batch + 1); str_of_cursor cursor]])
              ++ [EvQuery db cursor 100 (Ok resp)]))
          [EvLog DEBUG "Received %d results from Notion"
             [pretty (Z.of_nat (length (default [] (results resp))))]])
          logs)) = []).
        { simpl. unfold failed_queries in *. rewrite !omap_app, Hs. simpl.
          by apply (log_events_projections logs). }
        destruct (negb _).
        -- rewrite bind_emit in Hk. injection Hk as <- <-. left.
           simpl in *. unfold failed_queries in *.
           rewrite omap_app, Hs1. done.
        -- by eapply IH.
      * apply scan_pages_logs in Hm as (logs & Hlogs & ->). left.
        simpl. unfold failed_queries in *. rewrite !omap_app, Hs. simpl.
        by apply (log_events_projections logs).
      * apply scan_pages_logs in Hm as (logs & Hlogs & ->). left.
        simpl. unfold failed_queries in *. rewrite !omap_app, Hs. simpl.
        by apply (log_events_projections logs).
    + injection H as <- <-. right. exists e. split; [done |].
      simpl. unfold failed_queries in *. by rewrite !omap_app, Hs.
Qed.

Lemma fetch_existing_failed_queries (fuel : nat) s s' o :
  fetch_existing_canvas_ids notion db fuel s = (s', o) ->
  failed_queries (trace s) = [] ->
  failed_queries (trace s') = []
  \/ exists e, o = Raised e /\ failed_queries (trace s') = [e].
Proof.
  unfold fetch_existing_canvas_ids, log. intros H Hs.
  rewrite bind_emit in H.
  assert (Hs1 : failed_queries (trace (add_events s
    [EvLog INFO "Fetching existing Canvas IDs from Notion" []])) = []).
  { simpl. unfold failed_queries in *. by rewrite omap_app, Hs. }
  bind_inv H.
  - destruct (fetch_loop_failed_queries _ _ _ _ _ _ _ Hm Hs1)
      as [Hf|(e & [=] & _)].
    rewrite bind_emit in Hk. injection Hk as <- <-. left.
    simpl. unfold failed_queries in *. by rewrite omap_app, Hf.
  - by eapply fetch_loop_failed_queries.
  - by eapply fetch_loop_failed_queries.
Qed.

(** C7. If a query of the baseline load raises, that exception is the
    result of the whole run: it ends inside the loader, the id set has
    never been assigned, no Canvas call has been made and no page has
    been created. *)
Theorem baseline_failure_aborts (n0 : notion_state notion) (fuel : nat)
    (T : Z) (courses : PaginatedList Course) s' o (e : exn) :
  run lib notion db name_map n0 fuel T courses = (s', o) ->
  e ∈ failed_queries (trace s') ->
  o = Raised e /\ create_calls (trace s') = [] /\
  canvas_calls (trace s') = [] /\ existing_canvas_ids s' = ∅.
Proof.
  unfold run. intros Hrun He.
  apply main_inv in Hrun as [[Hf ->]|[(e' & Hf & ->)|(sf & ids & Hf & Hp)]].
  - destruct (fetch_existing_failed_queries _ _ _ _ Hf eq_refl)
      as [Hq|(? & [=] & _)].
    rewrite Hq in He. by apply elem_of_nil in He.
  - destruct (fetch_existing_failed_queries _ _ _ _ Hf eq_refl)
      as [Hq|(e1 & [= <-] & Hq)]; rewrite Hq in He.
    { by apply elem_of_nil in He. }
    apply list_elem_of_singleton in He as ->.
    apply fetch_existing_canvas_ids_steps, load_steps_trace in Hf
      as (Hids & evs & Htr & Hevs).
    simpl in Htr. rewrite Htr.
    by destruct (load_events_projections evs Hevs) as (? & ? & _).
  - destruct (fetch_existing_failed_queries _ _ _ _ Hf eq_refl)
      as [Hq|(? & [=] & _)].
    apply sync_pass_steps, sync_steps_trace in Hp as (_ & evs & Htr & Hevs).
    simpl in Htr. rewrite Htr in He. unfold failed_queries in *.
    rewrite omap_app, Hq in He.
    destruct (sync_events_projections evs Hevs) as [_ Hn].
    unfold failed_queries in Hn. rewrite Hn in He.
    by apply elem_of_nil in He.
Qed.

(** ** Deduplication within a run *)

Lemma dedup_inv_quiet baseline s (ev : event) :
  (forall req res, ev <> EvCreate req res) ->
  dedup_inv baseline s -> dedup_inv baseline (add_events s [ev]).
Proof.
  intros Hev (Hb & Hin & Hno & Hfresh & Honly).
  assert (Hc : create_calls [ev] = []).
  { destruct ev; try done; by destruct (Hev req res). }
  assert (Hd : created [ev] = []).
  { destruct ev; try done; by destruct (Hev req res). }
  unfold add_events; simpl. split_and!; simpl.
  - done.
  - intros r. unfold created in *. rewrite omap_app, Hd, app_nil_r. apply Hin.
  - apply no_call_after_success_snoc; [done |].
    intros req res ->. by destruct (Hev req res).
  - intros r. unfold create_calls in *. rewrite omap_app, Hc, app_nil_r.
    apply Hfresh.
  - intros x. unfold created in *.
    setoid_rewrite omap_app. rewrite Hd. setoid_rewrite app_nil_r.
    apply Honly.
Qed.

Lemma sync_step_dedup baseline s s' :
  sync_step s s' -> dedup_inv baseline s -> dedup_inv baseline s'.
Proof.
  intros [s0 ev Hev|s0|s0 c cls Hmap
         |s0 a cls due_at end_at n' res cid req Hmapped Hnotin Hc] Hinv.
  - apply dedup_inv_quiet; [by destruct ev | done].
  - by apply dedup_inv_quiet.
  - by apply dedup_inv_quiet.
  - destruct Hinv as (Hb & Hin & Hno & Hfresh & Honly). split_and!; simpl.
    + destruct res; [| done]. etrans; [exact Hb | apply union_subseteq_r].
    + intros r. unfold created. rewrite omap_app.
      intros [Hr|Hr]%elem_of_app.
      * apply Hin in Hr. destruct res; [| done].
        apply elem_of_union. by right.
      * destruct res as [[]|e]; simpl in Hr; [| by apply elem_of_nil in Hr].
        apply list_elem_of_singleton in Hr as ->.
        apply elem_of_union. left. by apply elem_of_singleton.
    + apply no_call_after_success_snoc; [done |].
      intros req' res' [= <- <-] r Hr Heq. apply Hin in Hr.
      rewrite Heq in Hr. done.
    + intros r. unfold create_calls. rewrite omap_app.
      intros [Hr|Hr]%elem_of_app; [by apply Hfresh |].
      apply list_elem_of_singleton in Hr as ->. simpl.
      intros Hcid. apply Hnotin. by apply Hb.
    + intros x Hx. unfold created. setoid_rewrite omap_app.
      assert (Hold : x ∈ existing_canvas_ids s0 ->
                x ∈ baseline \/
                exists r, r ∈ omap (fun ev => match ev with
                                              | EvCreate r (Ok _) => Some r
                                              | _ => None
                                              end) (trace s0)
                               ++ created [EvCreate req res]
                          /\ prop_Canvas_ID r = x).
      { intros [?|(r & Hr & Heq)]%Honly; [by left |]. right. exists r.
        split; [| done]. apply elem_of_app. by left. }
      destruct res as [[]|e]; [| by apply Hold].
      apply elem_of_union in Hx as [->%elem_of_singleton|Hx]; [| by apply Hold].
      right. exists req. split; [| done]. apply elem_of_app. right. by left.
Qed.

Lemma sync_steps_dedup baseline s s' :
  rtc sync_step s s' -> dedup_inv baseline s -> dedup_inv baseline s'.
Proof. induction 1; eauto using sync_step_dedup. Qed.

Lemma dedup_inv_no_creates baseline s :
  existing_canvas_ids s = baseline ->
  create_calls (trace s) = [] -> dedup_inv baseline s.
Proof.
  intros Hb Hc. split_and!; [by rewrite Hb | | | |].
  - intros r Hr%created_create_calls. rewrite Hc in Hr.
    by apply elem_of_nil in Hr.
  - intros tr1 r tr2 Heq. rewrite Heq in Hc. unfold create_calls in Hc.
    rewrite omap_app in Hc. simpl in Hc. by destruct (omap _ tr1).
  - intros r Hr. rewrite Hc in Hr. by apply elem_of_nil in Hr.
  - intros x Hx. left. by rewrite <- Hb.
Qed.

(** The loader leaves no create call behind, whatever its outcome. *)
Lemma fetch_existing_no_creates (n0 : notion_state notion) (fuel : nat) s' o :
  fetch_existing_canvas_ids notion db fuel (initial_state notion n0) = (s', o) ->
  existing_canvas_ids s' = ∅ /\ create_calls (trace s') = [] /\
  canvas_calls (trace s') = [].
Proof.
  intros Hf.
  apply fetch_existing_canvas_ids_steps, load_steps_trace in Hf
    as (Hids & evs & Htr & Hevs).
  simpl in Htr. rewrite Htr.
  by destruct (load_events_projections evs Hevs) as (? & ? & _).
Qed.

(** The invariant holds at the end of every run, for the baseline the
    loader returned (or for the empty one when it did not return). *)
Lemma run_dedup_inv (n0 : notion_state notion) (fuel : nat) (T : Z)
    (courses : PaginatedList Course) s' o :
  run lib notion db name_map n0 fuel T courses = (s', o) ->
  exists baseline,
    dedup_inv baseline s' /\
    forall sf ids,
      fetch_existing_canvas_ids notion db fuel (initial_state notion n0)
      = (sf, Done ids) -> baseline = ids.
Proof.
  unfold run. intros Hrun.
  apply main_inv in Hrun as [[Hf ->]|[(e' & Hf & ->)|(sf & ids & Hf & Hp)]].
  - exists ∅. split; [| intros ? ?; by rewrite Hf].
    apply fetch_existing_no_creates in Hf as (? & ? & _).
    by apply dedup_inv_no_creates.
  - exists ∅. split; [| intros ? ?; by rewrite Hf].
    apply fetch_existing_no_creates in Hf as (? & ? & _).
    by apply dedup_inv_no_creates.
  - exists ids. split; [| intros ? ?; rewrite Hf; by intros [= _ ->]].
    apply sync_pass_steps in Hp. eapply sync_steps_dedup; [exact Hp |].
    apply fetch_existing_no_creates in Hf as (? & ? & _).
    by apply dedup_inv_no_creates.
Qed.

(** ** Loops over a known prefix *)

Lemma paginated_pl_app {A : Type} (l : list A) : paginated l = pl_app l PLNil.
Proof. induction l as [|x l IH]; [done | simpl; by rewrite IH]. Qed.

Lemma process_assignments_app now week_out class_select
    (l : list Assignment) (rest : PaginatedList Assignment) (n : Z) s :
  process_assignments lib notion db now week_out class_select
    (pl_app l rest) n s =
  bind notion
    (process_assignments lib notion db now week_out class_select
       (paginated l) n)
    (fun m =>
       process_assignments lib notion db now week_out class_select rest m) s.
Proof.
  revert n s. induction l as [|a l IH]; intros n s; simpl.
  - by rewrite bind_ret.
  - rewrite bind_assoc. apply bind_ext. intros _ s1. apply IH.
Qed.

Lemma process_courses_app now week_out
    (l : list Course) (rest : PaginatedList Course) s :
  process_courses lib notion db name_map now week_out (pl_app l rest) s =
  bind notion
    (process_courses lib notion db name_map now week_out (paginated l))
    (fun _ => process_courses lib notion db name_map now week_out rest) s.
Proof.
  revert s. induction l as [|c l IH]; intros s; simpl.
  - by rewrite bind_ret.
  - rewrite bind_assoc. apply bind_ext. intros _ s1. apply IH.
Qed.

Lemma str_of_int_inj (x y : Z) : str_of_int x = str_of_int y -> x = y.
Proof. apply pretty_Z_inj. Qed.

(** One eligible assignment whose id is not in the set: exactly one
    create call, and the loop goes on whatever the call does. *)
Lemma process_assignment_eligible now week_out class_select a s :
  eligible now week_out a ->
  str_of_int (assignment_id a) ∉ existing_canvas_ids s ->
  exists s' req res evs,
    process_assignment lib notion db now week_out class_select a s
    = (s', Done tt) /\
    request_of now week_out class_select a req /\
    (pages_create notion (notion_st s) req).2 = res /\
    notion_st s' = (pages_create notion (notion_st s) req).1 /\
    trace s' = trace s ++ evs /\
    create_calls evs = [req] /\
    created evs = match res with Ok _ => [req] | Err _ => [] end /\
    failed_creates evs = match res with Ok _ => [] | Err e => [(req, e)] end /\
    logged_exceptions evs = match res with Ok _ => [] | Err e => [e] end /\
    canvas_calls evs = [] /\
    existing_canvas_ids s' =
      match res with
      | Ok _ => {[str_of_int (assignment_id a)]} ∪ existing_canvas_ids s
      | Err _ => existing_canvas_ids s
      end.
Proof.
  intros (due_at & end_at & Hdue & Hend) Hnotin.
  destruct (process_assignment_assess now week_out class_select a s)
    as (logs1 & logs2 & Hl1 & Hl2 & Hx1 & Hrun & Hx2).
  rewrite (assess_due_in_window _ _ _ _ _ Hdue) in Hrun, Hx2.
  destruct (decide _) as [|_]; [done |]. rewrite Hend in Hrun, Hx2.
  cbv zeta in Hrun, Hx2.
  destruct (pages_create _ _ _) as [n' res] eqn:Hc. simpl in Hx2.
  destruct (log_events_projections logs1 Hl1) as (Hc1 & Hd1 & Hf1 & Hv1 & _).
  destruct (log_events_projections logs2 Hl2) as (Hc2 & Hd2 & Hf2 & Hv2 & _).
  eexists _, _, res, (logs1 ++ [_] ++ logs2).
  split; [exact Hrun |]. split_and!.
  - by exists due_at, end_at.
  - by rewrite Hc.
  - by rewrite Hc.
  - done.
  - unfold create_calls in *. by rewrite !omap_app, Hc1, Hc2.
  - unfold created in *. rewrite !omap_app, Hd1, Hd2.
    by destruct res as [[]|].
  - unfold failed_creates in *. rewrite !omap_app, Hf1, Hf2.
    by destruct res as [[]|].
  - unfold logged_exceptions in *. rewrite !omap_app, Hx1, Hx2.
    by destruct res as [[]|].
  - unfold canvas_calls in *. by rewrite !omap_app, Hv1, Hv2.
  - done.
Qed.

(** ** Unfolding the run along its successful prefix *)

Lemma run_after_fetch (n0 : notion_state notion) (fuel : nat) (T : Z)
    (courses : PaginatedList Course) sf ids :
  fetch_existing_canvas_ids notion db fuel (initial_state notion n0)
  = (sf, Done ids) ->
  run lib notion db name_map n0 fuel T courses =
  sync_pass lib notion db name_map T courses
    (mk_state (notion_st sf) ids (trace sf)).
Proof. intros Hf. unfold run, main, bind. by rewrite Hf. Qed.

Lemma sync_pass_window (T : Z) (courses : PaginatedList Course)
    (week_out : datetime) s :
  dt_add (utc_now T) (timedelta_days 7) = Ok week_out ->
  sync_pass lib notion db name_map T courses s =
  bind notion
    (process_courses lib notion db name_map (utc_now T) week_out courses)
    (fun _ => log notion INFO "Sync run complete" [])
    (add_events s
       [EvLog INFO "Scanning assignments due between %s and %s"
          [isoformat lib (utc_now T); isoformat lib week_out];
        EvGetCourses;
        EvLog DEBUG "Canvas returned courses iterator" []]).
Proof.
  intros Hw. unfold sync_pass. rewrite Hw. simpl. rewrite bind_ret.
  unfold log. rewrite !bind_emit, !add_events_app. done.
Qed.

Lemma process_course_mapped now week_out (course : Course)
    (class_select : string) s :
  name_map !! course_name course = Some class_select ->
  process_course lib notion db name_map now week_out course s =
  bind notion
    (process_assignments lib notion db now week_out class_select
       (course_assignments course) 0)
    (fun assignment_count =>
       log notion DEBUG "Finished course %s, checked %d assignments"
         [course_name course; pretty assignment_count])
    (add_events s
       [EvLog DEBUG "Evaluating course: %s (ID %s)"
          [course_name course; str_of_int (course_id course)];
        EvLog INFO "Processing course: %s -> %s"
          [course_name course; class_select];
        EvGetAssignments (course_id course) (course_name course)]).
Proof.
  intros Hmap. unfold process_course. rewrite Hmap.
  unfold log. rewrite !bind_emit, !add_events_app. done.
Qed.

Lemma process_course_unmapped now week_out (course : Course) s :
  name_map !! course_name course = None ->
  process_course lib notion db name_map now week_out course s =
  (add_events s
     [EvLog DEBUG "Evaluating course: %s (ID %s)"
        [course_name course; str_of_int (course_id course)];
      EvLog DEBUG "Course not in name_map, skipping: %s"
        [course_name course]],
   Done tt).
Proof.
  intros Hmap. unfold process_course. rewrite Hmap.
  unfold log. rewrite bind_emit, emit_eq, add_events_app. done.
Qed.

(** ** Eligible assignments, failing creates *)

Lemma process_assignments_all_eligible now week_out class_select
    (l : list Assignment) (n : Z) s :
  Forall (eligible now week_out) l ->
  NoDup (assignment_id <$> l) ->
  Forall (fun a => str_of_int (assignment_id a) ∉ existing_canvas_ids s) l ->
  exists s' evs,
    process_assignments lib notion db now week_out class_select
      (paginated l) n s = (s', Done (n + Z.of_nat (length l))) /\
    trace s' = trace s ++ evs /\
    Forall2 (request_of now week_out class_select) l (create_calls evs) /\
    logged_exceptions evs = (snd <$> failed_creates evs) /\
    canvas_calls evs = [] /\
    existing_canvas_ids s' =
      list_to_set (prop_Canvas_ID <$> created evs) ∪ existing_canvas_ids s.
Proof.
  revert n s. induction l as [|a l IH]; intros n s Hel Hnd Hfresh.
  - exists s, []. simpl. rewrite Z.add_0_r, app_nil_r.
    split_and!; try done. set_solver.
  - apply Forall_cons in Hel as [Ha Hel].
    apply Forall_cons in Hfresh as [Hna Hfresh].
    rewrite fmap_cons in Hnd. apply NoDup_cons in Hnd as [Hnotin Hnd].
    destruct (process_assignment_eligible now week_out class_select a s Ha Hna)
      as (s1 & req & res & evs1 & Hrun & Hreq & Hres & _ & Htr1 & Hc1 & Hd1
          & Hf1 & Hx1 & Hv1 & Hids1).
    destruct (IH (n + 1) s1 Hel Hnd) as (s' & evs & Hloop & Htr & Hc & Hx
                                         & Hv & Hids).
    { apply Forall_forall. intros a' Ha'.
      rewrite Forall_forall in Hfresh. specialize (Hfresh a' Ha').
      rewrite Hids1. destruct res; [| done].
      rewrite elem_of_union, elem_of_singleton.
      intros [Heq%str_of_int_inj|]; [| done].
      apply Hnotin. rewrite <- Heq. by apply list_elem_of_fmap_2. }
    exists s', (evs1 ++ evs). simpl. unfold bind. rewrite Hrun, Hloop.
    split_and!.
    + do 2 f_equal. lia.
    + by rewrite Htr, Htr1, app_assoc.
    + unfold create_calls in *. rewrite omap_app, Hc1. by constructor.
    + unfold logged_exceptions, failed_creates in *.
      rewrite !omap_app, fmap_app, Hx1, Hf1, Hx. by destruct res.
    + unfold canvas_calls in *. by rewrite omap_app, Hv1, Hv.
    + rewrite Hids, Hids1. unfold created in *. rewrite omap_app, Hd1.
      destruct res as [[]|e]; simpl.
      * destruct Hreq as (d & e & _ & _ & ->). simpl. set_solver.
      * done.
Qed.

(** C3. One mapped course whose assignments are all eligible, pairwise
    distinct and unknown to the baseline: a create call is issued for
    every one of them, in order, whatever the earlier calls did; each
    failed call is logged through [logger.exception]; the run ends
    normally; and the set ends up holding the baseline plus the ids of
    the pages that were created. *)
Theorem create_failure_is_isolated (n0 : notion_state notion) (fuel : nat)
    (T : Z) (week_out : datetime) (course : Course) (class_select : string)
    (l : list Assignment) sf (baseline : gset string) :
  fetch_existing_canvas_ids notion db fuel (initial_state notion n0)
  = (sf, Done baseline) ->
  dt_add (utc_now T) (timedelta_days 7) = Ok week_out ->
  name_map !! course_name course = Some class_select ->
  course_assignments course = paginated l ->
  Forall (eligible (utc_now T) week_out) l ->
  NoDup (assignment_id <$> l) ->
  Forall (fun a => str_of_int (assignment_id a) ∉ baseline) l ->
  exists s',
    run lib notion db name_map n0 fuel T (paginated [course]) = (s', Done tt) /\
    Forall2 (request_of (utc_now T) week_out class_select) l
      (create_calls (trace s')) /\
    logged_exceptions (trace s') = (snd <$> failed_creates (trace s')) /\
    existing_canvas_ids s' =
      list_to_set (prop_Canvas_ID <$> created (trace s')) ∪ baseline.
Proof.
  intros Hf Hw Hmap Hl Hel Hnd Hfresh.
  rewrite (run_after_fetch _ _ _ _ _ _ Hf), (sync_pass_window _ _ _ _ Hw).
  simpl. rewrite bind_assoc. unfold bind at 1.
  rewrite (process_course_mapped _ _ _ _ _ Hmap), Hl.
  lazymatch goal with
  | |- context [bind _ (process_assignments _ _ _ _ _ _ _ _) _ ?s0] =>
      destruct (process_assignments_all_eligible (utc_now T) week_out
                  class_select l 0 s0 Hel Hnd Hfresh)
        as (s1 & evs & Hloop & Htr & Hc & Hx & Hv & Hids)
  end.
  unfold bind, log, emit, ret. rewrite Hloop. simpl.
  eexists. split; [reflexivity |]. simpl in *. rewrite Htr.
  apply fetch_existing_canvas_ids_steps, load_steps_trace in Hf
    as (_ & evs0 & Htr0 & Hevs0).
  simpl in Htr0. subst evs0. rewrite <- !app_assoc.
  destruct (load_events_projections _ Hevs0) as (Hc0 & _ & _).
  destruct (load_events_no_creates _ Hevs0) as (Hd0 & Hf0 & Hx0 & _).
  unfold create_calls, logged_exceptions, failed_creates, created in *.
  rewrite !omap_app, !fmap_app, Hc0, Hd0, Hf0, Hx0. simpl.
  rewrite !app_nil_r. by rewrite Hids.
Qed.

(** ** Runs that differ only in their log records *)

Lemma calls_logs (logs : list event) : Forall is_log logs -> calls logs = [].
Proof. intros H. eapply omap_none; [| exact H]. by intros []. Qed.

Lemma calls_app (tr1 tr2 : list event) :
  calls (tr1 ++ tr2) = calls tr1 ++ calls tr2.
Proof. apply omap_app. Qed.

Lemma app_nil_r_calls (tr logs : list event) :
  Forall is_log logs -> calls tr ++ calls logs = calls tr.
Proof. intros H. by rewrite (calls_logs _ H), app_nil_r. Qed.

Lemma create_calls_calls (tr : list event) :
  create_calls (calls tr) = create_calls tr.
Proof.
  induction tr as [|ev tr IH]; [done |].
  destruct ev; simpl; try done. by f_equal.
Qed.

Lemma same_calls_refl s : same_calls s s.
Proof. done. Qed.

Lemma same_calls_add_logs s t (logs1 logs2 : list event) :
  Forall is_log logs1 -> Forall is_log logs2 ->
  same_calls s t -> same_calls (add_events s logs1) (add_events t logs2).
Proof.
  intros H1 H2 (Hn & Hi & Hc). split_and!; [done.. |]. simpl.
  by rewrite !calls_app, Hc, (calls_logs _ H1), (calls_logs _ H2).
Qed.

Lemma process_assignment_same_calls now week_out class_select a s t
    s' t' o o' :
  same_calls s t ->
  process_assignment lib notion db now week_out class_select a s = (s', o) ->
  process_assignment lib notion db now week_out class_select a t = (t', o') ->
  same_calls s' t' /\ o = o'.
Proof.
  intros Hst.
  destruct (process_assignment_assess now week_out class_select a s)
    as (ls1 & ls2 & Hls1 & Hls2 & _ & -> & _).
  destruct (process_assignment_assess now week_out class_select a t)
    as (lt1 & lt2 & Hlt1 & Hlt2 & _ & -> & _).
  destruct Hst as (Hn & Hi & Hc). rewrite <- Hi, <- Hn.
  destruct (assess _ _ _ _ _) as [|e|due_at end_at].
  1,2: intros [= <- <-] [= <- <-]; split; [| done];
       by apply same_calls_add_logs.
  cbv zeta. destruct (pages_create _ _ _) as [n' res].
  intros [= <- <-] [= <- <-]. split; [| done].
  split_and!; simpl; [done | by rewrite Hi |].
  change (?l1 ++ EvCreate ?r ?x :: ?l2) with (l1 ++ [EvCreate r x] ++ l2).
  rewrite !calls_app, Hc.
  rewrite (calls_logs _ Hls1), (calls_logs _ Hls2).
  by rewrite (calls_logs _ Hlt1), (calls_logs _ Hlt2).
Qed.

Lemma process_assignments_same_calls now week_out class_select
    (l : PaginatedList Assignment) (n : Z) s t s' t' o o' :
  same_calls s t ->
  process_assignments lib notion db now week_out class_select l n s = (s', o) ->
  process_assignments lib notion db now week_out class_select l n t = (t', o') ->
  same_calls s' t' /\ o = o'.
Proof.
  revert n s t. induction l as [|a rest IH|e]; intros n s t Hst; simpl.
  - by intros [= <- <-] [= <- <-].
  - unfold bind.
    destruct (process_assignment _ _ _ _ _ _ a s) as [s1 o1] eqn:Hs.
    destruct (process_assignment _ _ _ _ _ _ a t) as [t1 o1'] eqn:Ht.
    destruct (process_assignment_same_calls _ _ _ _ _ _ _ _ _ _ Hst Hs Ht)
      as [Hst1 <-].
    destruct o1 as [[]|e|].
    + by apply IH.
    + by intros [= <- <-] [= <- <-].
    + by intros [= <- <-] [= <- <-].
  - by intros [= <- <-] [= <- <-].
Qed.

Lemma process_course_same_calls now week_out (c : Course) s t s' t' o o' :
  same_calls s t ->
  process_course lib notion db name_map now week_out c s = (s', o) ->
  process_course lib notion db name_map now week_out c t = (t', o') ->
  same_calls s' t' /\ o = o'.
Proof.
  intros Hst.
  destruct (name_map !! course_name c) as [class_select|] eqn:Hmap.
  - rewrite !(process_course_mapped _ _ _ _ _ Hmap). unfold bind.
    match goal with
    | |- context [process_assignments _ _ _ _ _ _ _ _ ?s0] =>
        destruct (process_assignments lib notion db now week_out class_select
                    (course_assignments c) 0 s0) as [s1 o1] eqn:Hs
    end.
    match goal with
    | |- context [process_assignments _ _ _ _ _ _ _ _ ?t0 ] =>
        destruct (process_assignments lib notion db now week_out class_select
                    (course_assignments c) 0 t0) as [t1 o1'] eqn:Ht
    end.
    assert (Hst0 : same_calls
      (add_events s
         [EvLog DEBUG "Evaluating course: %s (ID %s)"
            [course_name c; str_of_int (course_id c)];
          EvLog INFO "Processing course: %s -> %s"
            [course_name c; class_select];
          EvGetAssignments (course_id c) (course_name c)])
      (add_events t
         [EvLog DEBUG "Evaluating course: %s (ID %s)"
            [course_name c; str_of_int (course_id c)];
          EvLog INFO "Processing course: %s -> %s"
            [course_name c; class_select];
          EvGetAssignments (course_id c) (course_name c)])).
    { destruct Hst as (Hn & Hi & Hc). split_and!; [done.. |]. simpl.
      by rewrite !calls_app, Hc. }
    destruct (process_assignments_same_calls _ _ _ _ _ _ _ _ _ _ _ Hst0 Hs Ht)
      as [Hst1 <-].
    destruct o1 as [m|e|].
    + unfold log. rewrite !emit_eq. intros [= <- <-] [= <- <-].
      split; [| done]. apply same_calls_add_logs; [by repeat constructor.. |].
      done.
    + by intros [= <- <-] [= <- <-].
    + by intros [= <- <-] [= <- <-].
  - rewrite !(process_course_unmapped _ _ _ _ Hmap).
    intros [= <- <-] [= <- <-]. split; [| done].
    apply same_calls_add_logs; [by repeat constructor.. | done].
Qed.

Lemma process_courses_same_calls now week_out (l : PaginatedList Course)
    s t s' t' o o' :
  same_calls s t ->
  process_courses lib notion db name_map now week_out l s = (s', o) ->
  process_courses lib notion db name_map now week_out l t = (t', o') ->
  same_calls s' t' /\ o = o'.
Proof.
  revert s t. induction l as [|c rest IH|e]; intros s t Hst; simpl.
  - by intros [= <- <-] [= <- <-].
  - unfold bind.
    destruct (process_course _ _ _ _ _ _ c s) as [s1 o1] eqn:Hs.
    destruct (process_course _ _ _ _ _ _ c t) as [t1 o1'] eqn:Ht.
    destruct (process_course_same_calls _ _ _ _ _ _ _ _ _ Hst Hs Ht)
      as [Hst1 <-].
    destruct o1 as [[]|e|].
    + by apply IH.
    + by intros [= <- <-] [= <- <-].
    + by intros [= <- <-] [= <- <-].
  - by intros [= <- <-] [= <- <-].
Qed.

(** Taking an unmapped course out of the enumeration changes nothing
    but the log. *)
Lemma process_courses_without_unmapped now week_out (before : list Course)
    (c : Course) (after : PaginatedList Course) s s1 s2 o1 o2 :
  name_map !! course_name c = None ->
  process_courses lib notion db name_map now week_out
    (pl_app before (PLCons c after)) s = (s1, o1) ->
  process_courses lib notion db name_map now week_out
    (pl_app before after) s = (s2, o2) ->
  same_calls s1 s2 /\ o1 = o2.
Proof.
  intros Hmap. rewrite !process_courses_app. unfold bind at 1 2.
  destruct (process_courses _ _ _ _ _ _ (paginated before) s)
    as [sp [[]|e|]].
  - simpl. unfold bind at 1.
    rewrite (process_course_unmapped _ _ _ _ Hmap).
    apply process_courses_same_calls.
    split_and!; [done.. |]. simpl.
    rewrite calls_app, app_nil_r_calls; [done | by repeat constructor].
  - by intros [= <- <-] [= <- <-].
  - by intros [= <- <-] [= <- <-].
Qed.

Lemma run_without_unmapped (n0 : notion_state notion) (fuel : nat) (T : Z)
    (before : list Course) (c : Course) (after : PaginatedList Course)
    s1 s2 o1 o2 :
  name_map !! course_name c = None ->
  run lib notion db name_map n0 fuel T (pl_app before (PLCons c after))
  = (s1, o1) ->
  run lib notion db name_map n0 fuel T (pl_app before after) = (s2, o2) ->
  same_calls s1 s2 /\ o1 = o2.
Proof.
  intros Hmap H1 H2.
  destruct (fetch_existing_canvas_ids notion db fuel
              (initial_state notion n0)) as [sf [ids|e|]] eqn:Hf.
  2,3: unfold run, main, bind in H1, H2; rewrite Hf in H1, H2;
       by simplify_eq.
  rewrite (run_after_fetch _ _ _ _ _ _ Hf) in H1.
  rewrite (run_after_fetch _ _ _ _ _ _ Hf) in H2.
  destruct (dt_add (utc_now T) (timedelta_days 7)) as [week_out|e] eqn:Hw.
  2: { unfold sync_pass in H1, H2. rewrite Hw in H1, H2.
       simpl in H1, H2. unfold bind at 1 in H1. unfold bind at 1 in H2.
       unfold raise in H1, H2. by simplify_eq. }
  rewrite (sync_pass_window _ _ _ _ Hw) in H1.
  rewrite (sync_pass_window _ _ _ _ Hw) in H2. unfold bind in H1, H2.
  destruct (process_courses _ _ _ _ _ _ (pl_app before (PLCons c after)) _)
    as [sa oa] eqn:Ha.
  destruct (process_courses _ _ _ _ _ _ (pl_app before after) _)
    as [sb ob] eqn:Hb.
  destruct (process_courses_without_unmapped _ _ _ _ _ _ _ _ _ _ Hmap Ha Hb)
    as [Hab <-].
  destruct oa as [[]|e|]; [| by simplify_eq..].
  unfold log in H1, H2. rewrite emit_eq in H1, H2.
  injection H1 as <- <-. injection H2 as <- <-.
  split; [| done]. apply same_calls_add_logs; [by repeat constructor.. |].
  done.
Qed.

(** ** Unmapped courses *)

Lemma sync_events_fetched (evs : list event) :
  Forall sync_event evs ->
  Forall (fun name => is_Some (name_map !! name)) (fetched_courses evs).
Proof.
  induction 1 as [|ev evs Hev _ IH]; [constructor |].
  destruct ev; simpl; try done. by constructor.
Qed.

Lemma sync_events_labels (evs : list event) :
  Forall sync_event evs ->
  Forall (fun r => exists name, name_map !! name = Some (prop_Class r))
    (create_calls evs).
Proof.
  induction 1 as [|ev evs Hev _ IH]; [constructor |].
  destruct ev; simpl; try done. constructor; [| done].
  by destruct Hev as (_ & _ & ?).
Qed.

Lemma run_fetched_courses (n0 : notion_state notion) (fuel : nat) (T : Z)
    (courses : PaginatedList Course) s' o :
  run lib notion db name_map n0 fuel T courses = (s', o) ->
  Forall (fun name => is_Some (name_map !! name)) (fetched_courses (trace s'))
  /\ Forall (fun r => exists name, name_map !! name = Some (prop_Class r))
       (create_calls (trace s')).
Proof.
  unfold run. intros Hrun.
  apply main_inv in Hrun as [[Hf ->]|[(e' & Hf & ->)|(sf & ids & Hf & Hp)]].
  1,2: apply fetch_existing_canvas_ids_steps, load_steps_trace in Hf
         as (_ & evs & Htr & Hevs); simpl in Htr; subst evs;
       destruct (load_events_no_creates _ Hevs) as (_ & _ & _ & ->);
       destruct (load_events_projections _ Hevs) as (-> & _ & _);
       by (split; constructor).
  apply fetch_existing_canvas_ids_steps, load_steps_trace in Hf
    as (_ & evs0 & Htr0 & Hevs0).
  simpl in Htr0. subst evs0.
  apply sync_pass_steps, sync_steps_trace in Hp as (_ & evs & Htr & Hevs).
  simpl in Htr. rewrite Htr.
  unfold fetched_courses, create_calls. rewrite !omap_app.
  destruct (load_events_no_creates _ Hevs0) as (_ & _ & _ & Hn).
  destruct (load_events_projections _ Hevs0) as (Hc & _ & _).
  unfold fetched_courses, create_calls in Hn, Hc. rewrite Hn, Hc. simpl.
  split; [by apply sync_events_fetched | by apply sync_events_labels].
Qed.

(** C6. A course whose name is not a key of [name_map] costs two debug
    records and nothing else: its assignments are not asked for, whatever
    they are, and no page is created.  Over a whole run
    [get_assignments] is never called on a course of that name and every
    create call carries a label of [name_map]; and the run makes the
    same external calls, ends the same way and leaves the same store and
    id set as the run in which Canvas does not yield that course at
    all. *)
Theorem unmapped_course_is_skipped (course : Course) :
  name_map !! course_name course = None ->
  (forall now week_out s,
     process_course lib notion db name_map now week_out course s =
     (add_events s
        [EvLog DEBUG "Evaluating course: %s (ID %s)"
           [course_name course; str_of_int (course_id course)];
         EvLog DEBUG "Course not in name_map, skipping: %s"
           [course_name course]],
      Done tt)) /\
  (forall n0 fuel T courses s' o,
     run lib notion db name_map n0 fuel T courses = (s', o) ->
     (course_name course ∉ fetched_courses (trace s')) /\
     Forall (fun r => exists name, name_map !! name = Some (prop_Class r))
       (create_calls (trace s'))) /\
  (forall n0 fuel T before after s1 o1 s2 o2,
     run lib notion db name_map n0 fuel T
       (pl_app before (PLCons course after)) = (s1, o1) ->
     run lib notion db name_map n0 fuel T (pl_app before after) = (s2, o2) ->
     o1 = o2 /\
     calls (trace s1) = calls (trace s2) /\
     create_calls (trace s1) = create_calls (trace s2) /\
     existing_canvas_ids s1 = existing_canvas_ids s2 /\
     notion_st s1 = notion_st s2).
Proof.
  intros Hmap. split_and!.
  - intros now week_out s. by apply process_course_unmapped.
  - intros n0 fuel T courses s' o Hrun.
    apply run_fetched_courses in Hrun as [Hfetched Hlabels].
    split; [| done]. intros Hin.
    rewrite Forall_forall in Hfetched. apply Hfetched in Hin as [x Hx].
    by rewrite Hmap in Hx.
  - intros n0 fuel T before after s1 o1 s2 o2 H1 H2.
    destruct (run_without_unmapped _ _ _ _ _ _ _ _ _ _ Hmap H1 H2)
      as [(Hn & Hi & Hc) Ho].
    split_and!; try done.
    by rewrite <- (create_calls_calls (trace s1)), Hc, create_calls_calls.
Qed.

(** ** Due dates that cannot be used *)

Lemma process_assignment_due_error (T : Z) week_out class_select a s
    (due_str : string) (e : exn) :
  assignment_due_at a = Some due_str -> due_str <> EmptyString ->
  due_error due_str = Some e ->
  exists logs,
    Forall is_log logs /\ logged_exceptions logs = [] /\
    process_assignment lib notion db (utc_now T) week_out class_select a s
    = (add_events s logs, Raised e).
Proof.
  intros Hdue Hne Herr.
  destruct (process_assignment_assess (utc_now T) week_out class_select a s)
    as (logs1 & logs2 & Hl1 & _ & Hx1 & Hrun & _).
  exists logs1. split; [done |]. split; [done |]. rewrite Hrun.
  unfold assess. rewrite Hdue. destruct due_str as [|c r]; [done |].
  unfold due_error in Herr.
  destruct (fromisoformat lib _) as [d|]; [| by injection Herr as <-].
  destruct (utcoffset d) eqn:Hoff; [done |]. injection Herr as <-.
  by rewrite (window_check_naive _ _ _ Hoff).
Qed.

(** C10. The first assignment of the first course, which is mapped, has
    a due date that does not parse or parses to a naive value: the run
    ends with that exception.  Nothing is created, neither for the
    assignments that follow in the course nor for the courses that
    follow, and the closing log record is never written. *)
Theorem bad_due_date_aborts_run (n0 : notion_state notion) (fuel : nat)
    (T : Z) (week_out : datetime) (course : Course) (class_select : string)
    (a : Assignment) (rest : PaginatedList Assignment)
    (later : PaginatedList Course) sf (baseline : gset string)
    (due_str : string) (e : exn) :
  fetch_existing_canvas_ids notion db fuel (initial_state notion n0)
  = (sf, Done baseline) ->
  dt_add (utc_now T) (timedelta_days 7) = Ok week_out ->
  name_map !! course_name course = Some class_select ->
  course_assignments course = PLCons a rest ->
  assignment_due_at a = Some due_str -> due_str <> EmptyString ->
  due_error due_str = Some e ->
  exists s',
    run lib notion db name_map n0 fuel T (PLCons course later)
    = (s', Raised e) /\
    create_calls (trace s') = [] /\
    fetched_courses (trace s') = [course_name course] /\
    logged_exceptions (trace s') = [].
Proof.
  intros Hf Hw Hmap Hl Hdue Hne Herr.
  rewrite (run_after_fetch _ _ _ _ _ _ Hf), (sync_pass_window _ _ _ _ Hw).
  simpl. rewrite bind_assoc. unfold bind at 1.
  rewrite (process_course_mapped _ _ _ _ _ Hmap), Hl. simpl.
  rewrite bind_assoc. unfold bind at 1.
  match goal with
  | |- context [process_assignment _ _ _ _ _ _ _ ?s0] =>
      destruct (process_assignment_due_error T week_out class_select a s0
                  due_str e Hdue Hne Herr) as (logs & Hlogs & Hx & ->)
  end.
  eexists. split; [reflexivity |]. simpl.
  apply fetch_existing_canvas_ids_steps, load_steps_trace in Hf
    as (_ & evs0 & Htr0 & Hevs0).
  simpl in Htr0. subst evs0.
  destruct (load_events_projections _ Hevs0) as (Hc0 & _ & _).
  destruct (load_events_no_creates _ Hevs0) as (_ & _ & Hx0 & Hg0).
  destruct (log_events_projections logs Hlogs) as (Hc & _ & _ & _ & Hg & _).
  unfold create_calls, fetched_courses, logged_exceptions in *.
  rewrite !omap_app, Hc0, Hx0, Hg0, Hc, Hg, Hx. done.
Qed.

(** ** What any assignment can do to the set *)

Lemma assess_attempt now week_out ids a due_at end_at :
  assess lib now week_out ids a = Attempt due_at end_at ->
  due_in_window lib now week_out a due_at /\
  (str_of_int (assignment_id a) ∉ ids) /\
  dt_add due_at (timedelta_minutes 30) = Ok end_at.
Proof.
  unfold assess, due_in_window. intros H.
  repeat case_match; simplify_eq. split_and!; [| done..].
  eexists. by split_and!.
Qed.

Lemma process_assignment_effect now week_out class_select a s s' o :
  process_assignment lib notion db now week_out class_select a s = (s', o) ->
  exists evs,
    trace s' = trace s ++ evs /\
    existing_canvas_ids s ⊆ existing_canvas_ids s' /\
    existing_canvas_ids s' ⊆
      {[str_of_int (assignment_id a)]} ∪ existing_canvas_ids s /\
    ((forall d, due_in_window lib now week_out a d ->
        str_of_int (assignment_id a) ∈ existing_canvas_ids s) ->
     create_calls evs = [] /\ notion_st s' = notion_st s /\
     existing_canvas_ids s' = existing_canvas_ids s) /\
    (o = Done tt -> failed_creates evs = [] ->
     forall d, due_in_window lib now week_out a d ->
       str_of_int (assignment_id a) ∈ existing_canvas_ids s').
Proof.
  destruct (process_assignment_assess now week_out class_select a s)
    as (logs1 & logs2 & Hl1 & Hl2 & _ & -> & _).
  destruct (log_events_projections logs1 Hl1) as (Hc1 & _ & Hf1 & _).
  destruct (log_events_projections logs2 Hl2) as (Hc2 & _ & Hf2 & _).
  destruct (assess _ _ _ _ _) as [|e|due_at end_at] eqn:Hv.
  - intros [= <- <-]. exists logs1. simpl. split_and!; try done.
    + apply union_subseteq_r.
    + intros _ _ d Hd. rewrite (assess_due_in_window _ _ _ _ _ Hd) in Hv.
      destruct (decide _); [done |]. by destruct (dt_add _ _).
  - intros [= <- <-]. exists logs1. simpl. split_and!; try done.
    apply union_subseteq_r.
  - cbv zeta. destruct (pages_create _ _ _) as [n' res] eqn:Hc.
    intros [= <- <-]. apply assess_attempt in Hv as (Hd & Hnotin & Hend).
    exists (logs1 ++ [EvCreate (build_request lib db a class_select due_at
                                   end_at (str_of_int (assignment_id a))) res]
            ++ logs2).
    split_and!.
    + done.
    + simpl. destruct res; [apply union_subseteq_r | done].
    + simpl. destruct res; [done | apply union_subseteq_r].
    + intros Hknown. by destruct (Hnotin (Hknown _ Hd)).
    + unfold failed_creates in *. rewrite !omap_app, Hf1, Hf2.
      destruct res as [[]|e]; simpl; [| done].
      intros _ _ d _. apply elem_of_union. left. by apply elem_of_singleton.
Qed.

Lemma process_assignments_effect now week_out class_select
    (l : PaginatedList Assignment) (n : Z) s s' o :
  process_assignments lib notion db now week_out class_select l n s = (s', o) ->
  exists evs,
    trace s' = trace s ++ evs /\
    existing_canvas_ids s ⊆ existing_canvas_ids s'.
Proof.
  revert n s. induction l as [|a rest IH|e]; intros n s; simpl.
  - intros [= <- <-]. exists []. by rewrite app_nil_r.
  - intros H. bind_inv H.
    + apply process_assignment_effect in Hm as (evs1 & Htr1 & Hsub1 & _).
      apply IH in Hk as (evs2 & Htr2 & Hsub2).
      exists (evs1 ++ evs2). rewrite Htr2, Htr1, app_assoc.
      split; [done | by etrans].
    + apply process_assignment_effect in Hm as (evs1 & Htr1 & Hsub1 & _).
      by exists evs1.
    + apply process_assignment_effect in Hm as (evs1 & Htr1 & Hsub1 & _).
      by exists evs1.
  - intros [= <- <-]. exists []. by rewrite app_nil_r.
Qed.

(** Assignments with other ids leave an id out of the set. *)
Lemma process_assignments_other_ids now week_out class_select
    (l : list Assignment) (n : Z) (x : Z) s s' o :
  Forall (fun a => assignment_id a <> x) l ->
  process_assignments lib notion db now week_out class_select
    (paginated l) n s = (s', o) ->
  str_of_int x ∉ existing_canvas_ids s ->
  str_of_int x ∉ existing_canvas_ids s'.
Proof.
  revert n s. induction l as [|a l IH]; intros n s Hl; simpl.
  - by intros [= <- <-].
  - apply Forall_cons in Hl as [Ha Hl]. intros H Hx.
    assert (Hstep : forall s1 o1,
      process_assignment lib notion db now week_out class_select a s
      = (s1, o1) -> str_of_int x ∉ existing_canvas_ids s1).
    { intros s1 o1 Hm.
      apply process_assignment_effect in Hm as (_ & _ & _ & Hsub & _).
      intros Hin. apply Hsub in Hin.
      apply elem_of_union in Hin as [Hin%elem_of_singleton|Hin]; [| done].
      by apply str_of_int_inj in Hin. }
    bind_inv H; [by eapply IH; eauto | by eapply Hstep..].
Qed.

(** C9. A create call that raises leaves the set as it was.  So when the
    loop later reaches another eligible assignment with the same id (the
    assignments in between have other ids and let the loop go on), it
    calls [pages.create] for that id a second time. *)
Theorem failed_create_is_retried now week_out class_select
    (a1 a2 : Assignment) (between : list Assignment)
    (rest : PaginatedList Assignment) (n : Z) (e : exn) s s1 s2 (m : Z) :
  eligible now week_out a1 ->
  str_of_int (assignment_id a1) ∉ existing_canvas_ids s ->
  (forall req, request_of now week_out class_select a1 req ->
     (pages_create notion (notion_st s) req).2 = Err e) ->
  process_assignment lib notion db now week_out class_select a1 s
  = (s1, Done tt) ->
  Forall (fun a => assignment_id a <> assignment_id a1) between ->
  process_assignments lib notion db now week_out class_select
    (paginated between) (n + 1) s1 = (s2, Done m) ->
  eligible now week_out a2 ->
  assignment_id a2 = assignment_id a1 ->
  existing_canvas_ids s1 = existing_canvas_ids s /\
  forall s' o,
    process_assignments lib notion db now week_out class_select
      (PLCons a1 (pl_app between (PLCons a2 rest))) n s = (s', o) ->
    exists req1 req2 calls_between calls_after,
      create_calls (trace s') =
        create_calls (trace s) ++ req1 :: calls_between
        ++ req2 :: calls_after /\
      prop_Canvas_ID req1 = str_of_int (assignment_id a1) /\
      prop_Canvas_ID req2 = str_of_int (assignment_id a1) /\
      (req1, e) ∈ failed_creates (trace s').
Proof.
  intros Hel1 Hfresh Hfail Hrun1 Hbetween Hloop Hel2 Hid.
  destruct (process_assignment_eligible now week_out class_select a1 s
              Hel1 Hfresh)
    as (s1' & req1 & res & evs1 & Hrun1' & Hreq1 & Hres & _ & Htr1 & Hc1
        & _ & Hf1 & _ & _ & Hids1).
  rewrite Hrun1 in Hrun1'. injection Hrun1' as <-.
  rewrite (Hfail _ Hreq1) in Hres. subst res.
  split; [done |].
  assert (Hfresh2 : str_of_int (assignment_id a2) ∉ existing_canvas_ids s2).
  { rewrite Hid. eapply process_assignments_other_ids; [done.. |].
    by rewrite Hids1. }
  destruct (process_assignment_eligible now week_out class_select a2 s2
              Hel2 Hfresh2)
    as (s3 & req2 & res2 & evs2 & Hrun2 & Hreq2 & _ & _ & Htr2 & Hc2 & _).
  apply process_assignments_effect in Hloop as Hmid.
  destruct Hmid as (evsb & Htrb & _).
  intros s' o Hall. simpl in Hall.
  unfold bind at 1 in Hall. rewrite Hrun1 in Hall.
  rewrite process_assignments_app in Hall.
  unfold bind at 1 in Hall. rewrite Hloop in Hall. simpl in Hall.
  unfold bind at 1 in Hall. rewrite Hrun2 in Hall.
  apply process_assignments_effect in Hall as (evsr & Htrr & _).
  exists req1, req2, (create_calls evsb), (create_calls evsr).
  rewrite Htrr, Htr2, Htrb, Htr1.
  unfold create_calls, failed_creates in *.
  rewrite !omap_app, Hc1, Hc2, Hf1. simpl. rewrite <- !app_assoc. simpl.
  split_and!.
  - done.
  - by destruct Hreq1 as (? & ? & _ & _ & ->).
  - rewrite <- Hid. by destruct Hreq2 as (? & ? & _ & _ & ->).
  - apply elem_of_app. right. by left.
Qed.

(** ** Two runs in a row *)

Lemma quiet_refl s : quiet s s.
Proof. split_and!; [done.. |]. exists []. by rewrite app_nil_r. Qed.

Lemma quiet_trans s1 s2 s3 : quiet s1 s2 -> quiet s2 s3 -> quiet s1 s3.
Proof.
  intros (Hn1 & Hi1 & evs1 & Ht1 & Hc1) (Hn2 & Hi2 & evs2 & Ht2 & Hc2).
  split_and!; [congruence.. |]. exists (evs1 ++ evs2).
  rewrite Ht2, Ht1, app_assoc. split; [done |].
  unfold create_calls in *. by rewrite omap_app, Hc1, Hc2.
Qed.

Lemma quiet_add_events s (evs : list event) :
  create_calls evs = [] -> quiet s (add_events s evs).
Proof. intros Hc. split_and!; [done.. |]. by exists evs. Qed.

Lemma process_assignments_known now week_out class_select
    (l : PaginatedList Assignment) (n : Z) s s' o :
  (forall a d, a ∈ pl_items l -> due_in_window lib now week_out a d ->
     str_of_int (assignment_id a) ∈ existing_canvas_ids s) ->
  process_assignments lib notion db now week_out class_select l n s = (s', o) ->
  quiet s s'.
Proof.
  revert n s. induction l as [|a rest IH|e]; intros n s Hknown; simpl.
  - intros [= <- <-]. apply quiet_refl.
  - intros H.
    assert (Hstep : forall s1 o1,
      process_assignment lib notion db now week_out class_select a s
      = (s1, o1) -> quiet s s1).
    { intros s1 o1 Hm.
      apply process_assignment_effect in Hm as (evs & Htr & _ & _ & Hq & _).
      destruct Hq as (Hc & Hn & Hi).
      { intros d Hd. eapply Hknown; [by left | done]. }
      split_and!; [done.. |]. by exists evs. }
    bind_inv H; [| by eapply Hstep..].
    eapply quiet_trans; [by eapply Hstep |].
    eapply IH; [| done]. intros a' d Ha' Hd.
    apply Hstep in Hm as (_ & -> & _). eapply Hknown; [by right | done].
  - intros [= <- <-]. apply quiet_refl.
Qed.

Lemma process_courses_known now week_out (courses : PaginatedList Course)
    s s' o :
  all_known now week_out courses (existing_canvas_ids s) ->
  process_courses lib notion db name_map now week_out courses s = (s', o) ->
  quiet s s'.
Proof.
  revert s. induction courses as [|c rest IH|e]; intros s Hknown; simpl.
  - intros [= <- <-]. apply quiet_refl.
  - intros H.
    assert (Hstep : forall s1 o1,
      process_course lib notion db name_map now week_out c s = (s1, o1) ->
      quiet s s1).
    { intros s1 o1 Hm.
      destruct (name_map !! course_name c) as [class_select|] eqn:Hmap.
      - rewrite (process_course_mapped _ _ _ _ _ Hmap) in Hm.
        match type of Hm with
        | bind _ _ _ ?st = _ => set (s0 := st) in *
        end.
        assert (Hq0 : quiet s s0) by (by apply quiet_add_events).
        assert (Hloop : forall s2 o2,
          process_assignments lib notion db now week_out class_select
            (course_assignments c) 0 s0 = (s2, o2) -> quiet s0 s2).
        { intros s2 o2. apply process_assignments_known.
          intros a d Ha Hd. simpl. eapply Hknown; [by left | done..]. }
        eapply quiet_trans; [exact Hq0 |].
        bind_inv Hm; [| by eapply Hloop..].
        eapply quiet_trans; [by eapply Hloop |].
        unfold log in Hk. rewrite emit_eq in Hk. injection Hk as <- <-.
        by apply quiet_add_events.
      - rewrite (process_course_unmapped _ _ _ _ Hmap) in Hm.
        injection Hm as <- <-. by apply quiet_add_events. }
    bind_inv H; [| by eapply Hstep..].
    eapply quiet_trans; [by eapply Hstep |].
    eapply IH; [| done]. intros c' cls a d Hc' Hmap Ha Hd.
    apply Hstep in Hm as (_ & -> & _). eapply Hknown; [by right | done..].
  - intros [= <- <-]. apply quiet_refl.
Qed.

Lemma sync_pass_known (T : Z) (courses : PaginatedList Course) s s' o :
  (forall week_out,
     dt_add (utc_now T) (timedelta_days 7) = Ok week_out ->
     all_known (utc_now T) week_out courses (existing_canvas_ids s)) ->
  sync_pass lib notion db name_map T courses s = (s', o) ->
  quiet s s'.
Proof.
  intros Hknown H.
  destruct (dt_add (utc_now T) (timedelta_days 7)) as [week_out|e] eqn:Hw.
  - rewrite (sync_pass_window _ _ _ _ Hw) in H.
    match type of H with
    | bind _ _ _ ?st = _ => set (s0 := st) in *
    end.
    assert (Hq0 : quiet s s0) by (by apply quiet_add_events).
    assert (Hloop : forall s2 o2,
      process_courses lib notion db name_map (utc_now T) week_out courses s0
      = (s2, o2) -> quiet s0 s2).
    { intros s2 o2. apply process_courses_known. simpl. by apply Hknown. }
    eapply quiet_trans; [exact Hq0 |].
    bind_inv H; [| by eapply Hloop..].
    eapply quiet_trans; [by eapply Hloop |].
    unfold log in Hk. rewrite emit_eq in Hk. injection Hk as <- <-.
    by apply quiet_add_events.
  - unfold sync_pass in H. rewrite Hw in H. injection H as <- <-.
    apply quiet_refl.
Qed.

Lemma failed_creates_app_nil (evs1 evs2 : list event) :
  failed_creates (evs1 ++ evs2) = [] ->
  failed_creates evs1 = [] /\ failed_creates evs2 = [].
Proof.
  unfold failed_creates. rewrite omap_app. apply app_eq_nil.
Qed.

(** A loop that ran to its end without a failed create call leaves every
    assignment that passes the filters with its id in the set. *)
Lemma process_assignments_done now week_out class_select
    (l : PaginatedList Assignment) (n m : Z) s s' :
  process_assignments lib notion db now week_out class_select l n s
  = (s', Done m) ->
  exists evs,
    trace s' = trace s ++ evs /\
    existing_canvas_ids s ⊆ existing_canvas_ids s' /\
    (failed_creates evs = [] ->
     forall a d, a ∈ pl_items l -> due_in_window lib now week_out a d ->
       str_of_int (assignment_id a) ∈ existing_canvas_ids s').
Proof.
  revert n s. induction l as [|a rest IH|e]; intros n s; simpl.
  - intros [= <- _]. exists []. rewrite app_nil_r. split_and!; [done.. |].
    intros _ a d Ha. by apply elem_of_nil in Ha.
  - intros H. bind_done H. destruct x.
    apply process_assignment_effect in Hm
      as (evs1 & Htr1 & Hsub1 & _ & _ & Hdone1).
    apply IH in Hk as (evs2 & Htr2 & Hsub2 & Hdone2).
    exists (evs1 ++ evs2). rewrite Htr2, Htr1, app_assoc.
    split_and!; [done | by etrans |].
    intros [Hf1 Hf2]%failed_creates_app_nil a' d Ha' Hd.
    apply elem_of_cons in Ha' as [->|Ha'].
    + apply Hsub2. by eapply Hdone1.
    + by eapply Hdone2.
  - done.
Qed.

Lemma process_courses_done now week_out (courses : PaginatedList Course)
    s s' :
  process_courses lib notion db name_map now week_out courses s
  = (s', Done tt) ->
  exists evs,
    trace s' = trace s ++ evs /\
    existing_canvas_ids s ⊆ existing_canvas_ids s' /\
    (failed_creates evs = [] ->
     all_known now week_out courses (existing_canvas_ids s')).
Proof.
  revert s. induction courses as [|c rest IH|e]; intros s; simpl.
  - intros [= <-]. exists []. rewrite app_nil_r. split_and!; [done.. |].
    intros _ c cls a d Hc. by apply elem_of_nil in Hc.
  - intros H. bind_done H. destruct x.
    apply IH in Hk as (evs2 & Htr2 & Hsub2 & Hdone2).
    destruct (name_map !! course_name c) as [class_select|] eqn:Hmap.
    + rewrite (process_course_mapped _ _ _ _ _ Hmap) in Hm.
      bind_done Hm.
      apply process_assignments_done in Hm0 as (evs1 & Htr1 & Hsub1 & Hdone1).
      unfold log in Hk. rewrite emit_eq in Hk. injection Hk as <-.
      simpl in Htr1, Htr2, Hsub1, Hsub2.
      rewrite Htr2, Htr1, <- !app_assoc.
      eexists. split; [reflexivity |]. split; [by etrans |].
      intros [_ [Hf1 [_ Hf2]%failed_creates_app_nil]%failed_creates_app_nil]
               %failed_creates_app_nil c' cls a d Hc' Hmap' Ha Hd.
      apply elem_of_cons in Hc' as [->|Hc'].
      * apply Hsub2. simpl. rewrite Hmap in Hmap'. by eapply Hdone1.
      * by eapply Hdone2.
    + rewrite (process_course_unmapped _ _ _ _ Hmap) in Hm.
      injection Hm as <-. simpl in Htr2, Hsub2.
      rewrite Htr2, <- !app_assoc.
      eexists. split; [reflexivity |]. split; [done |].
      intros [_ Hf2]%failed_creates_app_nil c' cls a d Hc' Hmap' Ha Hd.
      apply elem_of_cons in Hc' as [->|Hc'].
      * by rewrite Hmap in Hmap'.
      * by eapply Hdone2.
  - done.
Qed.

Lemma sync_pass_done (T : Z) (courses : PaginatedList Course) s s' :
  sync_pass lib notion db name_map T courses s = (s', Done tt) ->
  exists week_out evs,
    dt_add (utc_now T) (timedelta_days 7) = Ok week_out /\
    trace s' = trace s ++ evs /\
    (failed_creates evs = [] ->
     all_known (utc_now T) week_out courses (existing_canvas_ids s')).
Proof.
  intros H.
  destruct (dt_add (utc_now T) (timedelta_days 7)) as [week_out|e] eqn:Hw.
  2: { unfold sync_pass in H. by rewrite Hw in H. }
  rewrite (sync_pass_window _ _ _ _ Hw) in H.
  bind_done H. destruct x.
  apply process_courses_done in Hm as (evs & Htr & _ & Hdone).
  unfold log in Hk. rewrite emit_eq in Hk. injection Hk as <-.
  simpl in Htr. exists week_out. simpl. rewrite Htr, <- !app_assoc.
  eexists. split; [done |]. split; [reflexivity |].
  intros [_ [Hf _]%failed_creates_app_nil]%failed_creates_app_nil.
  by apply Hdone.
Qed.

(** C5, as it holds.  The first run ends normally and none of its create
    calls failed; the baseline the second run loads contains the first
    run's baseline and the id of every page the first run created; and
    every assignment that passes the second run's window also passed the
    first run's.  Then the second run makes no create call. *)
Theorem second_run_creates_nothing
    (n0 n1 : notion_state notion) (fuel1 fuel2 : nat) (T1 T2 : Z)
    (courses : PaginatedList Course) sf1 sf2 (baseline1 baseline2 : gset string)
    s1 s2 o2 :
  fetch_existing_canvas_ids notion db fuel1 (initial_state notion n0)
  = (sf1, Done baseline1) ->
  run lib notion db name_map n0 fuel1 T1 courses = (s1, Done tt) ->
  failed_creates (trace s1) = [] ->
  fetch_existing_canvas_ids notion db fuel2 (initial_state notion n1)
  = (sf2, Done baseline2) ->
  baseline1 ⊆ baseline2 ->
  (forall r, r ∈ created (trace s1) -> prop_Canvas_ID r ∈ baseline2) ->
  (forall week_out1 week_out2 course a d2,
     dt_add (utc_now T1) (timedelta_days 7) = Ok week_out1 ->
     dt_add (utc_now T2) (timedelta_days 7) = Ok week_out2 ->
     course ∈ pl_items courses -> a ∈ pl_items (course_assignments course) ->
     due_in_window lib (utc_now T2) week_out2 a d2 ->
     exists d1, due_in_window lib (utc_now T1) week_out1 a d1) ->
  run lib notion db name_map n1 fuel2 T2 courses = (s2, o2) ->
  create_calls (trace s2) = [].
Proof.
  intros Hf1 Hrun1 Hok Hf2 Hbase Hcreated Hwin Hrun2.
  destruct (run_dedup_inv _ _ _ _ _ _ Hrun1) as (b & Hinv & Hb).
  rewrite (Hb _ _ Hf1) in Hinv. clear b Hb.
  destruct Hinv as (_ & _ & _ & _ & Honly).
  rewrite (run_after_fetch _ _ _ _ _ _ Hf1) in Hrun1.
  apply sync_pass_done in Hrun1 as (week_out1 & evs1 & Hw1 & Htr1 & Hknown1).
  simpl in Htr1.
  assert (Hf : failed_creates evs1 = []).
  { rewrite Htr1 in Hok. by apply failed_creates_app_nil in Hok as [_ ?]. }
  specialize (Hknown1 Hf).
  rewrite (run_after_fetch _ _ _ _ _ _ Hf2) in Hrun2.
  apply sync_pass_known in Hrun2 as (_ & _ & evs2 & Htr2 & Hc2).
  - simpl in Htr2. rewrite Htr2.
    apply fetch_existing_no_creates in Hf2 as (_ & Hc & _).
    unfold create_calls in *. by rewrite omap_app, Hc, Hc2.
  - intros week_out2 Hw2 course class_select a d2 Hcourse Hmap Ha Hd2. simpl.
    destruct (Hwin _ _ _ _ _ Hw1 Hw2 Hcourse Ha Hd2) as [d1 Hd1].
    specialize (Hknown1 _ _ _ _ Hcourse Hmap Ha Hd1).
    apply Honly in Hknown1 as [Hin|(r & Hr & <-)].
    + by apply Hbase.
    + by apply Hcreated.
Qed.

(** ** The claims about single decisions *)

Lemma process_assignment_dedup now week_out class_select a s s' o :
  process_assignment lib notion db now week_out class_select a s = (s', o) ->
  (str_of_int (assignment_id a) ∈ existing_canvas_ids s ->
   create_calls (trace s') = create_calls (trace s)) /\
  (created (trace s') <> created (trace s) ->
   str_of_int (assignment_id a) ∈ existing_canvas_ids s').
Proof.
  destruct (process_assignment_assess now week_out class_select a s)
    as (logs1 & logs2 & Hl1 & Hl2 & _ & -> & _).
  destruct (log_events_projections logs1 Hl1) as (Hc1 & Hd1 & _).
  destruct (log_events_projections logs2 Hl2) as (Hc2 & Hd2 & _).
  assert (Hquiet : forall o',
    (add_events s logs1, o') = (s', o) ->
    create_calls (trace s') = create_calls (trace s) /\
    created (trace s') = created (trace s)).
  { intros o' [= <- _]. simpl. unfold create_calls, created in *.
    by rewrite !omap_app, Hc1, Hd1, !app_nil_r. }
  destruct (assess _ _ _ _ _) as [|e|due_at end_at] eqn:Hv.
  1,2: intros [Hc Hd]%Hquiet; by split.
  apply assess_attempt in Hv as (_ & Hnotin & _).
  cbv zeta. destruct (pages_create _ _ _) as [n' res].
  intros [= <- _]. split; [done |]. simpl.
  destruct res as [[]|e].
  - intros _. apply elem_of_union. left. by apply elem_of_singleton.
  - intros Hd. destruct Hd. unfold created in *.
    change (logs1 ++ EvCreate ?r ?x :: logs2)
      with (logs1 ++ [EvCreate r x] ++ logs2).
    by rewrite !omap_app, Hd1, Hd2, !app_nil_r.
Qed.

(** C1, as it holds.  In every run at most one page is created per id;
    once a create call for an id has returned, no further create call is
    made for that id; the id of every created page is in the set; and no
    create call is made for an id of the loaded baseline.  For a single
    assignment: an id that is in the set gets no create call, and a
    create call that returns puts the id into the set. *)
Theorem dedup_within_run (n0 : notion_state notion) (fuel : nat) (T : Z)
    (courses : PaginatedList Course) s' o :
  run lib notion db name_map n0 fuel T courses = (s', o) ->
  NoDup (prop_Canvas_ID <$> created (trace s')) /\
  no_call_after_success (trace s') /\
  (forall r, r ∈ created (trace s') ->
     prop_Canvas_ID r ∈ existing_canvas_ids s') /\
  (forall sf baseline r,
     fetch_existing_canvas_ids notion db fuel (initial_state notion n0)
     = (sf, Done baseline) ->
     r ∈ create_calls (trace s') -> prop_Canvas_ID r ∉ baseline) /\
  (forall now week_out class_select a s s1 o1,
     process_assignment lib notion db now week_out class_select a s
     = (s1, o1) ->
     (str_of_int (assignment_id a) ∈ existing_canvas_ids s ->
      create_calls (trace s1) = create_calls (trace s)) /\
     (created (trace s1) <> created (trace s) ->
      str_of_int (assignment_id a) ∈ existing_canvas_ids s1)).
Proof.
  intros Hrun.
  destruct (run_dedup_inv _ _ _ _ _ _ Hrun)
    as (b & (_ & Hin & Hno & Hfresh & _) & Hb).
  split_and!.
  - by apply no_call_after_success_nodup.
  - done.
  - done.
  - intros sf baseline r Hf. rewrite <- (Hb _ _ Hf). apply Hfresh.
  - intros. by eapply process_assignment_dedup.
Qed.

(** * Further properties *)

(** ** The loader, whatever the store *)

Lemma query_results_app (tr1 tr2 : list event) :
  query_results (tr1 ++ tr2) = query_results tr1 ++ query_results tr2.
Proof. apply omap_app. Qed.

Lemma query_results_logs (logs : list event) :
  Forall is_log logs -> query_results logs = [].
Proof. intros H. eapply omap_none; [| exact H]. by intros []. Qed.

Lemma pages_seen_app (tr1 tr2 : list event) :
  pages_seen (tr1 ++ tr2) = pages_seen tr1 ++ pages_seen tr2.
Proof. unfold pages_seen. by rewrite query_results_app, list.bind_app. Qed.

Lemma pages_seen_logs (logs : list event) :
  Forall is_log logs -> pages_seen logs = [].
Proof. intros H. unfold pages_seen. by rewrite query_results_logs. Qed.

Lemma failed_queries_app (tr1 tr2 : list event) :
  failed_queries (tr1 ++ tr2) = failed_queries tr1 ++ failed_queries tr2.
Proof. apply omap_app. Qed.

Lemma failed_queries_logs (logs : list event) :
  Forall is_log logs -> failed_queries logs = [].
Proof. intros H. by apply log_events_projections. Qed.

Lemma follows_cursors_cons (c : option string) (resp : QueryResponse)
    (rest : list (option string * result QueryResponse)) :
  has_more resp = Some true ->
  follows_cursors (next_cursor resp) rest ->
  follows_cursors c ((c, Ok resp) :: rest).
Proof. intros Hmore Hrest. simpl. split; [done |]. by destruct rest. Qed.

(** What the scan of one response comes to: the ids of its pages join the
    set, unless one of the pages is ill typed, which is a [KeyError]. *)
Lemma scan_pages_spec (pages : list Page) ids s s' (o : outcome (gset string)) :
  scan_pages notion pages ids s = (s', o) ->
  exists logs,
    Forall is_log logs /\ s' = add_events s logs /\
    match o with
    | Done ids' =>
        Forall well_typed pages /\
        ids' = list_to_set (omap canvas_id_of pages) ∪ ids
    | Raised e => e = KeyError "rich_text" /\ Exists ill_typed pages
    | OutOfFuel => False
    end.
Proof.
  revert ids s. induction pages as [|page rest IH]; intros ids s; simpl.
  - intros [= <- <-]. exists []. rewrite add_events_nil.
    split_and!; [done.. |]. set_solver.
  - intros H. unfold scan_page in H. unfold canvas_id_of at 1.
    destruct (properties page !! "Canvas ID") as [[[|run runs]|k]|] eqn:Hp.
    + rewrite bind_ret in H. apply IH in H as (logs & Hlogs & -> & Ho).
      exists logs. split_and!; [done.. |].
      destruct o as [ids'|e|]; [| | done].
      * destruct Ho as [Hwt ->]. split; [| done].
        constructor; [| done]. intros type. by rewrite Hp.
      * destruct Ho as [-> Hex]. split; [done | by right].
    + rewrite bind_assoc in H. unfold log in H. rewrite bind_emit in H.
      rewrite bind_ret in H. apply IH in H as (logs & Hlogs & -> & Ho).
      eexists (_ :: logs). rewrite add_events_app.
      split_and!; [| done |]; [by constructor |].
      destruct o as [ids'|e|]; [| | done].
      * destruct Ho as [Hwt ->]. split.
        { constructor; [| done]. intros type. by rewrite Hp. }
        simpl. set_solver.
      * destruct Ho as [-> Hex]. split; [done | by right].
    + injection H as <- <-. exists []. rewrite add_events_nil.
      split_and!; [done.. |]. left. by exists k.
    + rewrite bind_ret in H. apply IH in H as (logs & Hlogs & -> & Ho).
      exists logs. split_and!; [done.. |].
      destruct o as [ids'|e|]; [| | done].
      * destruct Ho as [Hwt ->]. split; [| done].
        constructor; [| done]. intros type. by rewrite Hp.
      * destruct Ho as [-> Hex]. split; [done | by right].
Qed.

(** The loop, iteration by iteration. *)
Lemma fetch_loop_spec (fuel : nat) ids cursor (batch : Z) s s' o :
  fetch_loop notion db fuel ids cursor batch s = (s', o) ->
  exists evs,
    trace s' = trace s ++ evs /\
    follows_cursors cursor (query_results evs) /\
    (length (query_results evs) <= fuel)%nat /\
    match o with
    | Done ids' =>
        Forall well_typed (pages_seen evs) /\
        ids' = list_to_set (omap canvas_id_of (pages_seen evs)) ∪ ids /\
        failed_queries evs = [] /\
        exists c resp,
          last (query_results evs) = Some (c, Ok resp) /\
          has_more resp <> Some true
    | OutOfFuel =>
        Forall well_typed (pages_seen evs) /\
        failed_queries evs = [] /\
        length (query_results evs) = fuel
    | Raised e =>
        (failed_queries evs = [e] /\ Forall well_typed (pages_seen evs)) \/
        (e = KeyError "rich_text" /\ failed_queries evs = [] /\
         Exists ill_typed (pages_seen evs))
    end.
Proof.
  revert ids cursor batch s s' o.
  induction fuel as [|fuel IH]; intros ids cursor batch s s' o; simpl.
  - intros [= <- <-]. exists []. rewrite app_nil_r. by split_and!.
  - intros H. unfold log in H. rewrite bind_emit in H.
    unfold bind at 1 in H. unfold notion_query in H.
    destruct (data_sources_query _ _ _ _ _) as [n' [resp|e]]; simpl in H.
    2: { injection H as <- <-. simpl. rewrite <- app_assoc.
         eexists. split; [reflexivity |].
         split; [done |]. split; [simpl; lia |]. left. by split. }
    rewrite bind_emit in H.
    match type of H with
    | bind _ _ _ ?st = _ => set (s0 := st) in *
    end.
    set (pre := [EvLog DEBUG "Querying Notion (batch %d, cursor=%s)"
                   [pretty (batch + 1); str_of_cursor cursor];
                 EvQuery db cursor 100 (Ok resp);
                 EvLog DEBUG "Received %d results from Notion"
                   [pretty (Z.of_nat (length (default [] (results resp))))]]).
    assert (Hs0 : trace s0 = trace s ++ pre).
    { subst s0 pre. simpl. by rewrite <- !app_assoc. }
    assert (Hq0 : forall tl, query_results (pre ++ tl)
                             = (cursor, Ok resp) :: query_results tl) by done.
    assert (Hp0 : forall tl, pages_seen (pre ++ tl)
                             = default [] (results resp) ++ pages_seen tl) by done.
    assert (Hf0 : forall tl, failed_queries (pre ++ tl) = failed_queries tl)
      by done.
    clearbody s0 pre.
    bind_inv H.
    + apply scan_pages_spec in Hm as (logs & Hlogs & -> & Hwt & ->).
      destruct (has_more resp) as [[|]|] eqn:Hmore; simpl in Hk.
      * apply IH in Hk as (evs & Htr & Hfollow & Hlen & Ho).
        simpl in Htr. rewrite Hs0, <- !app_assoc in Htr.
        exists (pre ++ logs ++ evs). split; [done |].
        rewrite Hq0, Hp0, Hf0, query_results_app, pages_seen_app,
          failed_queries_app, query_results_logs, pages_seen_logs,
          failed_queries_logs by done.
        split; [by apply follows_cursors_cons |].
        split; [simpl; lia |]. simpl.
        destruct o as [ids'|e|].
        -- destruct Ho as (Hwt' & -> & Hf & c & resp' & Hlast & Hstop).
           split; [by apply Forall_app |]. split.
           { rewrite omap_app, list_to_set_app_L. set_solver. }
           split; [done |]. exists c, resp'. split; [| done].
           destruct (query_results evs); [done |]. done.
        -- destruct Ho as [[Hf Hwt']|(-> & Hf & Hex)].
           ++ left. split; [done |]. by apply Forall_app.
           ++ right. split; [done |]. split; [done |].
              apply Exists_app. by right.
        -- destruct Ho as (Hwt' & Hf & Hn).
           split; [by apply Forall_app |]. split; [done |]. by rewrite Hn.
      * unfold log in Hk. rewrite bind_emit in Hk. injection Hk as <- <-.
        simpl. rewrite Hs0, <- !app_assoc.
        eexists (pre ++ logs ++ [_]). split; [done |].
        rewrite Hq0, Hp0, Hf0, query_results_app, pages_seen_app,
          failed_queries_app, query_results_logs, pages_seen_logs,
          failed_queries_logs by done.
        split; [done |]. split; [simpl; lia |].
        simpl. rewrite app_nil_r.
        split; [done |]. split; [done |]. split; [done |].
        exists cursor, resp. split; [done |]. by rewrite Hmore.
      * unfold log in Hk. rewrite bind_emit in Hk. injection Hk as <- <-.
        simpl. rewrite Hs0, <- !app_assoc.
        eexists (pre ++ logs ++ [_]). split; [done |].
        rewrite Hq0, Hp0, Hf0, query_results_app, pages_seen_app,
          failed_queries_app, query_results_logs, pages_seen_logs,
          failed_queries_logs by done.
        split; [done |]. split; [simpl; lia |].
        simpl. rewrite app_nil_r.
        split; [done |]. split; [done |]. split; [done |].
        exists cursor, resp. split; [done |]. by rewrite Hmore.
    + apply scan_pages_spec in Hm as (logs & Hlogs & -> & -> & Hex).
      simpl. rewrite Hs0, <- !app_assoc.
      exists (pre ++ logs). split; [done |].
      rewrite Hq0, Hp0, Hf0, query_results_logs, pages_seen_logs,
        failed_queries_logs by done.
      split; [done |]. split; [simpl; lia |].
      simpl. rewrite app_nil_r. right. by split_and!.
    + by apply scan_pages_spec in Hm as (logs & Hlogs & _ & []).
Qed.

Lemma fetch_existing_spec (fuel : nat) s s' o :
  fetch_existing_canvas_ids notion db fuel s = (s', o) ->
  exists evs,
    trace s' = trace s ++ evs /\
    follows_cursors None (query_results evs) /\
    (length (query_results evs) <= fuel)%nat /\
    match o with
    | Done ids =>
        Forall well_typed (pages_seen evs) /\
        ids = list_to_set (omap canvas_id_of (pages_seen evs)) /\
        failed_queries evs = [] /\
        (exists c resp,
           last (query_results evs) = Some (c, Ok resp) /\
           has_more resp <> Some true) /\
        last evs = Some (EvLog INFO "Loaded %d existing Canvas IDs"
                           [pretty (Z.of_nat (size ids))])
    | OutOfFuel =>
        Forall well_typed (pages_seen evs) /\
        failed_queries evs = [] /\
        length (query_results evs) = fuel
    | Raised e =>
        (failed_queries evs = [e] /\ Forall well_typed (pages_seen evs)) \/
        (e = KeyError "rich_text" /\ failed_queries evs = [] /\
         Exists ill_typed (pages_seen evs))
    end.
Proof.
  unfold fetch_existing_canvas_ids, log. intros H. rewrite bind_emit in H.
  bind_inv H.
  - apply fetch_loop_spec in Hm as (evs & Htr & Hfollow & Hlen & Ho).
    rewrite bind_emit in Hk. injection Hk as <- <-.
    destruct Ho as (Hwt & -> & Hf & Hlast).
    simpl in *. rewrite Htr, <- !app_assoc.
    eexists ([_] ++ evs ++ [_]). split; [reflexivity |].
    rewrite !query_results_app, !pages_seen_app, !failed_queries_app.
    simpl. rewrite !app_nil_r.
    split; [done |]. split; [done |]. split; [done |].
    split; [set_solver |]. split; [done |]. split; [done |].
    change (?x :: ?l ++ [?y]) with ((x :: l) ++ [y]). by rewrite last_snoc.
  - apply fetch_loop_spec in Hm as (evs & Htr & Hfollow & Hlen & Ho).
    simpl in Htr. rewrite <- app_assoc in Htr.
    eexists ([_] ++ evs). split; [exact Htr |].
    by rewrite !query_results_app, !pages_seen_app, !failed_queries_app.
  - apply fetch_loop_spec in Hm as (evs & Htr & Hfollow & Hlen & Ho).
    simpl in Htr. rewrite <- app_assoc in Htr.
    eexists ([_] ++ evs). split; [exact Htr |].
    by rewrite !query_results_app, !pages_seen_app, !failed_queries_app.
Qed.

Lemma sync_events_no_queries (evs : list event) :
  Forall sync_event evs -> query_results evs = [] /\ pages_seen evs = [].
Proof.
  intros H.
  assert (Hq : query_results evs = []).
  { eapply omap_none; [| exact H]. by intros []. }
  split; [done |]. unfold pages_seen. by rewrite Hq.
Qed.

Lemma load_events_queries (evs : list event) :
  Forall load_event evs ->
  Forall (fun ev => forall d c n res,
            ev = EvQuery d c n res -> d = db /\ n = 100) evs.
Proof.
  intros H. eapply Forall_impl; [exact H |].
  intros ev Hev d c n res ->. exact Hev.
Qed.

(** X1. The loader's dialogue with the store, whatever the store
    answers.  The first query carries no cursor; every later query is
    made only after a response whose [has_more] was true, and carries
    the [next_cursor] of that response (which may be missing); every
    query asks the configured data source for 100 pages.  When the
    loader returns, the last response was one whose [has_more] was not
    true. *)
Theorem loader_follows_cursors (n0 : notion_state notion) (fuel : nat) s' o :
  fetch_existing_canvas_ids notion db fuel (initial_state notion n0) = (s', o) ->
  follows_cursors None (query_results (trace s')) /\
  Forall (fun ev => forall d c n res,
            ev = EvQuery d c n res -> d = db /\ n = 100) (trace s') /\
  (forall ids, o = Done ids ->
     exists c resp,
       last (query_results (trace s')) = Some (c, Ok resp) /\
       has_more resp <> Some true).
Proof.
  intros H.
  pose proof (fetch_existing_canvas_ids_steps _ _ _ _ H) as Hsteps.
  apply load_steps_trace in Hsteps as (_ & evs' & Htr' & Hevs').
  apply fetch_existing_spec in H as (evs & Htr & Hfollow & _ & Ho).
  simpl in Htr, Htr'. subst evs evs'. split; [done |].
  split; [by apply load_events_queries |].
  intros ids ->. by destruct Ho as (_ & _ & _ & Hlast & _).
Qed.

(** X2. What the loader returns, whatever the store: the set of the
    Canvas ids of all the pages the queries returned, where the id of a
    page is the plain text of the first item of its ["Canvas ID"] rich
    text, and a page without that property or with an empty rich text
    has none.  No query failed, no page was ill typed, and the record
    that closes the load reports the number of distinct ids. *)
Theorem loader_collects_ids (n0 : notion_state notion) (fuel : nat) s'
    (ids : gset string) :
  fetch_existing_canvas_ids notion db fuel (initial_state notion n0)
  = (s', Done ids) ->
  ids = list_to_set (omap canvas_id_of (pages_seen (trace s'))) /\
  Forall well_typed (pages_seen (trace s')) /\
  failed_queries (trace s') = [] /\
  last (trace s') = Some (EvLog INFO "Loaded %d existing Canvas IDs"
                            [pretty (Z.of_nat (size ids))]).
Proof.
  intros H. apply fetch_existing_spec in H as (evs & Htr & _ & _ & Ho).
  simpl in Htr. subst evs.
  by destruct Ho as (Hwt & Hids & Hf & _ & Hlast).
Qed.

Lemma ill_typed_not_well_typed (pages : list Page) (page : Page) :
  Forall well_typed pages -> page ∈ pages -> ill_typed page -> False.
Proof.
  intros Hwt Hin [type Htype]. rewrite Forall_forall in Hwt.
  by apply (Hwt page Hin type).
Qed.

(** X3. A page whose ["Canvas ID"] property is not of the rich text type
    ends the run in a [KeyError]: as soon as a query returns such a page
    the loader dies on it, so no Canvas call is made, no page is created
    and the id set is never assigned. *)
Theorem ill_typed_page_aborts (n0 : notion_state notion) (fuel : nat)
    (T : Z) (courses : PaginatedList Course) s' o (page : Page) :
  run lib notion db name_map n0 fuel T courses = (s', o) ->
  page ∈ pages_seen (trace s') ->
  ill_typed page ->
  o = Raised (KeyError "rich_text") /\
  create_calls (trace s') = [] /\ canvas_calls (trace s') = [] /\
  existing_canvas_ids s' = ∅.
Proof.
  unfold run. intros Hrun Hin Hill.
  apply main_inv in Hrun as [[Hf ->]|[(e' & Hf & ->)|(sf & ids & Hf & Hp)]].
  - apply fetch_existing_spec in Hf as (evs & Htr & _ & _ & Hwt & _).
    simpl in Htr. subst evs.
    destruct (ill_typed_not_well_typed _ _ Hwt Hin Hill).
  - pose proof (fetch_existing_no_creates _ _ _ _ Hf) as (Hids & Hc & Hv).
    apply fetch_existing_spec in Hf as (evs & Htr & _ & _ & Ho).
    simpl in Htr. subst evs.
    destruct Ho as [[_ Hwt]|(-> & _ & _)].
    + destruct (ill_typed_not_well_typed _ _ Hwt Hin Hill).
    + done.
  - apply fetch_existing_spec in Hf as (evs & Htr & _ & _ & Hwt & _).
    simpl in Htr. subst evs.
    apply sync_pass_steps, sync_steps_trace in Hp as (_ & evs & Htr & Hevs).
    simpl in Htr. rewrite Htr, pages_seen_app in Hin.
    destruct (sync_events_no_queries evs Hevs) as [_ Hnone].
    rewrite Hnone, app_nil_r in Hin.
    destruct (ill_typed_not_well_typed _ _ Hwt Hin Hill).
Qed.

Lemma query_calls_app (tr1 tr2 : list event) :
  query_calls (tr1 ++ tr2) = query_calls tr1 ++ query_calls tr2.
Proof. apply omap_app. Qed.

Lemma fetch_loop_endless (inv : notion_state notion -> option string -> Prop) :
  (forall n cursor, inv n cursor ->
     exists n' resp,
       data_sources_query notion n db cursor 100 = (n', Ok resp) /\
       has_more resp = Some true /\
       Forall well_typed (default [] (results resp)) /\
       inv n' (next_cursor resp)) ->
  forall (fuel : nat) ids cursor (batch : Z) s,
    inv (notion_st s) cursor ->
    exists s',
      fetch_loop notion db fuel ids cursor batch s = (s', OutOfFuel) /\
      length (query_calls (trace s'))
      = (length (query_calls (trace s)) + fuel)%nat.
Proof.
  intros Hinv fuel.
  induction fuel as [|fuel IH]; intros ids cursor batch s Hs; simpl.
  - exists s. split; [done | lia].
  - destruct (Hinv _ _ Hs) as (n' & resp & Hq & Hmore & Hwt & Hnext).
    unfold log. rewrite bind_emit. unfold bind at 1, notion_query.
    simpl. rewrite Hq. rewrite bind_emit.
    match goal with
    | |- context [bind _ (scan_pages _ ?ps ?i) _ ?s0] =>
        destruct (scan_pages notion ps i s0) as [s1 o1] eqn:Hscan
    end.
    unfold bind at 1. rewrite Hscan.
    apply scan_pages_spec in Hscan as (logs & Hlogs & -> & Ho).
    destruct o1 as [ids1|e|]; [| | done].
    2: { destruct Ho as [_ Hex]. apply Exists_exists in Hex as (p & Hp & Hill).
         destruct (ill_typed_not_well_typed _ _ Hwt Hp Hill). }
    rewrite Hmore. simpl.
    match goal with
    | |- context [fetch_loop _ _ _ ?i ?c ?b ?s1] =>
        destruct (IH i c b s1) as (s' & Hloop & Hlen)
    end; [done |].
    exists s'. split; [done |]. rewrite Hlen. simpl.
    rewrite !query_calls_app. simpl.
    destruct (log_events_projections logs Hlogs) as (_ & _ & _ & _ & _ & -> & _).
    rewrite !length_app. simpl. lia.
Qed.

(** X4. The loader has no bound of its own.  Against a store that keeps
    answering with [has_more] true, the [while True] loop never ends:
    however many iterations it is given, it uses them all on queries,
    and the run gets no further, so Canvas is never contacted and
    nothing is created. *)
Theorem loader_has_no_bound
    (inv : notion_state notion -> option string -> Prop)
    (n0 : notion_state notion) :
  inv n0 None ->
  (forall n cursor, inv n cursor ->
     exists n' resp,
       data_sources_query notion n db cursor 100 = (n', Ok resp) /\
       has_more resp = Some true /\
       Forall well_typed (default [] (results resp)) /\
       inv n' (next_cursor resp)) ->
  forall (fuel : nat) (T : Z) (courses : PaginatedList Course),
    exists s',
      run lib notion db name_map n0 fuel T courses = (s', OutOfFuel) /\
      length (query_calls (trace s')) = fuel /\
      canvas_calls (trace s') = [] /\ create_calls (trace s') = [].
Proof.
  intros H0 Hinv fuel T courses.
  destruct (fetch_loop_endless inv Hinv fuel ∅ None 0
              (add_events (initial_state notion n0)
                 [EvLog INFO "Fetching existing Canvas IDs from Notion" []]))
    as (s' & Hloop & Hlen); [done |].
  assert (Hf : fetch_existing_canvas_ids notion db fuel (initial_state notion n0)
               = (s', OutOfFuel)).
  { unfold fetch_existing_canvas_ids, log. rewrite bind_emit.
    unfold bind. by rewrite Hloop. }
  exists s'. split.
  { unfold run, main, bind. by rewrite Hf. }
  split; [exact Hlen |].
  by apply fetch_existing_no_creates in Hf as (_ & ? & ?).
Qed.

Lemma fetch_loop_answers (resps : list QueryResponse) :
  forall (fuel : nat) ids cursor (batch : Z) s,
    answers notion db (notion_st s) cursor resps ->
    Forall well_typed (resps ≫= (fun resp => default [] (results resp))) ->
    (length resps <= fuel)%nat ->
    exists s',
      fetch_loop notion db fuel ids cursor batch s =
      (s', Done (list_to_set
                   (omap canvas_id_of
                      (resps ≫= (fun resp => default [] (results resp))))
                 ∪ ids)) /\
      query_results (trace s') =
      query_results (trace s) ++
      zip (cursor :: (next_cursor <$> resps)) (Ok <$> resps).
Proof.
  induction resps as [|resp rest IH]; intros fuel ids cursor batch s Hans Hwt Hfuel;
    [done |].
  destruct fuel as [|fuel]; [simpl in Hfuel; lia |].
  destruct Hans as (n' & Hq & Hrest).
  assert (Hz : zip (cursor :: (next_cursor <$> resp :: rest))
                 (Ok <$> resp :: rest)
               = (cursor, Ok resp)
                 :: zip (next_cursor resp :: (next_cursor <$> rest))
                      (Ok <$> rest)) by done.
  assert (Hb : (resp :: rest) ≫= (fun r => default [] (results r))
               = default [] (results resp) ++
                 rest ≫= (fun r => default [] (results r))) by done.
  rewrite Hz, Hb. rewrite Hb in Hwt. clear Hz Hb.
  apply Forall_app in Hwt as [Hwt1 Hwt2].
  cbn [fetch_loop]. unfold log. rewrite bind_emit.
  unfold bind at 1, notion_query. simpl (notion_st _). rewrite Hq. rewrite bind_emit.
  match goal with
  | |- context [bind _ (scan_pages _ ?ps ?i) _ ?s0] =>
      destruct (scan_pages notion ps i s0) as [s1 o1] eqn:Hscan
  end.
  unfold bind at 1. rewrite Hscan.
  apply scan_pages_spec in Hscan as (logs & Hlogs & -> & Ho).
  destruct o1 as [ids1|e|]; [| | done].
  2: { destruct Ho as [_ Hex]. apply Exists_exists in Hex as (p & Hp & Hill).
       destruct (ill_typed_not_well_typed _ _ Hwt1 Hp Hill). }
  destruct Ho as [_ ->].
  assert (Hpre : forall tl : list event,
            query_results
              (((((trace s ++
                   [EvLog DEBUG "Querying Notion (batch %d, cursor=%s)"
                      [pretty (batch + 1); str_of_cursor cursor]]) ++
                  [EvQuery db cursor 100 (Ok resp)]) ++
                 [EvLog DEBUG "Received %d results from Notion"
                    [pretty (Z.of_nat (length (default [] (results resp))))]])
                ++ logs) ++ tl)
            = query_results (trace s) ++ (cursor, Ok resp) :: query_results tl).
  { intros tl.
    rewrite !query_results_app, (query_results_logs logs) by done.
    simpl. by rewrite <- !app_assoc. }
  destruct rest as [|resp' rest].
  - assert (Hstop : negb (default false (has_more resp)) = true).
    { simpl in Hrest. destruct (has_more resp) as [[|]|]; done. }
    rewrite Hstop. rewrite bind_emit. unfold ret.
    eexists. split.
    { do 2 f_equal. simpl. rewrite app_nil_r. set_solver. }
    simpl trace. exact (Hpre [_]).
  - destruct Hrest as [Hmore Hrest]. rewrite Hmore.
    change (negb (default false (Some true))) with false. cbv iota.
    match goal with
    | |- context [fetch_loop _ _ _ ?i ?c ?b ?s1] =>
        destruct (IH fuel i c b s1) as (s' & Hloop & Hqs)
    end; [exact Hrest | exact Hwt2 | simpl in Hfuel |- *; lia |].
    exists s'. split.
    { rewrite Hloop. do 2 f_equal.
      rewrite omap_app, list_to_set_app_L. set_solver. }
    rewrite Hqs. simpl trace.
    rewrite <- (app_nil_r (_ ++ logs)), Hpre. simpl.
    by rewrite <- app_assoc.
Qed.

(** X5. The loader returns against every store that answers properly.
    If the store, queried first without a cursor and then with the
    cursor of its last response, answers with a sequence of responses
    of which only the last one does not say that there is more, if no
    page is ill typed and the loop is given an iteration per response,
    then the loader returns the Canvas ids of all the pages of all the
    responses, after exactly one query per response. *)
Theorem loader_returns (n0 : notion_state notion) (fuel : nat)
    (resps : list QueryResponse) :
  answers notion db n0 None resps ->
  Forall well_typed (resps ≫= (fun resp => default [] (results resp))) ->
  (length resps <= fuel)%nat ->
  exists s',
    fetch_existing_canvas_ids notion db fuel (initial_state notion n0) =
    (s', Done (list_to_set
                 (omap canvas_id_of
                    (resps ≫= (fun resp => default [] (results resp)))))) /\
    query_results (trace s') =
    zip (None :: (next_cursor <$> resps)) (Ok <$> resps).
Proof.
  intros Hans Hwt Hfuel.
  destruct (fetch_loop_answers resps fuel ∅ None 0
              (add_events (initial_state notion n0)
                 [EvLog INFO "Fetching existing Canvas IDs from Notion" []]))
    as (s' & Hloop & Hqs); [done.. |].
  unfold fetch_existing_canvas_ids, log. rewrite bind_emit.
  unfold bind at 1. rewrite Hloop. rewrite bind_emit. unfold ret.
  eexists. split.
  { do 2 f_equal. set_solver. }
  simpl. rewrite query_results_app, Hqs. simpl. by rewrite app_nil_r.
Qed.

(** ** The load comes first, the set follows the creates *)

(** X6. Notion is queried only while the baseline is loaded.  The trace
    of a run is the trace of the loader followed by that of the pass
    over the courses: the first part holds no Canvas call and no create
    call, the second no query, and the second part is empty unless the
    loader returned.  So the baseline is never refreshed once the pass
    has begun. *)
Theorem notion_is_queried_first (n0 : notion_state notion) (fuel : nat)
    (T : Z) (courses : PaginatedList Course) s' o :
  run lib notion db name_map n0 fuel T courses = (s', o) ->
  exists loading syncing,
    trace s' = loading ++ syncing /\
    loading = trace (fetch_existing_canvas_ids notion db fuel
                       (initial_state notion n0)).1 /\
    create_calls loading = [] /\ canvas_calls loading = [] /\
    query_calls syncing = [] /\
    (syncing <> [] ->
     exists ids, (fetch_existing_canvas_ids notion db fuel
                    (initial_state notion n0)).2 = Done ids).
Proof.
  unfold run. intros Hrun.
  apply main_inv in Hrun as [[Hf ->]|[(e' & Hf & ->)|(sf & ids & Hf & Hp)]].
  - exists (trace s'), []. rewrite app_nil_r, Hf. simpl.
    apply fetch_existing_no_creates in Hf as (_ & ? & ?). by split_and!.
  - exists (trace s'), []. rewrite app_nil_r, Hf. simpl.
    apply fetch_existing_no_creates in Hf as (_ & ? & ?). by split_and!.
  - apply sync_pass_steps, sync_steps_trace in Hp as (_ & evs & Htr & Hevs).
    simpl in Htr. exists (trace sf), evs. rewrite Hf. simpl.
    destruct (sync_events_projections evs Hevs) as [Hq _].
    apply fetch_existing_no_creates in Hf as (_ & ? & ?).
    split_and!; [done.. |]. intros _. by exists ids.
Qed.

(** X7. At every point where a run can end, the id set is exactly the
    loaded baseline together with the Canvas ids of the pages created
    in this run: ids enter the set in no other way, and none is ever
    removed. *)
Theorem id_set_is_baseline_plus_created (n0 : notion_state notion)
    (fuel : nat) (T : Z) (courses : PaginatedList Course) sf
    (baseline : gset string) s' o :
  fetch_existing_canvas_ids notion db fuel (initial_state notion n0)
  = (sf, Done baseline) ->
  run lib notion db name_map n0 fuel T courses = (s', o) ->
  existing_canvas_ids s' =
  baseline ∪ list_to_set (prop_Canvas_ID <$> created (trace s')).
Proof.
  intros Hf Hrun.
  destruct (run_dedup_inv _ _ _ _ _ _ Hrun) as (b & Hinv & Hb).
  rewrite (Hb _ _ Hf) in Hinv. clear b Hb.
  destruct Hinv as (Hbase & Hcreated & _ & _ & Honly).
  apply set_eq. intros x.
  rewrite elem_of_union, elem_of_list_to_set, list_elem_of_fmap. split.
  - intros Hx. destruct (Honly x Hx) as [|(r & Hr & <-)]; [by left |].
    right. by exists r.
  - intros [Hx|(r & -> & Hr)]; [by apply Hbase | by apply Hcreated].
Qed.

(** ** Where the create calls come from *)

Lemma create_calls_app (tr1 tr2 : list event) :
  create_calls (tr1 ++ tr2) = create_calls tr1 ++ create_calls tr2.
Proof. apply omap_app. Qed.

Lemma create_calls_logs (logs : list event) :
  Forall is_log logs -> create_calls logs = [].
Proof. intros H. by apply log_events_projections. Qed.

Lemma process_assignment_calls now week_out class_select a s s' o :
  process_assignment lib notion db now week_out class_select a s = (s', o) ->
  exists evs picked,
    trace s' = trace s ++ evs /\
    picked `sublist_of` [a] /\
    Forall2 (request_of now week_out class_select) picked (create_calls evs).
Proof.
  destruct (process_assignment_assess now week_out class_select a s)
    as (logs1 & logs2 & Hl1 & Hl2 & _ & -> & _).
  destruct (assess _ _ _ _ _) as [|e|due_at end_at] eqn:Hv.
  - intros [= <- <-]. exists logs1, []. rewrite create_calls_logs by done.
    split_and!; [done | apply sublist_nil_l | constructor].
  - intros [= <- <-]. exists logs1, []. rewrite create_calls_logs by done.
    split_and!; [done | apply sublist_nil_l | constructor].
  - cbv zeta. destruct (pages_create _ _ _) as [n' res].
    intros [= <- <-]. apply assess_attempt in Hv as (Hd & _ & Hend).
    eexists (logs1 ++ [_] ++ logs2), [a].
    rewrite !create_calls_app, (create_calls_logs logs1),
      (create_calls_logs logs2) by done. simpl.
    split_and!; [done | done |]. constructor; [| constructor].
    by exists due_at, end_at.
Qed.

Lemma process_assignments_calls now week_out class_select
    (l : PaginatedList Assignment) (n : Z) s s' o :
  process_assignments lib notion db now week_out class_select l n s = (s', o) ->
  exists evs picked,
    trace s' = trace s ++ evs /\
    picked `sublist_of` pl_items l /\
    Forall2 (request_of now week_out class_select) picked (create_calls evs).
Proof.
  revert n s. induction l as [|a rest IH|e]; intros n s; simpl.
  - intros [= <- <-]. exists [], []. rewrite app_nil_r.
    split_and!; [done | done | constructor].
  - intros H.
    assert (Hstop : forall e1 o1,
      process_assignment lib notion db now week_out class_select a s
      = (s', o1) -> o = e1 ->
      exists evs picked,
        trace s' = trace s ++ evs /\
        picked `sublist_of` a :: pl_items rest /\
        Forall2 (request_of now week_out class_select) picked
          (create_calls evs)).
    { intros e1 o1 Hm _.
      apply process_assignment_calls in Hm as (evs & picked & Htr & Hsub & Hall).
      exists evs, picked. split_and!; [done | | done].
      change (a :: pl_items rest) with ([a] ++ pl_items rest).
      by apply sublist_inserts_r. }
    bind_inv H; [| by eapply Hstop..].
    apply process_assignment_calls in Hm
      as (evs1 & picked1 & Htr1 & Hsub1 & Hall1).
    apply IH in Hk as (evs2 & picked2 & Htr2 & Hsub2 & Hall2).
    exists (evs1 ++ evs2), (picked1 ++ picked2).
    rewrite Htr2, Htr1, app_assoc, create_calls_app.
    split_and!; [done | | by apply Forall2_app].
    change (a :: pl_items rest) with ([a] ++ pl_items rest).
    by apply sublist_app.
  - intros [= <- <-]. exists [], []. rewrite app_nil_r.
    split_and!; [done | done | constructor].
Qed.

Lemma process_course_calls now week_out (course : Course) s s' o :
  process_course lib notion db name_map now week_out course s = (s', o) ->
  exists evs picked,
    trace s' = trace s ++ evs /\
    picked `sublist_of` candidates name_map (PLCons course PLNil) /\
    Forall2 (fun (p : string * Assignment) req =>
               request_of now week_out p.1 p.2 req)
      picked (create_calls evs).
Proof.
  intros H. unfold candidates. simpl. rewrite app_nil_r.
  destruct (name_map !! course_name course) as [class_select|] eqn:Hmap.
  - rewrite (process_course_mapped _ _ _ _ _ Hmap) in H.
    assert (Hloop : forall s1 o1,
      process_assignments lib notion db now week_out class_select
        (course_assignments course) 0
        (add_events s
           [EvLog DEBUG "Evaluating course: %s (ID %s)"
              [course_name course; str_of_int (course_id course)];
            EvLog INFO "Processing course: %s -> %s"
              [course_name course; class_select];
            EvGetAssignments (course_id course) (course_name course)])
      = (s1, o1) ->
      exists evs picked,
        trace s1 = trace s ++ evs /\
        picked `sublist_of`
          ((fun a => (class_select, a)) <$> pl_items (course_assignments course)) /\
        Forall2 (fun (p : string * Assignment) req =>
                   request_of now week_out p.1 p.2 req)
          picked (create_calls evs)).
    { intros s1 o1 Hm.
      apply process_assignments_calls in Hm as (evs & picked & Htr & Hsub & Hall).
      simpl in Htr. rewrite <- app_assoc in Htr.
      eexists _, ((fun a => (class_select, a)) <$> picked).
      split; [exact Htr |]. split; [by apply fmap_sublist |].
      rewrite create_calls_app. simpl. by apply Forall2_fmap_l. }
    bind_inv H; [| by eapply Hloop..].
    apply Hloop in Hm as (evs & picked & Htr & Hsub & Hall).
    unfold log in Hk. rewrite emit_eq in Hk. injection Hk as <- <-.
    simpl. rewrite Htr, <- app_assoc.
    eexists _, picked. split; [reflexivity |]. split; [done |].
    rewrite create_calls_app. simpl. by rewrite app_nil_r.
  - rewrite (process_course_unmapped _ _ _ _ Hmap) in H.
    injection H as <- <-. eexists _, []. split; [reflexivity |].
    split; [done |]. constructor.
Qed.

Lemma candidates_cons (course : Course) (rest : PaginatedList Course) :
  candidates name_map (PLCons course rest) =
  candidates name_map (PLCons course PLNil) ++ candidates name_map rest.
Proof. unfold candidates. simpl. by rewrite app_nil_r. Qed.

Lemma process_courses_calls now week_out (courses : PaginatedList Course)
    s s' o :
  process_courses lib notion db name_map now week_out courses s = (s', o) ->
  exists evs picked,
    trace s' = trace s ++ evs /\
    picked `sublist_of` candidates name_map courses /\
    Forall2 (fun (p : string * Assignment) req =>
               request_of now week_out p.1 p.2 req)
      picked (create_calls evs).
Proof.
  revert s. induction courses as [|c rest IH|e]; intros s; simpl.
  - intros [= <- <-]. exists [], []. rewrite app_nil_r.
    split_and!; [done | done | constructor].
  - intros H. rewrite candidates_cons.
    assert (Hstop : forall o1,
      process_course lib notion db name_map now week_out c s = (s', o1) ->
      exists evs picked,
        trace s' = trace s ++ evs /\
        picked `sublist_of`
          candidates name_map (PLCons c PLNil) ++ candidates name_map rest /\
        Forall2 (fun (p : string * Assignment) req =>
                   request_of now week_out p.1 p.2 req)
          picked (create_calls evs)).
    { intros o1 Hm.
      apply process_course_calls in Hm as (evs & picked & Htr & Hsub & Hall).
      exists evs, picked. split_and!; [done | | done].
      by apply sublist_inserts_r. }
    bind_inv H; [| by eapply Hstop..].
    apply process_course_calls in Hm as (evs1 & picked1 & Htr1 & Hsub1 & Hall1).
    apply IH in Hk as (evs2 & picked2 & Htr2 & Hsub2 & Hall2).
    exists (evs1 ++ evs2), (picked1 ++ picked2).
    rewrite Htr2, Htr1, app_assoc, create_calls_app.
    split_and!; [done | by apply sublist_app | by apply Forall2_app].
  - intros [= <- <-]. exists [], []. rewrite app_nil_r.
    split_and!; [done | done | constructor].
Qed.


(** ** Nothing is dropped silently *)

Lemma failed_creates_app (tr1 tr2 : list event) :
  failed_creates (tr1 ++ tr2) = failed_creates tr1 ++ failed_creates tr2.
Proof. apply omap_app. Qed.

Lemma process_assignment_accounted now week_out class_select a s s' :
  process_assignment lib notion db now week_out class_select a s
  = (s', Done tt) ->
  exists evs,
    trace s' = trace s ++ evs /\
    existing_canvas_ids s ⊆ existing_canvas_ids s' /\
    forall d, due_in_window lib now week_out a d ->
      str_of_int (assignment_id a) ∈ existing_canvas_ids s' \/
      exists req e,
        (req, e) ∈ failed_creates evs /\
        prop_Canvas_ID req = str_of_int (assignment_id a).
Proof.
  destruct (process_assignment_assess now week_out class_select a s)
    as (logs1 & logs2 & Hl1 & Hl2 & _ & -> & _).
  destruct (assess _ _ _ _ _) as [|e|due_at end_at] eqn:Hv.
  - intros [= <-]. exists logs1. simpl. split_and!; [done.. |].
    intros d Hd. left. rewrite (assess_due_in_window _ _ _ _ _ Hd) in Hv.
    destruct (decide _); [done |]. by destruct (dt_add _ _).
  - done.
  - cbv zeta. destruct (pages_create _ _ _) as [n' res].
    intros [= <-]. simpl. eexists (logs1 ++ [_] ++ logs2).
    split; [done |]. destruct res as [[]|e].
    + split; [apply union_subseteq_r |]. intros d _. left.
      apply elem_of_union. left. by apply elem_of_singleton.
    + split; [done |]. intros d _. right. eexists _, e. split.
      * rewrite !failed_creates_app. apply elem_of_app. right.
        apply elem_of_app. left. simpl. by left.
      * done.
Qed.

Lemma process_assignments_accounted now week_out class_select
    (l : PaginatedList Assignment) (n m : Z) s s' :
  process_assignments lib notion db now week_out class_select l n s
  = (s', Done m) ->
  exists evs,
    trace s' = trace s ++ evs /\
    existing_canvas_ids s ⊆ existing_canvas_ids s' /\
    forall a d, a ∈ pl_items l -> due_in_window lib now week_out a d ->
      str_of_int (assignment_id a) ∈ existing_canvas_ids s' \/
      exists req e,
        (req, e) ∈ failed_creates evs /\
        prop_Canvas_ID req = str_of_int (assignment_id a).
Proof.
  revert n s. induction l as [|a rest IH|e]; intros n s; simpl.
  - intros [= <- _]. exists []. rewrite app_nil_r. split_and!; [done.. |].
    intros a d Ha. by apply elem_of_nil in Ha.
  - intros H. bind_done H. destruct x.
    apply process_assignment_accounted in Hm as (evs1 & Htr1 & Hsub1 & Hacc1).
    apply IH in Hk as (evs2 & Htr2 & Hsub2 & Hacc2).
    exists (evs1 ++ evs2). rewrite Htr2, Htr1, app_assoc.
    split_and!; [done | by etrans |].
    intros a' d Ha' Hd. rewrite failed_creates_app.
    apply elem_of_cons in Ha' as [->|Ha'].
    + destruct (Hacc1 d Hd) as [Hin|(req & e & Hf & Hid)].
      * left. by apply Hsub2.
      * right. exists req, e. split; [| done]. apply elem_of_app. by left.
    + destruct (Hacc2 a' d Ha' Hd) as [Hin|(req & e & Hf & Hid)].
      * by left.
      * right. exists req, e. split; [| done]. apply elem_of_app. by right.
  - done.
Qed.

Lemma process_courses_accounted now week_out (courses : PaginatedList Course)
    s s' :
  process_courses lib notion db name_map now week_out courses s
  = (s', Done tt) ->
  exists evs,
    trace s' = trace s ++ evs /\
    existing_canvas_ids s ⊆ existing_canvas_ids s' /\
    forall course class_select a d,
      course ∈ pl_items courses ->
      name_map !! course_name course = Some class_select ->
      a ∈ pl_items (course_assignments course) ->
      due_in_window lib now week_out a d ->
      str_of_int (assignment_id a) ∈ existing_canvas_ids s' \/
      exists req e,
        (req, e) ∈ failed_creates evs /\
        prop_Canvas_ID req = str_of_int (assignment_id a).
Proof.
  revert s. induction courses as [|c rest IH|e]; intros s; simpl.
  - intros [= <-]. exists []. rewrite app_nil_r. split_and!; [done.. |].
    intros c cls a d Hc. by apply elem_of_nil in Hc.
  - intros H. bind_done H. destruct x.
    apply IH in Hk as (evs2 & Htr2 & Hsub2 & Hacc2).
    destruct (name_map !! course_name c) as [class_select|] eqn:Hmap.
    + rewrite (process_course_mapped _ _ _ _ _ Hmap) in Hm.
      bind_done Hm.
      apply process_assignments_accounted in Hm0
        as (evs1 & Htr1 & Hsub1 & Hacc1).
      unfold log in Hk. rewrite emit_eq in Hk. injection Hk as <-.
      simpl in Htr1, Htr2, Hsub1, Hsub2.
      rewrite Htr2, Htr1, <- !app_assoc.
      eexists. split; [reflexivity |]. split; [by etrans |].
      intros c' cls a d Hc' Hmap' Ha Hd.
      apply elem_of_cons in Hc' as [->|Hc'].
      * rewrite Hmap in Hmap'. injection Hmap' as <-.
        destruct (Hacc1 a d Ha Hd) as [Hin|(req & e & Hf & Hid)].
        -- left. by apply Hsub2.
        -- right. exists req, e. split; [| done].
           rewrite !failed_creates_app, !elem_of_app. tauto.
      * destruct (Hacc2 c' cls a d Hc' Hmap' Ha Hd)
          as [|(req & e & Hf & Hid)]; [by left |].
        right. exists req, e. split; [| done].
        rewrite !failed_creates_app, !elem_of_app. tauto.
    + rewrite (process_course_unmapped _ _ _ _ Hmap) in Hm.
      injection Hm as <-. simpl in Htr2, Hsub2.
      rewrite Htr2, <- !app_assoc.
      eexists. split; [reflexivity |]. split; [done |].
      intros c' cls a d Hc' Hmap' Ha Hd.
      apply elem_of_cons in Hc' as [->|Hc']; [by rewrite Hmap in Hmap' |].
      destruct (Hacc2 c' cls a d Hc' Hmap' Ha Hd)
        as [|(req & e & Hf & Hid)]; [by left |].
      right. exists req, e. split; [| done].
      rewrite !failed_creates_app, !elem_of_app. tauto.
  - done.
Qed.

(** X9. A run that ends normally has dealt with every assignment of a
    mapped course that passes the due-date and window filters: its id
    was in the loaded baseline, or a page was created for it in this
    run, or a create call for it failed (and was logged).  Nothing is
    dropped silently. *)
Theorem every_due_assignment_is_accounted_for (n0 : notion_state notion)
    (fuel : nat) (T : Z) (courses : PaginatedList Course) sf
    (baseline : gset string) s' (week_out : datetime) (course : Course)
    (class_select : string) a (d : datetime) :
  fetch_existing_canvas_ids notion db fuel (initial_state notion n0)
  = (sf, Done baseline) ->
  run lib notion db name_map n0 fuel T courses = (s', Done tt) ->
  dt_add (utc_now T) (timedelta_days 7) = Ok week_out ->
  course ∈ pl_items courses ->
  name_map !! course_name course = Some class_select ->
  a ∈ pl_items (course_assignments course) ->
  due_in_window lib (utc_now T) week_out a d ->
  str_of_int (assignment_id a) ∈ baseline \/
  (exists req, req ∈ created (trace s') /\
     prop_Canvas_ID req = str_of_int (assignment_id a)) \/
  (exists req e, (req, e) ∈ failed_creates (trace s') /\
     prop_Canvas_ID req = str_of_int (assignment_id a)).
Proof.
  intros Hf Hrun Hw Hcourse Hmap Ha Hd.
  destruct (run_dedup_inv _ _ _ _ _ _ Hrun) as (b & Hinv & Hb).
  rewrite (Hb _ _ Hf) in Hinv. clear b Hb.
  destruct Hinv as (_ & _ & _ & _ & Honly).
  rewrite (run_after_fetch _ _ _ _ _ _ Hf) in Hrun.
  rewrite (sync_pass_window _ _ _ _ Hw) in Hrun.
  bind_done Hrun. destruct x.
  apply process_courses_accounted in Hm as (evs & Htr & _ & Hacc).
  unfold log in Hk. rewrite emit_eq in Hk. injection Hk as <-.
  simpl in *.
  destruct (Hacc _ _ _ _ Hcourse Hmap Ha Hd) as [Hin|(req & e & Hfail & Hid)].
  - destruct (Honly _ Hin) as [|(req & Hreq & Hid)]; [by left |].
    right; left. by exists req.
  - right; right. exists req, e. split; [| done].
    rewrite Htr, !failed_creates_app. apply elem_of_app. left.
    apply elem_of_app. by right.
Qed.

(** ** The counter of a course *)

Lemma process_assignments_count now week_out class_select
    (l : PaginatedList Assignment) (n m : Z) s s' :
  process_assignments lib notion db now week_out class_select l n s
  = (s', Done m) ->
  ends_normally l /\ m = n + Z.of_nat (length (pl_items l)).
Proof.
  revert n s. induction l as [|a rest IH|e]; intros n s; simpl.
  - intros [= _ <-]. split; [done | lia].
  - intros H. bind_done H. apply IH in Hk as [Hend ->]. split; [done | lia].
  - done.
Qed.

(** X10. The record that closes a mapped course counts every assignment
    Canvas yielded for it, whether it was skipped, found to be a
    duplicate, created or failed: when a course has been processed to
    its end, its enumeration ended without raising and the last record
    is ["Finished course"] with the number of assignments yielded. *)
Theorem finished_course_counts_all now week_out (course : Course)
    (class_select : string) s s' :
  name_map !! course_name course = Some class_select ->
  process_course lib notion db name_map now week_out course s
  = (s', Done tt) ->
  ends_normally (course_assignments course) /\
  last (trace s') =
  Some (EvLog DEBUG "Finished course %s, checked %d assignments"
          [course_name course;
           pretty (Z.of_nat (length (pl_items (course_assignments course))))]).
Proof.
  intros Hmap H. rewrite (process_course_mapped _ _ _ _ _ Hmap) in H.
  bind_done H. apply process_assignments_count in Hm as [Hend ->].
  unfold log in Hk. rewrite emit_eq in Hk. injection Hk as <-.
  split; [done |]. simpl. by rewrite last_snoc.
Qed.

(** ** A Canvas enumeration that raises *)

Lemma pl_items_paginated {A : Type} (l : list A) :
  pl_items (paginated l) = l.
Proof. induction l as [|x l IH]; [done | simpl; by rewrite IH]. Qed.

Lemma paginated_app {A : Type} (l1 l2 : list A) :
  paginated (l1 ++ l2) = pl_app l1 (paginated l2).
Proof. induction l1 as [|x l1 IH]; [done | simpl; by rewrite IH]. Qed.

(** X11. An exception raised by the enumeration of the courses ends the
    run with that exception.  The run has by then done everything it
    does when the enumeration ends normally at that point (same calls,
    same records, same store, same id set) except for writing the
    closing record. *)
Theorem course_listing_failure_aborts (n0 : notion_state notion)
    (fuel : nat) (T : Z) (before : list Course) (e : exn) s1 :
  run lib notion db name_map n0 fuel T (paginated before) = (s1, Done tt) ->
  exists s2,
    run lib notion db name_map n0 fuel T (pl_app before (PLRaise e))
    = (s2, Raised e) /\
    trace s1 = trace s2 ++ [EvLog INFO "Sync run complete" []] /\
    notion_st s2 = notion_st s1 /\
    existing_canvas_ids s2 = existing_canvas_ids s1.
Proof.
  unfold run at 1. intros Hrun.
  apply main_inv in Hrun as [[_ [=]]|[(? & _ & [=])|(sf & ids & Hf & Hp)]].
  destruct (dt_add (utc_now T) (timedelta_days 7)) as [week_out|e'] eqn:Hw.
  2: { unfold sync_pass in Hp. by rewrite Hw in Hp. }
  rewrite (run_after_fetch _ _ _ _ _ _ Hf), (sync_pass_window _ _ _ _ Hw).
  rewrite (sync_pass_window _ _ _ _ Hw) in Hp.
  bind_done Hp. destruct x.
  unfold log in Hk. rewrite emit_eq in Hk. injection Hk as <-.
  exists s0. split; [| done].
  unfold bind at 1. rewrite process_courses_app.
  unfold bind at 1. by rewrite Hm.
Qed.

(** X12. An exception raised by the enumeration of the assignments of a
    mapped course ends the run with that exception: the courses that
    follow are not looked at.  The run has by then done everything it
    does when that enumeration ends normally at that point and no course
    follows, except for writing the two closing records. *)
Theorem assignment_listing_failure_aborts (n0 : notion_state notion)
    (fuel : nat) (T : Z) (before : list Course) (course : Course)
    (class_select : string) (l : list Assignment) (e : exn)
    (later : PaginatedList Course) s1 :
  name_map !! course_name course = Some class_select ->
  course_assignments course = pl_app l (PLRaise e) ->
  run lib notion db name_map n0 fuel T
    (paginated (before ++ [{| course_id := course_id course;
                              course_name := course_name course;
                              course_assignments := paginated l |}]))
  = (s1, Done tt) ->
  exists s2,
    run lib notion db name_map n0 fuel T (pl_app before (PLCons course later))
    = (s2, Raised e) /\
    trace s1 =
      trace s2 ++
      [EvLog DEBUG "Finished course %s, checked %d assignments"
         [course_name course; pretty (Z.of_nat (length l))];
       EvLog INFO "Sync run complete" []] /\
    notion_st s2 = notion_st s1 /\
    existing_canvas_ids s2 = existing_canvas_ids s1.
Proof.
  intros Hmap Hassignments. unfold run at 1. intros Hrun.
  apply main_inv in Hrun as [[_ [=]]|[(? & _ & [=])|(sf & ids & Hf & Hp)]].
  destruct (dt_add (utc_now T) (timedelta_days 7)) as [week_out|e'] eqn:Hw.
  2: { unfold sync_pass in Hp. by rewrite Hw in Hp. }
  rewrite (run_after_fetch _ _ _ _ _ _ Hf), (sync_pass_window _ _ _ _ Hw).
  rewrite (sync_pass_window _ _ _ _ Hw) in Hp.
  bind_done Hp. destruct x.
  unfold log in Hk. rewrite emit_eq in Hk. injection Hk as <-.
  rewrite paginated_app, process_courses_app in Hm.
  bind_done Hm. destruct x. simpl in Hk.
  bind_done Hk. destruct x. injection Hk0 as <-.
  rewrite (process_course_mapped _ _ _ class_select) in Hm by done.
  simpl in Hm. bind_done Hm.
  pose proof (process_assignments_count _ _ _ _ _ _ _ _ Hm1) as [_ ->].
  unfold log in Hk. rewrite emit_eq in Hk. injection Hk as <-.
  match goal with
  | H : process_assignments _ _ _ _ _ _ _ _ _ = (?st, Done _) |- _ =>
      exists st
  end.
  split.
  - unfold bind at 1. rewrite process_courses_app.
    unfold bind at 1. rewrite Hm0. simpl.
    unfold bind at 1. rewrite (process_course_mapped _ _ _ _ _ Hmap).
    rewrite Hassignments.
    unfold bind at 1. rewrite process_assignments_app.
    unfold bind at 1. by rewrite Hm1.
  - simpl. rewrite Z.add_0_l, pl_items_paginated, <- app_assoc.
    by split_and!.
Qed.

(** ** Create failures never end a run *)

Lemma well_dated_assess (T : Z) (week_out : datetime) ids a :
  dt_add (utc_now T) (timedelta_days 7) = Ok week_out ->
  well_dated lib a ->
  forall e, assess lib (utc_now T) week_out ids a <> Abort e.
Proof.
  intros Hw Hwd e. unfold assess.
  destruct (assignment_due_at a) as [[|c due_str]|] eqn:Hdue; [done | | done].
  destruct (Hwd _ Hdue) as (d & o & end_at & -> & Ho & ->); [done |].
  rewrite (window_check_aware T week_out d (wall d - o) Hw).
  2: { unfold instant. by rewrite Ho. }
  destruct (bool_decide _); [| done]. by destruct (decide _).
Qed.

Lemma process_assignments_well_dated (T : Z) (week_out : datetime)
    class_select (l : PaginatedList Assignment) (n : Z) s :
  dt_add (utc_now T) (timedelta_days 7) = Ok week_out ->
  ends_normally l ->
  Forall (well_dated lib) (pl_items l) ->
  exists s' m,
    process_assignments lib notion db (utc_now T) week_out class_select l n s
    = (s', Done m).
Proof.
  intros Hw. revert n s.
  induction l as [|a rest IH|e]; intros n s Hend Hall; simpl in *.
  - by exists s, n.
  - apply Forall_cons in Hall as [Ha Hall].
    destruct (process_assignment_assess (utc_now T) week_out class_select a s)
      as (logs1 & logs2 & _ & _ & _ & Hrun & _).
    pose proof (well_dated_assess T week_out (existing_canvas_ids s) a Hw Ha)
      as Hok.
    unfold bind at 1. rewrite Hrun.
    destruct (assess _ _ _ _ _) as [|e|due_at end_at].
    + by apply IH.
    + by destruct (Hok e).
    + cbv zeta. destruct (pages_create _ _ _) as [n' res]. by apply IH.
  - done.
Qed.

Lemma process_courses_well_dated (T : Z) (week_out : datetime)
    (courses : PaginatedList Course) s :
  dt_add (utc_now T) (timedelta_days 7) = Ok week_out ->
  ends_normally courses ->
  (forall course,
     course ∈ pl_items courses ->
     is_Some (name_map !! course_name course) ->
     ends_normally (course_assignments course) /\
     Forall (well_dated lib) (pl_items (course_assignments course))) ->
  exists s',
    process_courses lib notion db name_map (utc_now T) week_out courses s
    = (s', Done tt).
Proof.
  intros Hw. revert s.
  induction courses as [|c rest IH|e]; intros s Hend Hall; simpl in *.
  - by exists s.
  - assert (Hc : exists s1,
      process_course lib notion db name_map (utc_now T) week_out c s
      = (s1, Done tt)).
    { destruct (name_map !! course_name c) as [class_select|] eqn:Hmap.
      - rewrite (process_course_mapped _ _ _ _ _ Hmap).
        destruct (Hall c) as [Hendc Hallc]; [by left | by rewrite Hmap |].
        match goal with
        | |- context [bind _ _ _ ?st] =>
            destruct (process_assignments_well_dated T week_out class_select
                        (course_assignments c) 0 st Hw Hendc Hallc)
              as (s1 & m & Hloop)
        end.
        unfold bind. rewrite Hloop. unfold log. rewrite emit_eq. by eexists.
      - rewrite (process_course_unmapped _ _ _ _ Hmap). by eexists. }
    destruct Hc as [s1 Hc]. unfold bind at 1. rewrite Hc.
    apply IH; [done |]. intros course Hcourse. apply Hall. by right.
  - done.
Qed.

(** X13. Whatever [pages.create] does, call after call, the run ends
    normally and writes its closing record, provided that the baseline
    was loaded, that neither the enumeration of the courses nor that of
    the assignments of a mapped course raises, and that every due date
    of such an assignment parses to an aware value with a representable
    end of range.  A failing create call is never the reason a run
    ends. *)
Theorem run_survives_create_failures (n0 : notion_state notion)
    (fuel : nat) (T : Z) (courses : PaginatedList Course) sf
    (baseline : gset string) (week_out : datetime) :
  fetch_existing_canvas_ids notion db fuel (initial_state notion n0)
  = (sf, Done baseline) ->
  dt_add (utc_now T) (timedelta_days 7) = Ok week_out ->
  ends_normally courses ->
  (forall course,
     course ∈ pl_items courses ->
     is_Some (name_map !! course_name course) ->
     ends_normally (course_assignments course) /\
     Forall (well_dated lib) (pl_items (course_assignments course))) ->
  exists s',
    run lib notion db name_map n0 fuel T courses = (s', Done tt) /\
    last (trace s') = Some (EvLog INFO "Sync run complete" []).
Proof.
  intros Hf Hw Hend Hall.
  rewrite (run_after_fetch _ _ _ _ _ _ Hf), (sync_pass_window _ _ _ _ Hw).
  match goal with
  | |- context [bind _ _ _ ?st] =>
      destruct (process_courses_well_dated T week_out courses st Hw Hend Hall)
        as (s1 & Hloop)
  end.
  unfold bind. rewrite Hloop. unfold log. rewrite emit_eq.
  eexists. split; [done |]. simpl. by rewrite last_snoc.
Qed.

(** ** The end of the date range *)

(** X14. For a clock that reads at least one day after [datetime.min]
    and at least 8 days and 30 minutes before [datetime.max], and a due
    date whose UTC offset is less than a day, as [tzinfo] requires: a
    due date that passes the window test is aware and its end of range,
    30 minutes later, is representable, so that computing it cannot
    raise; the end keeps the offset of the due date.  Every assignment
    that passes the due-date and window filters then goes on to the
    duplicate check and, if new, to its create call. *)
Theorem end_time_is_representable (T : Z) (week_out d : datetime) :
  usec_per_day <= T ->
  T + timedelta_days 8 + timedelta_minutes 30 <= max_wall ->
  (forall o, utcoffset d = Some o -> - usec_per_day < o < usec_per_day) ->
  dt_add (utc_now T) (timedelta_days 7) = Ok week_out ->
  window_check (utc_now T) d week_out = Ok true ->
  (exists o end_at,
     utcoffset d = Some o /\
     dt_add d (timedelta_minutes 30) = Ok end_at /\
     utcoffset end_at = Some o /\
     instant end_at = Some (wall d - o + timedelta_minutes 30)) /\
  (forall a, due_in_window lib (utc_now T) week_out a d ->
     eligible (utc_now T) week_out a).
Proof.
  intros Hlo Hhi Hoff Hw Hwin.
  assert (Hend : exists o end_at,
     utcoffset d = Some o /\
     dt_add d (timedelta_minutes 30) = Ok end_at /\
     utcoffset end_at = Some o /\
     instant end_at = Some (wall d - o + timedelta_minutes 30)).
  { destruct (utcoffset d) as [o|] eqn:Ho.
    2: { by rewrite window_check_naive in Hwin. }
    rewrite (window_check_aware T week_out d (wall d - o) Hw) in Hwin.
    2: { unfold instant. by rewrite Ho. }
    injection Hwin as Hwin. apply bool_decide_eq_true in Hwin.
    specialize (Hoff o eq_refl).
    unfold timedelta_days, timedelta_minutes, usec_per_minute in *.
    exists o, (mk_datetime (wall d + 30 * (60 * usec_per_second)) (Some o)).
    split; [done |]. unfold dt_add. rewrite Ho.
    destruct (Z.leb_spec 0 (wall d + 30 * (60 * usec_per_second)));
      [| unfold usec_per_day, usec_per_second in *; lia].
    destruct (Z.leb_spec (wall d + 30 * (60 * usec_per_second)) max_wall);
      [| unfold usec_per_day, usec_per_second in *; lia].
    simpl. split; [done |]. split; [done |].
    unfold instant. simpl. f_equal. lia. }
  split; [exact Hend |].
  intros a Ha. destruct Hend as (o & end_at & _ & Hadd & _).
  by exists d, end_at.
Qed.

(** ** What the parser is handed *)

Lemma has_char_app (c : ascii) (p q : string) :
  has_char c (p +:+ q) = has_char c p || has_char c q.
Proof.
  induction p as [|x p IH]; [done |].
  change (String x p +:+ q) with (String x (p +:+ q)).
  cbn [has_char]. by destruct (decide (c = x)).
Qed.

(** X15. The string handed to [fromisoformat] never contains a ["Z"]:
    [replace] rewrites every ["Z"] of the due date, wherever it stands,
    and leaves every other character in place.  Normalising twice is
    normalising once. *)
Theorem normalised_due_date_has_no_Z (due_str : string) :
  has_char "Z" (str_replace "Z" "+00:00" due_str) = false /\
  str_replace "Z" "+00:00" (str_replace "Z" "+00:00" due_str)
  = str_replace "Z" "+00:00" due_str /\
  (forall c p q,
     c <> "Z"%char ->
     str_replace "Z" "+00:00" (p +:+ String c q)
     = str_replace "Z" "+00:00" p +:+ String c (str_replace "Z" "+00:00" q)).
Proof.
  assert (Hno : forall str : string,
            has_char "Z" (str_replace "Z" "+00:00" str) = false).
  { intros str. unfold str_replace. induction str as [|x str IH]; [done |].
    cbn [replace_from String.prefix String.length Nat.pred].
    destruct (ascii_dec "Z" x) as [<-|Hne].
    - rewrite prefix_empty, has_char_app, IH. done.
    - cbn [has_char]. by destruct (decide ("Z"%char = x)). }
  split; [apply Hno |]. split.
  - by apply str_replace_char_absent.
  - intros c p q Hc. rewrite str_replace_char_app. f_equal.
    unfold str_replace. cbn [replace_from String.prefix].
    destruct (ascii_dec "Z" c) as [<-|_]; done.
Qed.

(** ** Which courses are asked for their assignments *)

Lemma fetched_courses_app (tr1 tr2 : list event) :
  fetched_courses (tr1 ++ tr2) = fetched_courses tr1 ++ fetched_courses tr2.
Proof. apply omap_app. Qed.

Lemma fetched_courses_logs (logs : list event) :
  Forall is_log logs -> fetched_courses logs = [].
Proof. intros H. by apply log_events_projections. Qed.

Lemma process_assignment_fetched now week_out class_select a s s' o :
  process_assignment lib notion db now week_out class_select a s = (s', o) ->
  fetched_courses (trace s') = fetched_courses (trace s).
Proof.
  destruct (process_assignment_assess now week_out class_select a s)
    as (logs1 & logs2 & Hl1 & Hl2 & _ & -> & _).
  destruct (assess _ _ _ _ _) as [|e|due_at end_at].
  - intros [= <- <-]. simpl.
    rewrite fetched_courses_app, (fetched_courses_logs logs1) by done.
    by rewrite app_nil_r.
  - intros [= <- <-]. simpl.
    rewrite fetched_courses_app, (fetched_courses_logs logs1) by done.
    by rewrite app_nil_r.
  - cbv zeta. destruct (pages_create _ _ _) as [n' res].
    intros [= <- <-]. simpl.
    change (logs1 ++ ?x :: logs2) with (logs1 ++ [x] ++ logs2).
    rewrite !fetched_courses_app, (fetched_courses_logs logs1),
      (fetched_courses_logs logs2) by done.
    simpl. by rewrite app_nil_r.
Qed.

Lemma process_assignments_fetched now week_out class_select
    (l : PaginatedList Assignment) (n : Z) s s' o :
  process_assignments lib notion db now week_out class_select l n s = (s', o) ->
  fetched_courses (trace s') = fetched_courses (trace s).
Proof.
  revert n s. induction l as [|a rest IH|e]; intros n s; simpl.
  - by intros [= <- <-].
  - intros H. bind_inv H; [| by eapply process_assignment_fetched..].
    apply process_assignment_fetched in Hm. apply IH in Hk. congruence.
  - by intros [= <- <-].
Qed.

Lemma process_course_fetched now week_out (course : Course) s s' o :
  process_course lib notion db name_map now week_out course s = (s', o) ->
  fetched_courses (trace s') =
  fetched_courses (trace s) ++
  (if decide (is_Some (name_map !! course_name course))
   then [course_name course] else []).
Proof.
  intros H.
  destruct (name_map !! course_name course) as [class_select|] eqn:Hmap.
  - rewrite decide_True by done.
    rewrite (process_course_mapped _ _ _ _ _ Hmap) in H.
    assert (Hloop : forall s1 o1,
      process_assignments lib notion db now week_out class_select
        (course_assignments course) 0
        (add_events s
           [EvLog DEBUG "Evaluating course: %s (ID %s)"
              [course_name course; str_of_int (course_id course)];
            EvLog INFO "Processing course: %s -> %s"
              [course_name course; class_select];
            EvGetAssignments (course_id course) (course_name course)])
      = (s1, o1) ->
      fetched_courses (trace s1) =
      fetched_courses (trace s) ++ [course_name course]).
    { intros s1 o1 Hm. apply process_assignments_fetched in Hm.
      rewrite Hm. simpl. by rewrite fetched_courses_app. }
    bind_inv H; [| by eapply Hloop..].
    apply Hloop in Hm. unfold log in Hk. rewrite emit_eq in Hk.
    injection Hk as <- <-. simpl.
    by rewrite fetched_courses_app, Hm, app_nil_r.
  - rewrite decide_False by (by intros [? ?]).
    rewrite (process_course_unmapped _ _ _ _ Hmap) in H.
    injection H as <- <-. simpl. by rewrite fetched_courses_app.
Qed.

Lemma process_courses_fetched now week_out (courses : PaginatedList Course)
    s s' o :
  process_courses lib notion db name_map now week_out courses s = (s', o) ->
  exists names,
    fetched_courses (trace s') = fetched_courses (trace s) ++ names /\
    names `prefix_of`
      filter (fun name => is_Some (name_map !! name))
        (course_name <$> pl_items courses) /\
    (o = Done tt ->
     ends_normally courses /\
     names = filter (fun name => is_Some (name_map !! name))
               (course_name <$> pl_items courses)).
Proof.
  revert s. induction courses as [|c rest IH|e]; intros s; simpl.
  - intros [= <- <-]. exists []. by rewrite app_nil_r.
  - intros H. rewrite filter_cons.
    assert (Hstop : forall e1,
      process_course lib notion db name_map now week_out c s
      = (s', e1) -> e1 <> Done tt -> o = e1 ->
      exists names,
        fetched_courses (trace s') = fetched_courses (trace s) ++ names /\
        names `prefix_of`
          (if decide (is_Some (name_map !! course_name c))
           then course_name c ::
                filter (fun name => is_Some (name_map !! name))
                  (course_name <$> pl_items rest)
           else filter (fun name => is_Some (name_map !! name))
                  (course_name <$> pl_items rest)) /\
        (o = Done tt ->
         ends_normally rest /\
         names =
           (if decide (is_Some (name_map !! course_name c))
            then course_name c ::
                 filter (fun name => is_Some (name_map !! name))
                   (course_name <$> pl_items rest)
            else filter (fun name => is_Some (name_map !! name))
                   (course_name <$> pl_items rest)))).
    { intros e1 Hm Hne ->. apply process_course_fetched in Hm.
      eexists. split; [exact Hm |]. split; [| done].
      destruct (decide _); [| apply prefix_nil].
      by apply prefix_cons, prefix_nil. }
    bind_inv H; [| by eapply Hstop..].
    apply process_course_fetched in Hm.
    apply IH in Hk as (names & Htr & Hpre & Hdone).
    eexists. rewrite Htr, Hm, <- app_assoc. split; [reflexivity |].
    destruct (decide _); simpl.
    + split; [by apply prefix_cons |]. intros Ho.
      destruct (Hdone Ho) as [? ->]. done.
    + done.
  - intros [= <- <-]. exists []. rewrite app_nil_r.
    split_and!; [done | apply prefix_nil | done].
Qed.

(** X16. The courses whose assignments Canvas is asked for are the
    mapped ones, each time one is yielded, in the order of the
    enumeration: at any point where the run can end, the names asked
    for so far are a prefix of the mapped names among the courses
    yielded, and when the run ends normally they are all of them. *)
Theorem mapped_courses_are_fetched_in_order (n0 : notion_state notion)
    (fuel : nat) (T : Z) (courses : PaginatedList Course) s' o :
  run lib notion db name_map n0 fuel T courses = (s', o) ->
  fetched_courses (trace s') `prefix_of`
    filter (fun name => is_Some (name_map !! name))
      (course_name <$> pl_items courses) /\
  (o = Done tt ->
   ends_normally courses /\
   fetched_courses (trace s') =
   filter (fun name => is_Some (name_map !! name))
     (course_name <$> pl_items courses)).
Proof.
  unfold run. intros Hrun.
  apply main_inv in Hrun as [[Hf ->]|[(e' & Hf & ->)|(sf & ids & Hf & Hp)]].
  - apply fetch_existing_canvas_ids_steps, load_steps_trace in Hf
      as (_ & evs & Htr & Hevs).
    simpl in Htr. subst evs.
    apply load_events_no_creates in Hevs as (_ & _ & _ & ->).
    split; [apply prefix_nil | done].
  - apply fetch_existing_canvas_ids_steps, load_steps_trace in Hf
      as (_ & evs & Htr & Hevs).
    simpl in Htr. subst evs.
    apply load_events_no_creates in Hevs as (_ & _ & _ & ->).
    split; [apply prefix_nil | done].
  - apply fetch_existing_canvas_ids_steps, load_steps_trace in Hf
      as (_ & evs & Htr & Hevs).
    simpl in Htr. subst evs.
    apply load_events_no_creates in Hevs as (_ & _ & _ & Hnone).
    destruct (dt_add (utc_now T) (timedelta_days 7)) as [week_out|e] eqn:Hw.
    2: { unfold sync_pass in Hp. rewrite Hw in Hp. injection Hp as <- <-.
         simpl. rewrite Hnone. split; [apply prefix_nil | done]. }
    rewrite (sync_pass_window _ _ _ _ Hw) in Hp.
    assert (Hloop : forall s1 o1,
      process_courses lib notion db name_map (utc_now T) week_out courses
        (add_events (mk_state (notion_st sf) ids (trace sf))
           [EvLog INFO "Scanning assignments due between %s and %s"
              [isoformat lib (utc_now T); isoformat lib week_out];
            EvGetCourses;
            EvLog DEBUG "Canvas returned courses iterator" []])
      = (s1, o1) ->
      fetched_courses (trace s1) `prefix_of`
        filter (fun name => is_Some (name_map !! name))
          (course_name <$> pl_items courses) /\
      (o1 = Done tt ->
       ends_normally courses /\
       fetched_courses (trace s1) =
       filter (fun name => is_Some (name_map !! name))
         (course_name <$> pl_items courses))).
    { intros s1 o1 Hm.
      apply process_courses_fetched in Hm as (names & Htr & Hpre & Hdone).
      simpl in Htr. rewrite fetched_courses_app, Hnone in Htr. simpl in Htr.
      by rewrite Htr. }
    bind_inv Hp.
    + apply Hloop in Hm as [Hpre Hdone].
      unfold log in Hk. rewrite emit_eq in Hk. injection Hk as <- <-.
      simpl. rewrite fetched_courses_app, app_nil_r. destruct x.
      split; [done |]. intros _. by apply Hdone.
    + apply Hloop in Hm as [Hpre _]. by split.
    + apply Hloop in Hm as [Hpre _]. by split.
Qed.

(** ** What the console shows of the create calls *)

Local Abbreviation reported evs :=
  (filter about_creates (omap log_record evs) = omap create_report evs).

Local Abbreviation reports s s' :=
  (exists evs : list event, trace s' = trace s ++ evs /\ reported evs).

Lemma reported_app (evs1 evs2 : list event) :
  reported evs1 -> reported evs2 -> reported (evs1 ++ evs2).
Proof. intros H1 H2. by rewrite !omap_app, filter_app, H1, H2. Qed.

Lemma reported_log lvl (template : string) (args : list string) :
  template <> "Added assignment: %s -> %s" ->
  reported [EvLog lvl template args].
Proof.
  intros Hne. simpl. rewrite filter_cons_False; [done |].
  intros [Ht|[? Hx]]; [by apply Hne | done].
Qed.

Lemma reports_refl s : reports s s.
Proof. exists []. by rewrite app_nil_r. Qed.

Lemma reports_trans s1 s2 s3 : reports s1 s2 -> reports s2 s3 -> reports s1 s3.
Proof.
  intros (evs1 & Ht1 & Hr1) (evs2 & Ht2 & Hr2). exists (evs1 ++ evs2).
  rewrite Ht2, Ht1, app_assoc. split; [done | by apply reported_app].
Qed.

Lemma reports_event s (ev : event) :
  reported [ev] -> reports s (add_events s [ev]).
Proof. intros H. by exists [ev]. Qed.

(** Consume a leading [emit] of [H] that is not about a create call. *)
Ltac quiet_emit H :=
  unfold log in H; rewrite bind_emit in H;
  match type of H with
  | _ (add_events ?s0 [?ev]) = _ =>
      apply (reports_trans _ (add_events s0 [ev]));
      [apply reports_event;
       first [ by apply reported_log | reflexivity ] |]
  end.

Ltac quiet_last H :=
  unfold log in H; rewrite emit_eq in H; injection H as <- <-;
  apply reports_event; first [ by apply reported_log | reflexivity ].

Lemma scan_pages_reported (pages : list Page) ids s s' o :
  scan_pages notion pages ids s = (s', o) -> reports s s'.
Proof.
  revert ids s. induction pages as [|page rest IH]; intros ids s; simpl.
  - intros [= <- <-]. apply reports_refl.
  - intros H. unfold scan_page in H.
    destruct (properties page !! "Canvas ID") as [[[|run runs]|k]|].
    + rewrite bind_ret in H. by eapply IH.
    + rewrite bind_assoc in H. quiet_emit H. rewrite bind_ret in H.
      by eapply IH.
    + injection H as <- <-. apply reports_refl.
    + rewrite bind_ret in H. by eapply IH.
Qed.

Lemma notion_query_reported cursor s s' (out : outcome QueryResponse) :
  notion_query notion db cursor 100 s = (s', out) -> reports s s'.
Proof.
  unfold notion_query.
  destruct (data_sources_query _ _ _ _ _) as [n' res].
  intros [= <- _]. by eexists [_].
Qed.

Lemma fetch_loop_reported (fuel : nat) ids cursor (batch : Z) s s' o :
  fetch_loop notion db fuel ids cursor batch s = (s', o) -> reports s s'.
Proof.
  revert ids cursor batch s.
  induction fuel as [|fuel IH]; intros ids cursor batch s; simpl.
  - intros [= <- <-]. apply reports_refl.
  - intros H. quiet_emit H.
    bind_inv H; [| by eapply notion_query_reported..].
    eapply reports_trans; [by eapply notion_query_reported |].
    quiet_emit Hk.
    bind_inv Hk; [| by eapply scan_pages_reported..].
    eapply reports_trans; [by eapply scan_pages_reported |].
    destruct (negb _).
    + quiet_emit Hk0. injection Hk0 as <- <-. apply reports_refl.
    + by eapply IH.
Qed.

Lemma fetch_existing_reported (fuel : nat) s s' o :
  fetch_existing_canvas_ids notion db fuel s = (s', o) -> reports s s'.
Proof.
  unfold fetch_existing_canvas_ids. intros H. quiet_emit H.
  bind_inv H; [| by eapply fetch_loop_reported..].
  eapply reports_trans; [by eapply fetch_loop_reported |].
  quiet_emit Hk. injection Hk as <- <-. apply reports_refl.
Qed.

Lemma process_assignment_reported now week_out class_select a s s' o :
  process_assignment lib notion db now week_out class_select a s = (s', o) ->
  reports s s'.
Proof.
  unfold process_assignment, bind, log, log_exception, emit, raise,
    ret, lift, get_ids, set_ids, try_except, notion_create.
  destruct (assignment_due_at a) as [[|c due_str]|]; simpl.
  1,3: intros [= <- <-]; simpl; rewrite <- ?app_assoc;
       eexists; (split; [reflexivity | vm_compute; reflexivity]).
  destruct (fromisoformat _ _) as [due_at|]; simpl.
  2: intros [= <- <-]; simpl; rewrite <- ?app_assoc;
     eexists; (split; [reflexivity | vm_compute; reflexivity]).
  destruct (window_check _ _ _) as [[|]|e]; simpl.
  2,3: intros [= <- <-]; simpl; rewrite <- ?app_assoc;
       eexists; (split; [reflexivity | vm_compute; reflexivity]).
  destruct (decide _) as [Hin|Hnotin]; simpl.
  { intros [= <- <-]; simpl; rewrite <- ?app_assoc;
      eexists; (split; [reflexivity | vm_compute; reflexivity]). }
  destruct (dt_add _ _) as [end_at|e]; simpl.
  2: intros [= <- <-]; simpl; rewrite <- ?app_assoc;
     eexists; (split; [reflexivity | vm_compute; reflexivity]).
  destruct (pages_create _ _ _) as [n' [[]|e]]; simpl;
    intros [= <- <-]; simpl; rewrite <- ?app_assoc;
    eexists; (split; [reflexivity | vm_compute; reflexivity]).
Qed.

Lemma process_assignments_reported now week_out class_select
    (l : PaginatedList Assignment) (n : Z) s s' o :
  process_assignments lib notion db now week_out class_select l n s = (s', o) ->
  reports s s'.
Proof.
  revert n s. induction l as [|a rest IH|e]; intros n s; simpl.
  - intros [= <- <-]. apply reports_refl.
  - intros H. bind_inv H; [| by eapply process_assignment_reported..].
    eapply reports_trans; [by eapply process_assignment_reported |].
    by eapply IH.
  - intros [= <- <-]. apply reports_refl.
Qed.

Lemma process_course_reported now week_out (course : Course) s s' o :
  process_course lib notion db name_map now week_out course s = (s', o) ->
  reports s s'.
Proof.
  unfold process_course. intros H. quiet_emit H.
  destruct (name_map !! course_name course) as [class_select|].
  - quiet_emit H. quiet_emit H.
    bind_inv H; [| by eapply process_assignments_reported..].
    eapply reports_trans; [by eapply process_assignments_reported |].
    quiet_last Hk.
  - quiet_last H.
Qed.

Lemma process_courses_reported now week_out (l : PaginatedList Course)
    s s' o :
  process_courses lib notion db name_map now week_out l s = (s', o) ->
  reports s s'.
Proof.
  revert s. induction l as [|c rest IH|e]; intros s; simpl.
  - intros [= <- <-]. apply reports_refl.
  - intros H. bind_inv H; [| by eapply process_course_reported..].
    eapply reports_trans; [by eapply process_course_reported |].
    by eapply IH.
  - intros [= <- <-]. apply reports_refl.
Qed.

Lemma sync_pass_reported (T : Z) (courses : PaginatedList Course) s s' o :
  sync_pass lib notion db name_map T courses s = (s', o) -> reports s s'.
Proof.
  unfold sync_pass. intros H.
  destruct (dt_add (utc_now T) (timedelta_days 7)) as [week_out|e]; simpl in H.
  2: { injection H as <- <-. apply reports_refl. }
  rewrite bind_ret in H. quiet_emit H. quiet_emit H. quiet_emit H.
  bind_inv H; [| by eapply process_courses_reported..].
  eapply reports_trans; [by eapply process_courses_reported |].
  quiet_last Hk.
Qed.

Lemma filter_filter_elems {A : Type} (P Q : A -> Prop)
    `{!forall x, Decision (P x)} `{!forall x, Decision (Q x)} (l : list A) :
  (forall x, x ∈ l -> P x -> Q x) ->
  filter P (filter Q l) = filter P l.
Proof.
  induction l as [|x l IH]; intros Himp; [done |].
  assert (Htl : forall y, y ∈ l -> P y -> Q y)
    by (intros y Hy; apply Himp; by right).
  rewrite !filter_cons.
  destruct (decide (Q x)) as [HQ|HQ].
  - rewrite filter_cons. destruct (decide (P x)); by rewrite IH.
  - destruct (decide (P x)) as [HP|HP]; [| by apply IH].
    destruct HQ. apply Himp; [by left | done].
Qed.

Lemma log_file_all (tr : list event) : log_file tr = omap log_record tr.
Proof.
  unfold log_file, handled. induction (omap log_record tr) as [|r l IH];
    [done |].
  rewrite filter_cons_True, IH; [done |].
  destruct r as [[] ? ? ?]; split; by vm_compute.
Qed.

(** X17. The console tells the outcome of every create call.  With the
    handlers as main.py sets them up (logger at DEBUG, console at INFO),
    the console records that report on create calls are, in the order
    of the calls, exactly one per call: for a call that returned, the
    INFO record ["Added assignment"] with the name and the label of the
    request; for a call that raised, the ERROR record of
    [logger.exception] with the name, the Canvas id and the exception.
    No other record of a run looks like either of them.  The log file,
    whose handler is at DEBUG, holds every record of the run. *)
Theorem console_reports_every_create (n0 : notion_state notion)
    (fuel : nat) (T : Z) (courses : PaginatedList Course) s' o :
  run lib notion db name_map n0 fuel T courses = (s', o) ->
  filter about_creates (console (trace s')) = omap create_report (trace s') /\
  log_file (trace s') = omap log_record (trace s').
Proof.
  unfold run. intros Hrun. split; [| by apply log_file_all].
  assert (Hrep : reported (trace s')).
  { apply main_inv in Hrun as [[Hf ->]|[(e' & Hf & ->)|(sf & ids & Hf & Hp)]].
    - by apply fetch_existing_reported in Hf as (evs & -> & Hevs).
    - by apply fetch_existing_reported in Hf as (evs & -> & Hevs).
    - apply fetch_existing_reported in Hf as (evs1 & Htr1 & Hevs1).
      apply sync_pass_reported in Hp as (evs2 & -> & Hevs2).
      simpl in *. rewrite Htr1. by apply reported_app. }
  unfold console, handled. rewrite filter_filter_elems; [done |].
  intros r Hr Habout.
  assert (Hin : r ∈ omap create_report (trace s')).
  { rewrite <- Hrep. by apply list_elem_of_filter. }
  apply list_elem_of_omap in Hin as (ev & _ & Hev).
  destruct ev as [| | |req [[]|e]| |]; simpl in Hev; simplify_eq;
    split; by vm_compute.
Qed.

(** ** A run without failures *)

Lemma create_calls_created (tr : list event) :
  failed_creates tr = [] -> create_calls tr = created tr.
Proof.
  induction tr as [|ev tr IH]; [done |].
  destruct ev as [| | |req [[]|e]| |]; simpl; intros H; try by apply IH.
  - f_equal. by apply IH.
  - done.
Qed.

Lemma elem_of_candidates (courses : PaginatedList Course)
    (p : string * Assignment) :
  p ∈ candidates name_map courses <->
  exists course,
    course ∈ pl_items courses /\
    name_map !! course_name course = Some p.1 /\
    p.2 ∈ pl_items (course_assignments course).
Proof.
  unfold candidates. rewrite list_elem_of_bind. split.
  - intros (course & Hp & Hcourse). exists course. split; [done |].
    destruct (name_map !! course_name course) as [class_select|];
      [| by apply elem_of_nil in Hp].
    apply list_elem_of_fmap in Hp as (a & -> & Ha). done.
  - intros (course & Hcourse & Hmap & Ha). exists course. split; [| done].
    rewrite Hmap. apply list_elem_of_fmap. exists p.2. split; [| done].
    by destruct p.
Qed.

(** X19. What a run without failures creates.  When a run ends normally
    and none of its create calls failed, the pages it created are
    exactly those that were missing: there is one create call, and one
    page, for each Canvas id that is not in the loaded baseline and
    belongs to an assignment of a mapped course that passes the
    due-date and window filters; no id gets two. *)
Theorem clean_run_creates_exactly_the_new (n0 : notion_state notion)
    (fuel : nat) (T : Z) (courses : PaginatedList Course) sf
    (baseline : gset string) s' (week_out : datetime) :
  fetch_existing_canvas_ids notion db fuel (initial_state notion n0)
  = (sf, Done baseline) ->
  run lib notion db name_map n0 fuel T courses = (s', Done tt) ->
  dt_add (utc_now T) (timedelta_days 7) = Ok week_out ->
  failed_creates (trace s') = [] ->
  create_calls (trace s') = created (trace s') /\
  NoDup (prop_Canvas_ID <$> created (trace s')) /\
  forall canvas_id,
    canvas_id ∈ (prop_Canvas_ID <$> created (trace s')) <->
    (canvas_id ∉ baseline) /\
    exists p d,
      p ∈ candidates name_map courses /\
      due_in_window lib (utc_now T) week_out p.2 d /\
      canvas_id = str_of_int (assignment_id p.2).
Proof.
  intros Hf Hrun Hw Hok.
  pose proof (create_calls_created _ Hok) as Hcc.
  destruct (run_dedup_inv _ _ _ _ _ _ Hrun) as (b & Hinv & Hb).
  rewrite (Hb _ _ Hf) in Hinv. clear b Hb.
  destruct Hinv as (_ & _ & Hno & Hfresh & Honly).
  split; [exact Hcc |].
  split; [by apply no_call_after_success_nodup |].
  pose proof (fetch_existing_no_creates _ _ _ _ Hf) as (_ & Hc0 & _).
  rewrite (run_after_fetch _ _ _ _ _ _ Hf) in Hrun.
  rewrite (sync_pass_window _ _ _ _ Hw) in Hrun.
  bind_done Hrun. destruct x.
  unfold log in Hk. rewrite emit_eq in Hk. injection Hk as <-.
  pose proof (process_courses_calls _ _ _ _ _ _ Hm)
    as (evs & picked & Htr & Hsub & Hall).
  pose proof (process_courses_accounted _ _ _ _ _ Hm)
    as (evs' & Htr' & _ & Hacc).
  rewrite Htr in Htr'. apply app_inv_head in Htr'. subst evs'.
  simpl in Htr, Hcc, Hok, Hfresh, Honly |- *.
  assert (Hcalls : create_calls (trace s1 ++ [EvLog INFO "Sync run complete" []])
                   = create_calls evs).
  { rewrite Htr, !create_calls_app, Hc0. simpl. by rewrite app_nil_r. }
  assert (Hfail : failed_creates evs = []).
  { rewrite Htr, !failed_creates_app in Hok.
    apply app_eq_nil in Hok as [Hok _]. by apply app_eq_nil in Hok as [_ ?]. }
  rewrite <- Hcc, Hcalls. rewrite Hcalls in Hfresh. rewrite <- Hcc in Honly.
  rewrite Hcalls in Honly. clear Hcc Hcalls.
  intros canvas_id. rewrite list_elem_of_fmap. split.
  - intros (req & -> & Hreq). split; [by apply Hfresh |].
    apply list_elem_of_lookup in Hreq as [i Hi].
    destruct (Forall2_lookup_r _ _ _ _ _ Hall Hi) as (p & Hp & Hpreq).
    destruct Hpreq as (d & end_at & Hd & _ & ->).
    exists p, d. split; [| done].
    eapply elem_of_sublist; [| exact Hsub].
    by eapply list_elem_of_lookup_2.
  - intros (Hnew & p & d & Hp & Hd & ->).
    apply elem_of_candidates in Hp as (course & Hcourse & Hmap & Ha).
    destruct (Hacc _ _ _ _ Hcourse Hmap Ha Hd) as [Hin|(req & e & Hin & _)].
    + destruct (Honly _ Hin) as [|(req & Hreq & Hid)]; [done |].
      exists req. by split.
    + rewrite Hfail in Hin. by apply elem_of_nil in Hin.
Qed.

(** ** The due date and the window, decision by decision *)

(** An assignment without a due date: two records, nothing else. *)
Lemma process_assignment_undated now week_out class_select a s :
  str_truthy (assignment_due_at a) = false ->
  process_assignment lib notion db now week_out class_select a s =
  (add_events s [checking_record a; no_due_date_record], Done tt).
Proof.
  intros Hfalsy. unfold process_assignment, log. rewrite bind_emit.
  destruct (assignment_due_at a) as [[|c r]|]; [| done |];
    by rewrite emit_eq, add_events_app.
Qed.

(** A due date that does not parse. *)
Lemma process_assignment_unparsed now week_out class_select a s
    (due_str : string) :
  assignment_due_at a = Some due_str -> due_str <> EmptyString ->
  fromisoformat lib (str_replace "Z" "+00:00" due_str) = None ->
  process_assignment lib notion db now week_out class_select a s =
  (add_events s [checking_record a], Raised ValueError).
Proof.
  intros Hdue Hne Hparse. unfold process_assignment, log.
  rewrite bind_emit, Hdue. destruct due_str; [done |]. by rewrite Hparse.
Qed.

(** A due date that parses: the window test on the parsed value decides
    what the loop body does. *)
Lemma process_assignment_parsed now week_out class_select a s
    (due_str : string) (d : datetime) :
  assignment_due_at a = Some due_str -> due_str <> EmptyString ->
  fromisoformat lib (str_replace "Z" "+00:00" due_str) = Some d ->
  match window_check now d week_out with
  | Err e =>
      process_assignment lib notion db now week_out class_select a s =
      (add_events s [checking_record a; parsed_record lib d], Raised e)
  | Ok false =>
      stopped_by_window_filter lib notion db now week_out class_select a d s
  | Ok true =>
      passes_window_filter lib notion db now week_out class_select a d s
  end.
Proof.
  intros Hdue Hne Hparse.
  unfold passes_window_filter, stopped_by_window_filter.
  unfold process_assignment, bind, log, log_exception, emit, raise,
    ret, lift, get_ids, set_ids, try_except, notion_create, add_events,
    checking_record, parsed_record, outside_window_record, duplicate_record.
  rewrite Hdue. destruct due_str; [done |]. rewrite Hparse. simpl.
  destruct (window_check _ _ _) as [[|]|e]; simpl.
  - destruct (decide _) as [Hin|Hnotin]; simpl.
    { by rewrite <- !app_assoc. }
    destruct (dt_add _ _) as [end_at|e]; simpl.
    2: { by rewrite <- !app_assoc. }
    destruct (pages_create _ _ _) as [n' [[]|e]]; simpl;
      (split; [done |]);
      rewrite !create_calls_app; simpl; by rewrite !app_nil_r.
  - by rewrite <- !app_assoc.
  - by rewrite <- !app_assoc.
Qed.

(** The window the pass computes, [T .. T + 7 days], in terms of
    instants. *)
Lemma window_filter_instants (T : Z) (week_out : datetime) class_select a
    (d : datetime) (i : Z) s :
  dt_add (utc_now T) (timedelta_days 7) = Ok week_out ->
  due_instant lib a d i ->
  (T <= i <= T + timedelta_days 7 ->
   passes_window_filter lib notion db (utc_now T) week_out class_select a d s)
  /\
  (~ T <= i <= T + timedelta_days 7 ->
   stopped_by_window_filter lib notion db (utc_now T) week_out class_select
     a d s).
Proof.
  intros Hw (due_str & Hdue & Hne & Hparse & Hi).
  pose proof (process_assignment_parsed (utc_now T) week_out class_select a s
                due_str d Hdue Hne Hparse) as H.
  rewrite (window_check_aware _ _ _ _ Hw Hi) in H.
  split; intros Hin.
  - by rewrite bool_decide_eq_true_2 in H.
  - by rewrite bool_decide_eq_false_2 in H.
Qed.

Lemma due_in_window_instant (T : Z) (week_out : datetime) a (d : datetime) :
  dt_add (utc_now T) (timedelta_days 7) = Ok week_out ->
  due_in_window lib (utc_now T) week_out a d <->
  exists i, due_instant lib a d i /\ T <= i <= T + timedelta_days 7.
Proof.
  intros Hw. split.
  - intros (due_str & Hdue & Hne & Hparse & Hwin).
    destruct (utcoffset d) as [o|] eqn:Ho.
    + assert (Hi : instant d = Some (wall d - o))
        by (unfold instant; by rewrite Ho).
      exists (wall d - o). split; [by exists due_str |].
      rewrite (window_check_aware _ _ _ _ Hw Hi) in Hwin.
      injection Hwin as Hwin. by apply bool_decide_eq_true_1 in Hwin.
    + by rewrite (window_check_naive _ _ _ Ho) in Hwin.
  - intros (i & (due_str & Hdue & Hne & Hparse & Hi) & Hin).
    exists due_str. split_and!; [done.. |].
    rewrite (window_check_aware _ _ _ _ Hw Hi).
    by rewrite bool_decide_eq_true_2.
Qed.

(** ** The due date and the window in a run *)

Lemma failed_create_calls (tr : list event) (r : CreateRequest) (e : exn) :
  (r, e) ∈ failed_creates tr -> r ∈ create_calls tr.
Proof.
  unfold failed_creates, create_calls. rewrite !list_elem_of_omap.
  intros (ev & Hev & Hr). exists ev. split; [done |].
  destruct ev as [| | |req [[]|]| |]; naive_solver.
Qed.

(** Where a create call of a run comes from: an assignment Canvas
    yielded for a mapped course, which passed the filters. *)
Lemma run_create_call_origin (n0 : notion_state notion) (fuel : nat) (T : Z)
    (courses : PaginatedList Course) s' o (req : CreateRequest) :
  run lib notion db name_map n0 fuel T courses = (s', o) ->
  req ∈ create_calls (trace s') ->
  exists week_out p,
    dt_add (utc_now T) (timedelta_days 7) = Ok week_out /\
    p ∈ candidates name_map courses /\
    request_of (utc_now T) week_out p.1 p.2 req.
Proof.
  unfold run. intros Hrun Hreq.
  apply main_inv in Hrun as [[Hf ->]|[(e' & Hf & ->)|(sf & ids & Hf & Hp)]].
  - apply fetch_existing_no_creates in Hf as (_ & Hc & _).
    rewrite Hc in Hreq. by apply elem_of_nil in Hreq.
  - apply fetch_existing_no_creates in Hf as (_ & Hc & _).
    rewrite Hc in Hreq. by apply elem_of_nil in Hreq.
  - apply fetch_existing_no_creates in Hf as (_ & Hc & _).
    destruct (dt_add (utc_now T) (timedelta_days 7)) as [week_out|e] eqn:Hw.
    2: { unfold sync_pass in Hp. rewrite Hw in Hp. injection Hp as <- <-.
         simpl in Hreq. rewrite Hc in Hreq. by apply elem_of_nil in Hreq. }
    rewrite (sync_pass_window _ _ _ _ Hw) in Hp.
    exists week_out.
    assert (Hloop : forall s1 o1,
      process_courses lib notion db name_map (utc_now T) week_out courses
        (add_events (mk_state (notion_st sf) ids (trace sf))
           [EvLog INFO "Scanning assignments due between %s and %s"
              [isoformat lib (utc_now T); isoformat lib week_out];
            EvGetCourses;
            EvLog DEBUG "Canvas returned courses iterator" []])
      = (s1, o1) ->
      req ∈ create_calls (trace s1) ->
      exists p,
        Ok week_out = Ok week_out /\
        p ∈ candidates name_map courses /\
        request_of (utc_now T) week_out p.1 p.2 req).
    { intros s1 o1 Hm Hr.
      apply process_courses_calls in Hm as (evs & picked & Htr & Hsub & Hall).
      simpl in Htr. rewrite Htr, !create_calls_app, Hc in Hr. simpl in Hr.
      apply list_elem_of_lookup in Hr as [k Hk].
      destruct (Forall2_lookup_r _ _ _ _ _ Hall Hk) as (p & Hp' & Hpreq).
      exists p. split; [done |]. split; [| done].
      eapply elem_of_sublist; [| exact Hsub].
      by eapply list_elem_of_lookup_2. }
    bind_inv Hp; [| by eapply Hloop..].
    unfold log in Hk. rewrite emit_eq in Hk. injection Hk as <- <-.
    simpl in Hreq. rewrite create_calls_app in Hreq. simpl in Hreq.
    rewrite app_nil_r in Hreq. by eapply Hloop.
Qed.

(** In a run that ends normally, an assignment of a mapped course that
    passes the filters has its id in the baseline or gets a create
    call. *)
Lemma run_in_window_called (n0 : notion_state notion) (fuel : nat) (T : Z)
    (courses : PaginatedList Course) sf (baseline : gset string) s'
    (week_out : datetime) (p : string * Assignment) (d : datetime) :
  fetch_existing_canvas_ids notion db fuel (initial_state notion n0)
  = (sf, Done baseline) ->
  run lib notion db name_map n0 fuel T courses = (s', Done tt) ->
  dt_add (utc_now T) (timedelta_days 7) = Ok week_out ->
  p ∈ candidates name_map courses ->
  due_in_window lib (utc_now T) week_out p.2 d ->
  str_of_int (assignment_id p.2) ∈ baseline \/
  exists req,
    req ∈ create_calls (trace s') /\
    prop_Canvas_ID req = str_of_int (assignment_id p.2).
Proof.
  intros Hf Hrun Hw Hp Hd.
  apply elem_of_candidates in Hp as (course & Hcourse & Hmap & Ha).
  destruct (run_dedup_inv _ _ _ _ _ _ Hrun) as (b & Hinv & Hb).
  rewrite (Hb _ _ Hf) in Hinv. clear b Hb.
  destruct Hinv as (_ & _ & _ & _ & Honly).
  rewrite (run_after_fetch _ _ _ _ _ _ Hf) in Hrun.
  rewrite (sync_pass_window _ _ _ _ Hw) in Hrun.
  bind_done Hrun. destruct x.
  apply process_courses_accounted in Hm as (evs & Htr & _ & Hacc).
  unfold log in Hk. rewrite emit_eq in Hk. injection Hk as <-.
  simpl in *.
  destruct (Hacc _ _ _ _ Hcourse Hmap Ha Hd) as [Hin|(req & e & Hfail & Hid)].
  - destruct (Honly _ Hin) as [|(req & Hreq & Hid)]; [by left |].
    right. exists req. split; [| done]. by apply created_create_calls.
  - right. exists req. split; [| done].
    apply (failed_create_calls _ _ e).
    rewrite Htr, !failed_creates_app. apply elem_of_app. left.
    apply elem_of_app. by right.
Qed.

(** A run that ends normally has run the loop body on every assignment
    of every mapped course. *)
Lemma process_assignment_trace now week_out class_select a s s' o :
  process_assignment lib notion db now week_out class_select a s = (s', o) ->
  trace s `prefix_of` trace s'.
Proof.
  intros H. apply process_assignment_calls in H as (evs & _ & -> & _).
  by exists evs.
Qed.

Lemma process_assignments_trace now week_out class_select
    (l : PaginatedList Assignment) (n : Z) s s' o :
  process_assignments lib notion db now week_out class_select l n s = (s', o) ->
  trace s `prefix_of` trace s'.
Proof.
  intros H. apply process_assignments_calls in H as (evs & _ & -> & _).
  by exists evs.
Qed.

Lemma process_courses_trace now week_out (courses : PaginatedList Course)
    s s' o :
  process_courses lib notion db name_map now week_out courses s = (s', o) ->
  trace s `prefix_of` trace s'.
Proof.
  intros H. apply process_courses_calls in H as (evs & _ & -> & _).
  by exists evs.
Qed.

Lemma process_assignments_bodies now week_out class_select
    (l : PaginatedList Assignment) (n m : Z) s s' a :
  process_assignments lib notion db now week_out class_select l n s
  = (s', Done m) ->
  a ∈ pl_items l ->
  exists s1 s2,
    trace s `prefix_of` trace s1 /\
    process_assignment lib notion db now week_out class_select a s1
    = (s2, Done tt) /\
    trace s2 `prefix_of` trace s'.
Proof.
  revert n s. induction l as [|a' rest IH|e]; intros n s; simpl.
  - intros _ Ha. by apply elem_of_nil in Ha.
  - intros H Ha. bind_done H. destruct x.
    apply elem_of_cons in Ha as [->|Ha].
    + exists s, s1. split; [done |]. split; [done |].
      by eapply process_assignments_trace.
    + destruct (IH _ _ Hk Ha) as (t1 & t2 & Hpre & Hbody & Hpost).
      exists t1, t2. split; [| done].
      etrans; [by eapply process_assignment_trace | done].
  - done.
Qed.

Lemma process_courses_bodies now week_out (courses : PaginatedList Course)
    s s' (p : string * Assignment) :
  process_courses lib notion db name_map now week_out courses s
  = (s', Done tt) ->
  p ∈ candidates name_map courses ->
  exists s1 s2,
    trace s `prefix_of` trace s1 /\
    process_assignment lib notion db now week_out p.1 p.2 s1 = (s2, Done tt) /\
    trace s2 `prefix_of` trace s'.
Proof.
  revert s. induction courses as [|c rest IH|e]; intros s; simpl.
  - intros _ Hp. by apply elem_of_nil in Hp.
  - intros H Hp. bind_done H. destruct x.
    pose proof (process_courses_trace _ _ _ _ _ _ Hk) as Hrest.
    rewrite candidates_cons in Hp. apply elem_of_app in Hp as [Hp|Hp].
    + apply elem_of_candidates in Hp as (c' & Hc' & Hmap & Ha).
      apply list_elem_of_singleton in Hc' as ->.
      rewrite (process_course_mapped _ _ _ _ _ Hmap) in Hm.
      bind_done Hm.
      destruct (process_assignments_bodies _ _ _ _ _ _ _ _ _ Hm0 Ha)
        as (t1 & t2 & Hpre & Hbody & Hpost).
      unfold log in Hk0. rewrite emit_eq in Hk0. injection Hk0 as <-.
      exists t1, t2. split.
      { etrans; [| exact Hpre]. simpl. by eexists. }
      split; [done |].
      etrans; [exact Hpost |]. etrans; [| exact Hrest]. simpl. by eexists.
    + destruct (IH _ Hk Hp) as (t1 & t2 & Hpre & Hbody & Hpost).
      exists t1, t2. split; [| done].
      etrans; [| exact Hpre].
      destruct (name_map !! course_name c) as [class_select|] eqn:Hmap.
      * rewrite (process_course_mapped _ _ _ _ _ Hmap) in Hm.
        bind_done Hm. apply process_assignments_trace in Hm0.
        unfold log in Hk0. rewrite emit_eq in Hk0. injection Hk0 as <-.
        etrans; [| etrans; [exact Hm0 |]]; simpl; by eexists.
      * rewrite (process_course_unmapped _ _ _ _ Hmap) in Hm.
        injection Hm as <-. simpl. by eexists.
  - done.
Qed.

Lemma run_bodies (n0 : notion_state notion) (fuel : nat) (T : Z)
    (courses : PaginatedList Course) sf (baseline : gset string) s' :
  fetch_existing_canvas_ids notion db fuel (initial_state notion n0)
  = (sf, Done baseline) ->
  run lib notion db name_map n0 fuel T courses = (s', Done tt) ->
  exists week_out,
    dt_add (utc_now T) (timedelta_days 7) = Ok week_out /\
    forall p, p ∈ candidates name_map courses ->
      exists s1 s2,
        trace sf `prefix_of` trace s1 /\
        process_assignment lib notion db (utc_now T) week_out p.1 p.2 s1
        = (s2, Done tt) /\
        trace s2 `prefix_of` trace s'.
Proof.
  intros Hf Hrun. rewrite (run_after_fetch _ _ _ _ _ _ Hf) in Hrun.
  destruct (dt_add (utc_now T) (timedelta_days 7)) as [week_out|e] eqn:Hw.
  2: { unfold sync_pass in Hrun. by rewrite Hw in Hrun. }
  exists week_out. split; [done |]. intros p Hp.
  rewrite (sync_pass_window _ _ _ _ Hw) in Hrun.
  bind_done Hrun. destruct x.
  unfold log in Hk. rewrite emit_eq in Hk. injection Hk as <-.
  destruct (process_courses_bodies _ _ _ _ _ _ Hm Hp)
    as (t1 & t2 & Hpre & Hbody & Hpost).
  exists t1, t2. split.
  { etrans; [| exact Hpre]. simpl. by eexists. }
  split; [done |]. etrans; [exact Hpost |]. simpl. by eexists.
Qed.

(** C2. The window filter lets an assignment through exactly when its
    due instant [i] lies in [T .. T + 7 days], both ends included, where
    [T] is what the clock read when the pass began.

    In a run: every create call is made for an assignment of a mapped
    course whose due date parses to an instant in that range, and carries
    the request built from it; and when the run ends normally, every such
    assignment has its id in the loaded baseline or got a create call.

    Such a run has run the loop body once on every assignment of every
    mapped course, with [now] and [week_out = now + 7 days] as its
    bounds.  For the loop body, run from any state with these bounds:
    inside the range it goes on to the duplicate check and the create
    call; outside it writes the record that the assignment is outside
    the window and does nothing else.  In particular an assignment due
    at [T] or at [T + 7 days] gets through, one due a second before [T]
    or a second after [T + 7 days] does not. *)
Theorem window_is_inclusive (n0 : notion_state notion) (fuel : nat) (T : Z)
    (courses : PaginatedList Course) sf (baseline : gset string) s' o :
  fetch_existing_canvas_ids notion db fuel (initial_state notion n0)
  = (sf, Done baseline) ->
  run lib notion db name_map n0 fuel T courses = (s', o) ->
  (forall req, req ∈ create_calls (trace s') ->
     exists p d i end_at,
       p ∈ candidates name_map courses /\
       due_instant lib p.2 d i /\
       T <= i <= T + timedelta_days 7 /\
       dt_add d (timedelta_minutes 30) = Ok end_at /\
       req = build_request lib db p.2 p.1 d end_at
               (str_of_int (assignment_id p.2))) /\
  (o = Done tt ->
   forall p d i,
     p ∈ candidates name_map courses ->
     due_instant lib p.2 d i ->
     T <= i <= T + timedelta_days 7 ->
     str_of_int (assignment_id p.2) ∈ baseline \/
     exists req,
       req ∈ create_calls (trace s') /\
       prop_Canvas_ID req = str_of_int (assignment_id p.2)) /\
  (o = Done tt ->
   exists week_out,
     dt_add (utc_now T) (timedelta_days 7) = Ok week_out /\
     forall p, p ∈ candidates name_map courses ->
       exists s1 s2,
         trace sf `prefix_of` trace s1 /\
         process_assignment lib notion db (utc_now T) week_out p.1 p.2 s1
         = (s2, Done tt) /\
         trace s2 `prefix_of` trace s') /\
  (forall week_out class_select a d i s,
     dt_add (utc_now T) (timedelta_days 7) = Ok week_out ->
     due_instant lib a d i ->
     (T <= i <= T + timedelta_days 7 ->
      passes_window_filter lib notion db (utc_now T) week_out class_select
        a d s) /\
     (~ T <= i <= T + timedelta_days 7 ->
      stopped_by_window_filter lib notion db (utc_now T) week_out
        class_select a d s) /\
     (i = T \/ i = T + timedelta_days 7 ->
      passes_window_filter lib notion db (utc_now T) week_out class_select
        a d s) /\
     (i = T - timedelta_seconds 1 \/
      i = T + timedelta_days 7 + timedelta_seconds 1 ->
      stopped_by_window_filter lib notion db (utc_now T) week_out
        class_select a d s)).
Proof.
  intros Hf Hrun. split_and!.
  - intros req Hreq.
    destruct (run_create_call_origin _ _ _ _ _ _ _ Hrun Hreq)
      as (week_out & p & Hw & Hp & d & end_at & Hd & Hend & ->).
    apply (due_in_window_instant _ _ _ _ Hw) in Hd as (i & Hi & Hin).
    by exists p, d, i, end_at.
  - intros -> p d i Hp Hi Hin.
    destruct (dt_add (utc_now T) (timedelta_days 7)) as [week_out|e] eqn:Hw.
    + eapply run_in_window_called; [done.. |].
      apply (due_in_window_instant _ _ _ _ Hw). by exists i.
    + rewrite (run_after_fetch _ _ _ _ _ _ Hf) in Hrun.
      unfold sync_pass in Hrun. by rewrite Hw in Hrun.
  - intros ->. by eapply run_bodies.
  - intros week_out class_select a d i s Hw Hi.
    destruct (window_filter_instants T week_out class_select a d i s Hw Hi)
      as [Hpass Hstop].
    split; [done |]. split; [done |].
    unfold timedelta_days, timedelta_seconds, usec_per_day, usec_per_second
      in *.
    split; intros Hends; [apply Hpass | apply Hstop]; lia.
Qed.

(** C8. What the loop body does with the due date.

    An assignment without a due date (absent or empty) is passed over:
    two records, no call, no change.  Otherwise the string handed to
    [fromisoformat] is the due date with ["Z"] replaced by ["+00:00"];
    when that does not parse the loop dies with [ValueError]; when it
    parses, the parsed value is recorded and is what the window test is
    made on, whose result decides between the exception of an ill-typed
    comparison, the record that the assignment is outside the window,
    and the duplicate check followed by the create call, which carries
    the parsed value as its start.  A due date [p ++ "Z"], [p] without
    a ["Z"], is parsed as [p ++ "+00:00"] and handled exactly as if
    Canvas had sent that; a due date without ["Z"] is parsed as it is.

    In a run: every create call is made for an assignment of a mapped
    course that has a due date, and carries what that due date, so
    normalised, parses to; the parsed value passed the window test. *)
Theorem due_date_handling (n0 : notion_state notion) (fuel : nat) (T : Z)
    (courses : PaginatedList Course) s' o :
  run lib notion db name_map n0 fuel T courses = (s', o) ->
  (forall req, req ∈ create_calls (trace s') ->
     exists p due_str d week_out end_at,
       p ∈ candidates name_map courses /\
       assignment_due_at p.2 = Some due_str /\ due_str <> EmptyString /\
       fromisoformat lib (str_replace "Z" "+00:00" due_str) = Some d /\
       dt_add (utc_now T) (timedelta_days 7) = Ok week_out /\
       window_check (utc_now T) d week_out = Ok true /\
       dt_add d (timedelta_minutes 30) = Ok end_at /\
       req = build_request lib db p.2 p.1 d end_at
               (str_of_int (assignment_id p.2))) /\
  (forall now week_out class_select a s,
     (str_truthy (assignment_due_at a) = false ->
      process_assignment lib notion db now week_out class_select a s =
      (add_events s [checking_record a; no_due_date_record], Done tt)) /\
     (forall due_str,
        assignment_due_at a = Some due_str -> due_str <> EmptyString ->
        match fromisoformat lib (str_replace "Z" "+00:00" due_str) with
        | None =>
            process_assignment lib notion db now week_out class_select a s =
            (add_events s [checking_record a], Raised ValueError)
        | Some d =>
            match window_check now d week_out with
            | Err e =>
                process_assignment lib notion db now week_out class_select
                  a s =
                (add_events s [checking_record a; parsed_record lib d],
                 Raised e)
            | Ok false =>
                stopped_by_window_filter lib notion db now week_out
                  class_select a d s
            | Ok true =>
                passes_window_filter lib notion db now week_out
                  class_select a d s
            end
        end) /\
     (forall p,
        has_char "Z" p = false -> assignment_due_at a = Some (p +:+ "Z") ->
        str_replace "Z" "+00:00" (p +:+ "Z") = p +:+ "+00:00" /\
        process_assignment lib notion db now week_out class_select a s =
        process_assignment lib notion db now week_out class_select
          {| assignment_id := assignment_id a;
             assignment_name := assignment_name a;
             assignment_due_at := Some (p +:+ "+00:00");
             assignment_html_url := assignment_html_url a |} s)) /\
  (forall p,
     str_replace "Z" "+00:00" (p +:+ "Z")
     = str_replace "Z" "+00:00" p +:+ "+00:00") /\
  (forall p, has_char "Z" p = false -> str_replace "Z" "+00:00" p = p).
Proof.
  intros Hrun. split_and!.
  - intros req Hreq.
    destruct (run_create_call_origin _ _ _ _ _ _ _ Hrun Hreq)
      as (week_out & p & Hw & Hp & d & end_at & Hd & Hend & ->).
    destruct Hd as (due_str & Hdue & Hne & Hparse & Hwin).
    by exists p, due_str, d, week_out, end_at.
  - intros now week_out class_select a s. split_and!.
    + apply process_assignment_undated.
    + intros due_str Hdue Hne.
      destruct (fromisoformat lib (str_replace "Z" "+00:00" due_str))
        as [d|] eqn:Hparse.
      * by apply (process_assignment_parsed _ _ _ _ _ due_str).
      * by apply (process_assignment_unparsed _ _ _ _ _ due_str).
    + intros p Hp Hdue.
      assert (Hz : str_replace "Z" "+00:00" (p +:+ "Z") = p +:+ "+00:00").
      { rewrite str_replace_Z_suffix.
        by rewrite (str_replace_char_absent _ _ _ Hp). }
      split; [exact Hz |].
      unfold process_assignment. rewrite Hdue. simpl.
      assert (Hsame : str_replace "Z" "+00:00" (p +:+ "Z")
                      = str_replace "Z" "+00:00" (p +:+ "+00:00")).
      { rewrite str_replace_Z_suffix, (str_replace_char_app "Z" _ p "+00:00").
        done. }
      destruct p as [|c p]; [done |].
      change (String c p +:+ ?x) with (String c (p +:+ x)) in *.
      by rewrite Hsame.
  - apply str_replace_Z_suffix.
  - intros p Hp. by apply str_replace_char_absent.
Qed.

(** ** What can end a run *)

(** [bind_inv] when the outcome is known to be [Raised]. *)
Ltac bind_raised H :=
  let s1 := fresh "s1" in
  let x := fresh "x" in
  let e := fresh "e" in
  let H1 := fresh "Hm" in
  let H2 := fresh "Hk" in
  apply bind_inv in H as [(s1 & x & H1 & H2)|[(e & H1 & [= <-])|[_ [=]]]].

(** The loop body raises only on the due date. *)
Lemma process_assignment_raised (T : Z) (week_out : datetime) class_select
    a s s' (e : exn) :
  dt_add (utc_now T) (timedelta_days 7) = Ok week_out ->
  process_assignment lib notion db (utc_now T) week_out class_select a s
  = (s', Raised e) ->
  due_date_fault lib T a e (trace s').
Proof.
  intros Hw H.
  destruct (assignment_due_at a) as [due_str|] eqn:Hdue.
  2: { rewrite process_assignment_undated in H; [done | by rewrite Hdue]. }
  destruct (decide (due_str = EmptyString)) as [->|Hne].
  { rewrite process_assignment_undated in H; [done | by rewrite Hdue]. }
  exists due_str, (trace s). split; [done |]. split; [done |].
  destruct (fromisoformat lib (str_replace "Z" "+00:00" due_str))
    as [d|] eqn:Hparse.
  - pose proof (process_assignment_parsed (utc_now T) week_out class_select
                  a s due_str d Hdue Hne Hparse) as Hd.
    destruct (utcoffset d) as [o|] eqn:Ho.
    + assert (Hi : instant d = Some (wall d - o))
        by (unfold instant; by rewrite Ho).
      rewrite (window_check_aware _ _ _ _ Hw Hi) in Hd.
      destruct (bool_decide (T <= wall d - o <= T + timedelta_days 7))
        eqn:Hin.
      * apply bool_decide_eq_true_1 in Hin.
        unfold passes_window_filter in Hd. cbv zeta in Hd.
        destruct (decide _) as [Hknown|Hnew].
        { by rewrite Hd in H. }
        destruct (dt_add d (timedelta_minutes 30)) as [end_at|e'] eqn:Hend.
        { destruct Hd as [Hdone _]. by rewrite H in Hdone. }
        rewrite Hd in H. injection H as <- <-.
        assert (e' = OverflowError) as ->.
        { unfold dt_add in Hend. case_match; by simplify_eq. }
        done.
      * unfold stopped_by_window_filter in Hd. by rewrite Hd in H.
    + rewrite (window_check_naive _ _ _ Ho) in Hd. rewrite Hd in H.
      by injection H as <- <-.
  - rewrite (process_assignment_unparsed _ _ _ _ _ due_str) in H by done.
    by injection H as <- <-.
Qed.

Lemma process_assignments_raised (T : Z) (week_out : datetime) class_select
    (l : PaginatedList Assignment) (n : Z) s s' (e : exn) :
  dt_add (utc_now T) (timedelta_days 7) = Ok week_out ->
  process_assignments lib notion db (utc_now T) week_out class_select l n s
  = (s', Raised e) ->
  (exists a, a ∈ pl_items l /\ due_date_fault lib T a e (trace s')) \/
  pl_error l = Some e.
Proof.
  intros Hw. revert n s. induction l as [|a rest IH|e']; intros n s; simpl.
  - done.
  - intros H. bind_raised H.
    + apply IH in Hk as [(a' & Ha' & Hfault)|Herr]; [| by right].
      left. exists a'. split; [by right | done].
    + left. exists a. split; [by left |].
      by eapply process_assignment_raised.
  - intros [= _ ->]. by right.
Qed.

Lemma process_courses_raised (T : Z) (week_out : datetime)
    (courses : PaginatedList Course) s s' (e : exn) :
  dt_add (utc_now T) (timedelta_days 7) = Ok week_out ->
  process_courses lib notion db name_map (utc_now T) week_out courses s
  = (s', Raised e) ->
  (exists p,
     p ∈ candidates name_map courses /\
     due_date_fault lib T p.2 e (trace s')) \/
  e ∈ listing_errors name_map courses.
Proof.
  intros Hw. unfold listing_errors.
  revert s. induction courses as [|c rest IH|e']; intros s; simpl.
  - done.
  - intros H. rewrite candidates_cons. bind_raised H.
    + apply IH in Hk as [(p & Hp & Hfault)|Hin].
      * left. exists p. split; [| done]. apply elem_of_app. by right.
      * right. rewrite !elem_of_app in *. tauto.
    + destruct (name_map !! course_name c) as [class_select|] eqn:Hmap.
      * rewrite (process_course_mapped _ _ _ _ _ Hmap) in Hm.
        bind_raised Hm.
        -- unfold log in Hk. by rewrite emit_eq in Hk.
        -- apply (process_assignments_raised _ _ _ _ _ _ _ _ Hw) in Hm0
             as [(a & Ha & Hfault)|Herr].
           ++ left. exists (class_select, a). split; [| done].
              apply elem_of_app. left.
              apply elem_of_candidates. exists c.
              split; [by left |]. by split.
           ++ right. rewrite Herr, !elem_of_app. right. left. by left.
      * by rewrite (process_course_unmapped _ _ _ _ Hmap) in Hm.
  - intros [= _ ->]. right. by left.
Qed.

(** X18. What can end a run with an exception, and why.  Either a query
    of the baseline load raised it; or a page the load received has an
    ill-typed ["Canvas ID"] ([KeyError]); or the end of the window,
    [T + 7 days], is not representable ([OverflowError]); or the run
    died on the due date of an assignment of a mapped course, which was
    the one being checked when the trace ends: the due date does not
    parse ([ValueError]), or parses to a naive value ([TypeError]), or
    lies in the window while its end, 30 minutes later, is not
    representable ([OverflowError]); or the enumeration of the courses,
    or of the assignments of a mapped course, ends with the exception.
    There is no other way, for a store and a Canvas whose answers have
    the shapes given to them above. *)
Theorem what_ends_a_run (n0 : notion_state notion) (fuel : nat) (T : Z)
    (courses : PaginatedList Course) s' (e : exn) :
  run lib notion db name_map n0 fuel T courses = (s', Raised e) ->
  failed_queries (trace s') = [e] \/
  (e = KeyError "rich_text" /\ Exists ill_typed (pages_seen (trace s'))) \/
  (e = OverflowError /\
   dt_add (utc_now T) (timedelta_days 7) = Err OverflowError) \/
  (exists p,
     p ∈ candidates name_map courses /\
     due_date_fault lib T p.2 e (trace s')) \/
  e ∈ listing_errors name_map courses.
Proof.
  unfold run. intros Hrun.
  apply main_inv in Hrun as [[_ [=]]|[(e' & Hf & [= <-])|(sf & ids & Hf & Hp)]].
  - apply fetch_existing_spec in Hf as (evs & Htr & _ & _ & Ho).
    simpl in Htr. subst evs.
    destruct Ho as [[Hq _]|(-> & _ & Hex)]; [by left |]. right; left. done.
  - right; right.
    destruct (dt_add (utc_now T) (timedelta_days 7)) as [week_out|e'] eqn:Hw.
    2: { unfold sync_pass in Hp. rewrite Hw in Hp. injection Hp as _ <-.
         left. unfold dt_add in Hw. case_match; by simplify_eq. }
    right.
    rewrite (sync_pass_window _ _ _ _ Hw) in Hp. bind_raised Hp.
    + unfold log in Hk. by rewrite emit_eq in Hk.
    + by eapply process_courses_raised.
Qed.

End Properties.

(** ** The loader against the simulated store *)

Lemma scan_pages_well_typed (notion : NotionClient) (pages : list Page)
    (ids : gset string) (s : run_state notion) :
  Forall well_typed pages ->
  exists logs,
    Forall is_log logs /\
    scan_pages notion pages ids s =
    (add_events s logs,
     Done (list_to_set (omap canvas_id_of pages) ∪ ids)).
Proof.
  intros Hwt. revert ids s.
  induction Hwt as [|page pages Hpage _ IH]; intros ids s.
  - exists []. split; [done |]. simpl. rewrite add_events_nil.
    unfold ret. do 2 f_equal. set_solver.
  - simpl. unfold scan_page, canvas_id_of.
    destruct (properties page !! "Canvas ID") as [[[|run runs]|k]|] eqn:Hp.
    + rewrite bind_ret. apply IH.
    + rewrite bind_assoc. unfold log. rewrite bind_emit, bind_ret.
      destruct (IH ({[plain_text run]} ∪ ids)
                  (add_events s [EvLog DEBUG "Found existing Canvas ID: %s"
                                   [plain_text run]]))
        as (logs & Hlogs & ->).
      eexists (_ :: logs). split; last first.
      { rewrite add_events_app. do 2 f_equal. set_solver. }
      by constructor.
    + by destruct (Hpage k).
    + rewrite bind_ret. apply IH.
Qed.

Module SimLoaderFacts.

Import SimNotion SimLoader.

Lemma decode_encode (offset : nat) :
  decode_cursor (encode_cursor offset) = Some offset.
Proof.
  unfold decode_cursor, encode_cursor.
  rewrite NilEmpty.usu. cbn [fmap option_fmap option_map].
  f_equal. apply Unsigned.of_to.
Qed.

Lemma query_at (pages : list Page) (failures : list string)
    (data_source_id : string) (offset : nat) :
  query (mk_store pages failures None) data_source_id (cursor_at offset) 100
  = (mk_store pages failures None, Ok (slice pages offset 100)).
Proof.
  unfold query, cursor_at. simpl. destruct offset as [|n]; [done |].
  by rewrite decode_encode.
Qed.

Lemma cursors_from_S (offset count : nat) :
  cursors_from offset (S count)
  = (cursor_at offset, 100) :: cursors_from (offset + 100) count.
Proof.
  unfold cursors_from. simpl. rewrite Nat.add_0_r. f_equal.
  rewrite <- fmap_S_seq, <- list_fmap_compose. apply list_fmap_ext.
  intros _ j _. simpl. do 2 f_equal. lia.
Qed.

Lemma fetch_loop_sim (db : string) (pages : list Page)
    (failures : list string) :
  Forall well_typed pages ->
  forall (k offset fuel : nat) (ids : gset string) (batch : Z)
         (s : run_state client),
    notion_st s = mk_store pages failures None ->
    (k < fuel)%nat ->
    (length pages <= offset + 100 * S k)%nat ->
    (k = O \/ offset + 100 * k < length pages)%nat ->
    exists s',
      fetch_loop client db fuel ids (cursor_at offset) batch s =
      (s', Done (list_to_set (omap canvas_id_of (drop offset pages)) ∪ ids)) /\
      notion_st s' = notion_st s /\
      query_calls (trace s')
      = query_calls (trace s) ++ cursors_from offset (S k).
Proof.
  intros Hwt k. induction k as [|k IH];
    intros offset fuel ids batch s Hst Hfuel Hlen Hk;
    (destruct fuel as [|fuel]; [lia |]).
  - simpl. unfold log. rewrite bind_emit.
    unfold bind at 1, notion_query. simpl. rewrite Hst.
    rewrite (query_at pages failures db offset).
    unfold slice. change (Z.to_nat 100) with 100%nat. simpl.
    replace (offset + 100 <? length pages)%nat with false
      by (symmetry; apply Nat.ltb_ge; lia).
    simpl. rewrite bind_emit.
    rewrite take_ge by (rewrite length_drop; lia).
    match goal with
    | |- context [bind _ (scan_pages _ _ _) _ ?s0] =>
        destruct (scan_pages_well_typed client (drop offset pages) ids s0)
          as (logs & Hlogs & Hscan)
    end.
    { by apply Forall_drop. }
    unfold bind at 1. rewrite Hscan. rewrite bind_emit. unfold ret.
    eexists. split; [reflexivity |]. split; [done |]. simpl.
    unfold query_calls. rewrite !omap_app. simpl.
    destruct (log_events_projections logs Hlogs) as (_ & _ & _ & _ & _ & Hq & _).
    unfold query_calls in Hq. rewrite Hq. simpl.
    rewrite !app_nil_r. unfold cursors_from. simpl. by rewrite Nat.add_0_r.
  - simpl. unfold log. rewrite bind_emit.
    unfold bind at 1, notion_query. simpl. rewrite Hst.
    rewrite (query_at pages failures db offset).
    unfold slice. change (Z.to_nat 100) with 100%nat. simpl.
    replace (offset + 100 <? length pages)%nat with true
      by (symmetry; apply Nat.ltb_lt; lia).
    simpl. rewrite bind_emit.
    match goal with
    | |- context [bind _ (scan_pages _ ?ps _) _ ?s0] =>
        destruct (scan_pages_well_typed client ps ids s0)
          as (logs & Hlogs & Hscan)
    end.
    { by apply Forall_take, Forall_drop. }
    unfold bind at 1. rewrite Hscan.
    match goal with
    | |- context [fetch_loop _ _ _ ?ids1 _ ?b1 ?s1] =>
        destruct (IH (offset + 100)%nat fuel ids1 b1 s1)
          as (s' & Hloop & Hst' & Hq')
    end; [done | lia | lia | lia |].
    { replace (cursor_at (offset + 100))
        with (Some (encode_cursor (offset + 100))) in Hloop.
      2: { unfold cursor_at. by destruct (offset + 100)%nat eqn:?; [lia |]. }
      exists s'. rewrite Hloop. split_and!.
      - do 2 f_equal.
        assert (Hsplit : omap canvas_id_of (drop offset pages)
                         = omap canvas_id_of (take 100 (drop offset pages))
                           ++ omap canvas_id_of (drop (offset + 100) pages)).
        { by rewrite <- omap_app, <- drop_drop, take_drop. }
        rewrite Hsplit, list_to_set_app_L. set_solver.
      - by rewrite Hst'.
      - rewrite Hq', cursors_from_S. simpl.
        unfold query_calls. rewrite !omap_app. simpl.
        destruct (log_events_projections logs Hlogs)
          as (_ & _ & _ & _ & _ & Hq & _).
        unfold query_calls in Hq. rewrite Hq. simpl.
        rewrite <- !app_assoc. simpl. by rewrite !cursors_from_S. }
Qed.

End SimLoaderFacts.

Lemma omap_length_total {A B : Type} (f : A -> option B) (l : list A) :
  Forall (fun x => is_Some (f x)) l -> length (omap f l) = length l.
Proof.
  induction 1 as [|x l [y Hy] _ IH]; [done |].
  simpl. rewrite Hy. simpl. f_equal. exact IH.
Qed.

(** C4. Against a healthy store holding [pages], with fuel for every
    page of results, the loader returns the Canvas id of every page that
    has one.  It asks for 100 pages at a time, first without a cursor and
    then with the cursor the store returned, until the store reports no
    more: 250 pages take exactly three queries and yield 250 ids when
    all pages carry distinct ids; an empty store takes one query and
    yields the empty set.  Whatever the client, the page size of every
    query is 100. *)
Theorem loader_reads_every_page (db : string) (pages : list Page)
    (failures : list string) (fuel : nat) :
  Forall well_typed pages ->
  (length pages / 100 < fuel)%nat ->
  exists s',
    fetch_existing_canvas_ids SimNotion.client db fuel
      (initial_state SimNotion.client (SimNotion.mk_store pages failures None))
    = (s', Done (list_to_set (omap canvas_id_of pages))) /\
    query_calls (trace s')
    = SimLoader.cursors_from 0 (queries_needed (length pages)) /\
    (length pages = 250%nat -> length (query_calls (trace s')) = 3%nat) /\
    (length pages = 250%nat ->
     Forall (fun page => is_Some (canvas_id_of page)) pages ->
     NoDup (omap canvas_id_of pages) ->
     size (list_to_set (omap canvas_id_of pages) : gset string) = 250%nat) /\
    (pages = [] ->
     (list_to_set (omap canvas_id_of pages) : gset string) = ∅ /\
     length (query_calls (trace s')) = 1%nat) /\
    (forall (notion : NotionClient) (n0 : notion_state notion) (fuel' : nat)
            s1 o1,
       fetch_existing_canvas_ids notion db fuel' (initial_state notion n0)
       = (s1, o1) ->
       Forall (fun q => q.2 = 100) (query_calls (trace s1))).
Proof.
  intros Hwt Hfuel.
  pose proof (Nat.div_mod_eq (length pages - 1) 100) as Hdiv.
  pose proof (Nat.mod_upper_bound (length pages - 1) 100 ltac:(lia)) as Hmod.
  pose proof (Nat.div_mod_eq (length pages) 100) as Hdiv'.
  pose proof (Nat.mod_upper_bound (length pages) 100 ltac:(lia)) as Hmod'.
  destruct (SimLoaderFacts.fetch_loop_sim db pages failures Hwt
              ((length pages - 1) / 100) 0 fuel ∅ 0
              (add_events
                 (initial_state SimNotion.client
                    (SimNotion.mk_store pages failures None))
                 [EvLog INFO "Fetching existing Canvas IDs from Notion" []]))
    as (s1 & Hloop & _ & Hq); [done | | lia | lia |].
  { apply Nat.Div0.div_lt_upper_bound.
    assert (length pages < 100 * fuel + 100)%nat; [| lia].
    destruct fuel; [lia |].
    pose proof (Nat.div_mod_eq (length pages) 100). nia. }
  unfold fetch_existing_canvas_ids, log. rewrite bind_emit.
  unfold bind at 1. change (SimLoader.cursor_at 0) with (@None string) in Hloop.
  rewrite Hloop. rewrite bind_emit. unfold ret.
  eexists. split.
  { simpl. do 2 f_equal. set_solver. }
  assert (Hcalls : query_calls (trace s1 ++
            [EvLog INFO "Loaded %d existing Canvas IDs"
               [pretty (Z.of_nat (size (list_to_set (omap canvas_id_of
                  (drop 0 pages)) ∪ (∅ : gset string))))]])
          = SimLoader.cursors_from 0 (queries_needed (length pages))).
  { unfold query_calls in *. rewrite omap_app, Hq. simpl.
    by rewrite app_nil_r. }
  simpl. rewrite Hcalls. split_and!.
  - done.
  - intros ->. done.
  - intros Hlen Hall Hnd. rewrite size_list_to_set by done.
    by rewrite omap_length_total.
  - intros ->. split; [done |]. done.
  - intros notion n0 fuel' s2 o2 Hf.
    apply fetch_existing_canvas_ids_steps, load_steps_trace in Hf
      as (_ & evs & Htr & Hevs).
    simpl in Htr. subst evs.
    by eapply load_events_projections in Hevs as (_ & _ & ?).
Qed.

Lemma eligible_intro (lib : DatetimeLib) (now week_out : datetime)
    (a : Assignment) (due_str : string) (due_at end_at : datetime) :
  assignment_due_at a = Some due_str -> due_str <> EmptyString ->
  fromisoformat lib (str_replace "Z" "+00:00" due_str) = Some due_at ->
  window_check now due_at week_out = Ok true ->
  dt_add due_at (timedelta_minutes 30) = Ok end_at ->
  eligible lib now week_out a.
Proof.
  intros Hdue Hne Hparse Hwin Hend. exists due_at, end_at.
  split; [| done]. by exists due_str.
Defined.

Ltac eligible_by_evaluation :=
  eapply eligible_intro;
  [reflexivity | discriminate | vm_compute; reflexivity
  | vm_compute; reflexivity | vm_compute; reflexivity].

(** ** C1: a quiz that Canvas yields twice *)

(** The quiz passes the due-date and window filters both times, its id is
    not in the baseline, and yet two create calls are made for it: the
    first one failed. *)
Lemma dedup_single_call_counterexample :
  eligible IsoSeconds.lib (utc_now T0) week_out0 quiz7 /\
  quiz_twice_run.2 = Done tt /\
  canvas_ids (create_calls (trace quiz_twice_run.1)) = ["7"; "1"; "7"] /\
  canvas_ids (created (trace quiz_twice_run.1)) = ["1"; "7"] /\
  ~ NoDup (canvas_ids (create_calls (trace quiz_twice_run.1))).
Proof.
  split; [eligible_by_evaluation |].
  split; [vm_compute; reflexivity |].
  split; [vm_compute; reflexivity |].
  split; [vm_compute; reflexivity |].
  assert (Hcalls : canvas_ids (create_calls (trace quiz_twice_run.1))
                   = ["7"; "1"; "7"]) by (vm_compute; reflexivity).
  rewrite Hcalls. intros Hnd. apply NoDup_cons in Hnd as [Hnotin _].
  apply Hnotin. right. left.
Qed.

Lemma dedup_within_run_witness :
  quiz_twice_run = (quiz_twice_run.1, quiz_twice_run.2) /\
  NoDup (prop_Canvas_ID <$> created (trace quiz_twice_run.1)) /\
  no_call_after_success (trace quiz_twice_run.1).
Proof.
  split; [apply surjective_pairing |].
  pose proof (dedup_within_run IsoSeconds.lib SimNotion.client db name_map
                (SimNotion.mk_store [] ["7"] None) 5 T0 quiz_twice
                quiz_twice_run.1 quiz_twice_run.2
                (surjective_pairing quiz_twice_run)) as (Hnd & Hno & _).
  by split.
Defined.

(** ** C2: the ends of the window *)

Lemma window_is_inclusive_witness :
  let f := fetch_existing_canvas_ids SimNotion.client db 5
             (initial_state SimNotion.client (SimNotion.holding [])) in
  let r := run_with (SimNotion.holding []) 5 T0 window_ends in
  f = (f.1, Done ∅) /\
  r = (r.1, Done tt) /\
  canvas_ids (create_calls (trace r.1)) = ["20"; "21"] /\
  forall req, req ∈ create_calls (trace r.1) ->
    exists p d i end_at,
      p ∈ candidates name_map window_ends /\
      due_instant IsoSeconds.lib p.2 d i /\
      T0 <= i <= T0 + timedelta_days 7 /\
      dt_add d (timedelta_minutes 30) = Ok end_at /\
      req = build_request IsoSeconds.lib db p.2 p.1 d end_at
              (str_of_int (assignment_id p.2)).
Proof.
  intros f r.
  assert (Hf : f = (f.1, Done ∅)).
  { rewrite (surjective_pairing f) at 1. f_equal; vm_compute; reflexivity. }
  assert (Hr : r = (r.1, Done tt)).
  { rewrite (surjective_pairing r) at 1. f_equal; vm_compute; reflexivity. }
  split; [exact Hf |]. split; [exact Hr |].
  split; [vm_compute; reflexivity |].
  exact (proj1 (window_is_inclusive IsoSeconds.lib SimNotion.client db
                  name_map (SimNotion.holding []) 5 T0 window_ends f.1 ∅
                  r.1 (Done tt) Hf Hr)).
Defined.

(** The loop body on the four assignments, one by one, from the state
    the load leaves behind. *)
Example loop_body_at_the_ends_of_the_window :
  let s := initial_state SimNotion.client (SimNotion.holding []) in
  let body a :=
    process_assignment IsoSeconds.lib SimNotion.client db (utc_now T0)
      week_out0 "Math" a s in
  canvas_ids (create_calls (trace (body early).1)) = [] /\
  canvas_ids (create_calls (trace (body at_open).1)) = ["20"] /\
  canvas_ids (create_calls (trace (body at_close).1)) = ["21"] /\
  canvas_ids (create_calls (trace (body late).1)) = [] /\
  last (trace (body early).1)
  = Some (EvLog DEBUG "Assignment outside window (due %s), skipping"
            ["2023-12-31T23:59:59+00:00"]) /\
  last (trace (body late).1)
  = Some (EvLog DEBUG "Assignment outside window (due %s), skipping"
            ["2024-01-08T00:00:01+00:00"]).
Proof. vm_compute. by repeat split. Qed.

(** ** C3: three homeworks, the second create fails *)

Example three_homeworks_second_fails :
  let r := run_with second_fails 5 T0 (paginated [math]) in
  r.2 = Done tt /\
  canvas_ids (create_calls (trace r.1)) = ["1"; "2"; "3"] /\
  canvas_ids (created (trace r.1)) = ["1"; "3"] /\
  logged_exceptions (trace r.1) = [APIResponseError "create failed"].
Proof. vm_compute. by repeat split. Qed.

Lemma create_failure_is_isolated_witness :
  fetch_existing_canvas_ids SimNotion.client db 5
    (initial_state SimNotion.client second_fails)
  = (second_fails_loaded, Done ∅) /\
  dt_add (utc_now T0) (timedelta_days 7) = Ok week_out0 /\
  name_map !! course_name math = Some "Math" /\
  Forall (eligible IsoSeconds.lib (utc_now T0) week_out0) [hw1; hw2; hw3] /\
  NoDup (assignment_id <$> [hw1; hw2; hw3]) /\
  exists s',
    run IsoSeconds.lib SimNotion.client db name_map second_fails 5 T0
      (paginated [math]) = (s', Done tt) /\
    Forall2 (request_of IsoSeconds.lib db (utc_now T0) week_out0 "Math")
      [hw1; hw2; hw3] (create_calls (trace s')) /\
    logged_exceptions (trace s') = (failed_creates (trace s')).*2 /\
    existing_canvas_ids s' =
      list_to_set (prop_Canvas_ID <$> created (trace s')) ∪ ∅.
Proof.
  assert (Hf : fetch_existing_canvas_ids SimNotion.client db 5
                 (initial_state SimNotion.client second_fails)
               = (second_fails_loaded, Done ∅)) by (vm_compute; reflexivity).
  assert (Hw : dt_add (utc_now T0) (timedelta_days 7) = Ok week_out0)
    by (vm_compute; reflexivity).
  assert (Hmap : name_map !! course_name math = Some "Math") by reflexivity.
  assert (Hel : Forall (eligible IsoSeconds.lib (utc_now T0) week_out0)
                  [hw1; hw2; hw3])
    by (repeat constructor; eligible_by_evaluation).
  assert (Hnd : NoDup (assignment_id <$> [hw1; hw2; hw3]))
    by (apply (bool_decide_unpack _); vm_compute; reflexivity).
  split; [exact Hf |]. split; [exact Hw |]. split; [exact Hmap |].
  split; [exact Hel |]. split; [exact Hnd |].
  apply (create_failure_is_isolated IsoSeconds.lib SimNotion.client db
           name_map second_fails 5 T0 week_out0 math "Math" [hw1; hw2; hw3]
           second_fails_loaded ∅ Hf Hw Hmap eq_refl Hel Hnd).
  repeat constructor; apply not_elem_of_empty.
Defined.

(** ** C4: 250 pages, three queries *)

Lemma well_typed_page_with_id (canvas_id : string) :
  well_typed (SimNotion.page_with_id canvas_id).
Proof. intros type. unfold SimNotion.page_with_id. simpl. done. Defined.

Example loader_250_pages :
  let r := fetch_existing_canvas_ids SimNotion.client db 3
             (initial_state SimNotion.client (SimNotion.holding pages250)) in
  query_calls (trace r.1) = [(None, 100); (Some "100", 100); (Some "200", 100)]
  /\ match r.2 with
     | Done ids => size ids = 250%nat
     | _ => False
     end.
Proof. vm_compute. by split. Qed.

Lemma loader_reads_every_page_witness :
  Forall well_typed pages250 /\
  (length pages250 / 100 < 3)%nat /\
  exists s',
    fetch_existing_canvas_ids SimNotion.client db 3
      (initial_state SimNotion.client (SimNotion.mk_store pages250 [] None))
    = (s', Done (list_to_set (omap canvas_id_of pages250))) /\
    length (query_calls (trace s')) = 3%nat.
Proof.
  assert (Hwt : Forall well_typed pages250).
  { apply Forall_fmap, Forall_forall. intros n _.
    apply well_typed_page_with_id. }
  assert (Hfuel : (length pages250 / 100 < 3)%nat)
    by (vm_compute; lia).
  split; [exact Hwt |]. split; [exact Hfuel |].
  destruct (loader_reads_every_page db pages250 [] 3 Hwt Hfuel)
    as (s' & Hrun & _ & Hthree & _).
  exists s'. split; [exact Hrun |]. apply Hthree. vm_compute. reflexivity.
Defined.

(** ** C6: a course that is not mapped *)

Lemma unmapped_course_is_skipped_witness :
  name_map !! course_name art = None /\
  let r := run_with (SimNotion.holding []) 5 T0 (paginated [art; math]) in
  course_name art ∉ fetched_courses (trace r.1).
Proof.
  assert (Hmap : name_map !! course_name art = None) by reflexivity.
  split; [exact Hmap |]. intros r.
  destruct (unmapped_course_is_skipped IsoSeconds.lib SimNotion.client db
              name_map art Hmap) as (_ & Hrun & _).
  by destruct (Hrun (SimNotion.holding []) 5%nat T0 (paginated [art; math])
                 r.1 r.2 (surjective_pairing r)).
Defined.

Example only_the_mapped_course_is_fetched :
  let r := run_with (SimNotion.holding []) 5 T0 (paginated [art; math]) in
  fetched_courses (trace r.1) = ["Math 101"] /\
  canvas_ids (create_calls (trace r.1)) = ["1"; "2"; "3"].
Proof. vm_compute. by split. Qed.

(** ** C7: the second query of the load fails *)

Lemma baseline_failure_aborts_witness :
  let r := run_with flaky 5 T0 (paginated [math]) in
  r = (r.1, r.2) /\
  APIResponseError "query failed" ∈ failed_queries (trace r.1) /\
  r.2 = Raised (APIResponseError "query failed") /\
  create_calls (trace r.1) = [] /\
  canvas_calls (trace r.1) = [] /\
  existing_canvas_ids r.1 = ∅.
Proof.
  intros r.
  assert (Hq : APIResponseError "query failed" ∈ failed_queries (trace r.1)).
  { assert (Hc : failed_queries (trace r.1)
                 = [APIResponseError "query failed"])
      by (vm_compute; reflexivity).
    rewrite Hc. by left. }
  split; [apply surjective_pairing |]. split; [exact Hq |].
  exact (baseline_failure_aborts IsoSeconds.lib SimNotion.client db name_map
           flaky 5 T0 (paginated [math]) r.1 r.2
           (APIResponseError "query failed") (surjective_pairing r) Hq).
Defined.

(** ** C8: due dates with and without the Z *)

Lemma due_date_handling_witness :
  let r := run_with (SimNotion.holding []) 5 T0 reading_and_homework in
  let s := initial_state SimNotion.client (SimNotion.holding []) in
  r = (r.1, r.2) /\
  canvas_ids (create_calls (trace r.1)) = ["1"] /\
  prop_Date_start <$> create_calls (trace r.1) = ["2024-01-03T10:00:00+00:00"] /\
  process_assignment IsoSeconds.lib SimNotion.client db (utc_now T0)
    week_out0 "Math" undated s
  = (add_events s [checking_record undated; no_due_date_record], Done tt) /\
  str_replace "Z" "+00:00" ("2024-01-03T10:00:00" +:+ "Z")
  = "2024-01-03T10:00:00" +:+ "+00:00".
Proof.
  intros r s.
  destruct (due_date_handling IsoSeconds.lib SimNotion.client db name_map
              (SimNotion.holding []) 5 T0 reading_and_homework r.1 r.2
              (surjective_pairing r)) as (_ & Hbody & Hsuffix & Hplain).
  destruct (Hbody (utc_now T0) week_out0 "Math" undated s) as (Hskip & _).
  split; [exact (surjective_pairing r) |].
  split; [vm_compute; reflexivity |].
  split; [vm_compute; reflexivity |].
  split; [exact (Hskip eq_refl) |].
  rewrite Hsuffix. by rewrite Hplain.
Defined.

Example z_suffix_is_parsed_as_utc :
  fromisoformat IsoSeconds.lib
    (str_replace "Z" "+00:00" "2024-01-03T10:00:00Z")
  = Some (mk_datetime (T0 + 2 * usec_per_day + 10 * 3600 * usec_per_second)
            (Some 0)).
Proof. vm_compute. reflexivity. Qed.

(** ** C5: the pass run twice *)

Lemma due_in_window_intro (lib : DatetimeLib) (now week_out : datetime)
    (a : Assignment) (due_str : string) (d : datetime) :
  assignment_due_at a = Some due_str -> due_str <> EmptyString ->
  fromisoformat lib (str_replace "Z" "+00:00" due_str) = Some d ->
  window_check now d week_out = Ok true ->
  due_in_window lib now week_out a d.
Proof. intros. by exists due_str. Defined.

Lemma second_run_creates_nothing_witness :
  first_run.2 = Done tt /\
  failed_creates (trace first_run.1) = [] /\
  canvas_ids (created (trace first_run.1)) = ["1"; "2"] /\
  (fetch_existing_canvas_ids SimNotion.client db 5
     (initial_state SimNotion.client (notion_st first_run.1))).2
  = Done (list_to_set ["1"; "2"]) /\
  create_calls (trace second_run.1) = [].
Proof.
  assert (Hdone : first_run.2 = Done tt) by (vm_compute; reflexivity).
  assert (Hok : failed_creates (trace first_run.1) = [])
    by (vm_compute; reflexivity).
  assert (Hcreated : canvas_ids (created (trace first_run.1)) = ["1"; "2"])
    by (vm_compute; reflexivity).
  assert (Hbase2 : (fetch_existing_canvas_ids SimNotion.client db 5
                      (initial_state SimNotion.client (notion_st first_run.1))).2
                   = Done (list_to_set ["1"; "2"]))
    by (vm_compute; reflexivity).
  split; [exact Hdone |]. split; [exact Hok |]. split; [exact Hcreated |].
  split; [exact Hbase2 |].
  eapply (second_run_creates_nothing IsoSeconds.lib SimNotion.client db
            name_map (SimNotion.holding []) (notion_st first_run.1) 5 5 T0 T1
            two_homeworks _ _ ∅ (list_to_set ["1"; "2"]) first_run.1
            second_run.1 second_run.2).
  - rewrite (surjective_pairing (fetch_existing_canvas_ids _ _ _ _)).
    f_equal; vm_compute; reflexivity.
  - rewrite <- Hdone. apply surjective_pairing.
  - exact Hok.
  - rewrite (surjective_pairing (fetch_existing_canvas_ids _ _ _ _)).
    f_equal; exact Hbase2.
  - apply empty_subseteq.
  - intros r Hr. apply (list_elem_of_fmap_2 prop_Canvas_ID) in Hr.
    fold (canvas_ids (created (trace first_run.1))) in Hr.
    rewrite Hcreated in Hr. by apply elem_of_list_to_set.
  - intros week_out1 week_out2 c a d2 Hw1 Hw2 Hc Ha _.
    vm_compute in Hw1. injection Hw1 as <-.
    apply list_elem_of_singleton in Hc as ->.
    simpl in Ha. apply elem_of_cons in Ha as [->|Ha];
      [| apply list_elem_of_singleton in Ha as ->];
      eexists; (eapply due_in_window_intro;
        [reflexivity | discriminate | vm_compute; reflexivity
        | vm_compute; reflexivity]).
  - exact (surjective_pairing second_run).
Defined.

(** The claim without those conditions fails in two ways.  First: the
    create call for homework 2 fails in the first run; the second run,
    at the same instant, loads a baseline that holds every id the first
    run created, and calls create for homework 2.  Second: the project
    is due one second after the first run's window closes; an hour
    later it is inside the window, and the second run creates it. *)
Lemma second_run_creates_nothing_counterexample :
  (let r1 := run_with (SimNotion.mk_store [] ["2"] None) 5 T0 two_homeworks in
   let r2 := run_with (notion_st r1.1) 5 T0 two_homeworks in
   r1.2 = Done tt /\
   canvas_ids (created (trace r1.1)) = ["1"] /\
   (fetch_existing_canvas_ids SimNotion.client db 5
      (initial_state SimNotion.client (notion_st r1.1))).2
   = Done (list_to_set ["1"]) /\
   canvas_ids (create_calls (trace r2.1)) = ["2"]) /\
  (let courses := paginated [course 101 "Math 101" (paginated [late])] in
   let r1 := run_with (SimNotion.holding []) 5 T0 courses in
   let r2 := run_with (notion_st r1.1) 5 T1 courses in
   r1.2 = Done tt /\
   canvas_ids (created (trace r1.1)) = [] /\
   failed_creates (trace r1.1) = [] /\
   canvas_ids (create_calls (trace r2.1)) = ["11"]).
Proof. split; vm_compute; by repeat split. Qed.

(** ** C9: the quiz again, one loop *)

Lemma failed_create_is_retried_witness :
  existing_canvas_ids after_quiz = existing_canvas_ids before_quiz /\
  exists req1 req2 calls_between calls_after,
    create_calls
      (trace (process_assignments IsoSeconds.lib SimNotion.client db
                (utc_now T0) week_out0 "Math"
                (PLCons quiz7 (pl_app [hw1] (PLCons quiz7 PLNil))) 0
                before_quiz).1)
    = create_calls (trace before_quiz) ++ req1 :: calls_between
      ++ req2 :: calls_after /\
    prop_Canvas_ID req1 = "7" /\ prop_Canvas_ID req2 = "7".
Proof.
  assert (Hel : eligible IsoSeconds.lib (utc_now T0) week_out0 quiz7)
    by eligible_by_evaluation.
  destruct (failed_create_is_retried IsoSeconds.lib SimNotion.client db
              (utc_now T0) week_out0 "Math" quiz7 quiz7 [hw1] PLNil 0
              (APIResponseError "create failed")
              before_quiz after_quiz after_homework 2 Hel)
    as [Hsame Hretry].
  - apply not_elem_of_empty.
  - intros req (d & e & _ & _ & ->). reflexivity.
  - rewrite (surjective_pairing (process_assignment _ _ _ _ _ _ _ _)).
    f_equal; vm_compute; reflexivity.
  - repeat constructor. discriminate.
  - rewrite (surjective_pairing (process_assignments _ _ _ _ _ _ _ _ _)).
    f_equal; vm_compute; reflexivity.
  - exact Hel.
  - reflexivity.
  - split; [exact Hsame |].
    destruct (Hretry _ _ (surjective_pairing _))
      as (req1 & req2 & cb & ca & Hcalls & Hid1 & Hid2 & _).
    exists req1, req2, cb, ca. split; [exact Hcalls |].
    split; [rewrite Hid1 | rewrite Hid2]; vm_compute; reflexivity.
Defined.

(** ** C10: a due date that does not parse *)

Lemma bad_due_date_aborts_run_witness :
  assignment_due_at essay = Some "tomorrow" /\
  due_error IsoSeconds.lib "tomorrow" = Some ValueError /\
  exists s',
    run_with (SimNotion.holding []) 5 T0 (PLCons essay_first (paginated [physics]))
    = (s', Raised ValueError) /\
    create_calls (trace s') = [].
Proof.
  split; [reflexivity |].
  assert (Herr : due_error IsoSeconds.lib "tomorrow" = Some ValueError)
    by (vm_compute; reflexivity).
  split; [exact Herr |].
  destruct (bad_due_date_aborts_run IsoSeconds.lib SimNotion.client db
              name_map (SimNotion.holding []) 5 T0 week_out0 essay_first
              "Math" essay (paginated [hw1]) (paginated [physics])
              (fetch_existing_canvas_ids SimNotion.client db 5
                 (initial_state SimNotion.client (SimNotion.holding []))).1
              ∅ "tomorrow" ValueError)
    as (s' & Hrun & Hcalls & _).
  - rewrite (surjective_pairing (fetch_existing_canvas_ids _ _ _ _)).
    f_equal; vm_compute; reflexivity.
  - vm_compute. reflexivity.
  - reflexivity.
  - reflexivity.
  - reflexivity.
  - discriminate.
  - exact Herr.
  - exists s'. split; [exact Hrun | exact Hcalls].
Defined.

Example naive_due_date_aborts_run :
  let r := run_with (SimNotion.holding []) 5 T0
             (paginated [course 101 "Math 101" (paginated [naive; hw1]);
                         physics]) in
  r.2 = Raised TypeError /\ create_calls (trace r.1) = [].
Proof. vm_compute. by split. Qed.

(** * The further properties, exercised *)

(** ** The loader *)

Lemma loader_follows_cursors_witness :
  let r := fetch_existing_canvas_ids SimNotion.client db 3
             (initial_state SimNotion.client (SimNotion.holding pages250)) in
  r = (r.1, r.2) /\
  follows_cursors None (query_results (trace r.1)) /\
  (query_results (trace r.1)).*1 = [None; Some "100"; Some "200"].
Proof.
  intros r. split; [exact (surjective_pairing r) |].
  destruct (loader_follows_cursors SimNotion.client db
              (SimNotion.holding pages250) 3 r.1 r.2 (surjective_pairing r))
    as (Hfollow & _ & _).
  split; [exact Hfollow |]. vm_compute. reflexivity.
Defined.

Lemma loader_collects_ids_witness :
  let r := fetch_existing_canvas_ids SimNotion.client db 3
             (initial_state SimNotion.client
                (SimNotion.holding assorted_pages)) in
  r = (r.1, Done (list_to_set ["41"; "42"])) /\
  omap canvas_id_of (pages_seen (trace r.1)) = ["41"; "42"; "41"] /\
  last (trace r.1) = Some (EvLog INFO "Loaded %d existing Canvas IDs" ["2"]).
Proof.
  intros r.
  assert (Hr : r = (r.1, Done (list_to_set ["41"; "42"]))).
  { rewrite (surjective_pairing r) at 1. f_equal; vm_compute; reflexivity. }
  split; [exact Hr |].
  destruct (loader_collects_ids SimNotion.client db
              (SimNotion.holding assorted_pages) 3 r.1
              (list_to_set ["41"; "42"]) Hr) as (_ & _ & _ & Hlast).
  split; [vm_compute; reflexivity | exact Hlast].
Defined.

Lemma ill_typed_page_aborts_witness :
  let r := run_with mistyped 5 T0 (paginated [math]) in
  r = (r.1, r.2) /\
  numbered_page ∈ pages_seen (trace r.1) /\
  ill_typed numbered_page /\
  r.2 = Raised (KeyError "rich_text") /\
  create_calls (trace r.1) = [].
Proof.
  intros r.
  assert (Hin : numbered_page ∈ pages_seen (trace r.1)).
  { assert (Hp : pages_seen (trace r.1)
                 = [SimNotion.page_with_id "1"; numbered_page;
                    SimNotion.page_with_id "3"])
      by (vm_compute; reflexivity).
    rewrite Hp. right. left. }
  assert (Hill : ill_typed numbered_page) by (by exists "number").
  split; [exact (surjective_pairing r) |].
  split; [exact Hin |]. split; [exact Hill |].
  destruct (ill_typed_page_aborts IsoSeconds.lib SimNotion.client db name_map
              mistyped 5 T0 (paginated [math]) r.1 r.2 numbered_page
              (surjective_pairing r) Hin Hill) as (Ho & Hc & _).
  by split.
Defined.

Lemma loader_has_no_bound_witness :
  exists s',
    run IsoSeconds.lib LostCursor.client db name_map
      (SimNotion.holding pages250) 7 T0 (paginated [math])
    = (s', OutOfFuel) /\
    length (query_calls (trace s')) = 7%nat /\
    canvas_calls (trace s') = [] /\ create_calls (trace s') = [].
Proof.
  apply (loader_has_no_bound IsoSeconds.lib LostCursor.client db name_map
           (fun n c => n = SimNotion.holding pages250 /\ c = None)
           (SimNotion.holding pages250)).
  - split; reflexivity.
  - intros n c [-> ->].
    exists (SimNotion.holding pages250),
      {| results := Some (take 100 pages250); has_more := Some true;
         next_cursor := None |}.
    split.
    { change (data_sources_query LostCursor.client
                (SimNotion.holding pages250) db None 100)
        with (LostCursor.query (SimNotion.mk_store pages250 [] None) db
                (SimLoader.cursor_at 0) 100).
      unfold LostCursor.query.
      rewrite (SimLoaderFacts.query_at pages250 [] db 0).
      do 3 f_equal; vm_compute; reflexivity. }
    split; [reflexivity |]. split; [| split; reflexivity].
    change (Forall well_typed (take 100 pages250)).
    apply Forall_take, Forall_fmap, Forall_forall. intros x _.
    apply well_typed_page_with_id.
Defined.

Lemma loader_returns_witness :
  let resps := [SimNotion.slice pages250 0 100;
                SimNotion.slice pages250 100 100;
                SimNotion.slice pages250 200 100] in
  answers SimNotion.client db (SimNotion.holding pages250) None resps /\
  exists s',
    fetch_existing_canvas_ids SimNotion.client db 3
      (initial_state SimNotion.client (SimNotion.holding pages250))
    = (s', Done (list_to_set (omap canvas_id_of pages250))) /\
    (query_results (trace s')).*1 = [None; Some "100"; Some "200"].
Proof.
  intros resps.
  assert (Hc1 : next_cursor (SimNotion.slice pages250 0 100)
                = SimLoader.cursor_at 100) by (vm_compute; reflexivity).
  assert (Hc2 : next_cursor (SimNotion.slice pages250 100 100)
                = SimLoader.cursor_at 200) by (vm_compute; reflexivity).
  assert (Hans : answers SimNotion.client db (SimNotion.holding pages250)
                   None resps).
  { exists (SimNotion.holding pages250).
    split; [exact (SimLoaderFacts.query_at pages250 [] db 0) |].
    split; [vm_compute; reflexivity |].
    exists (SimNotion.holding pages250). rewrite Hc1.
    split; [exact (SimLoaderFacts.query_at pages250 [] db 100) |].
    split; [vm_compute; reflexivity |].
    exists (SimNotion.holding pages250). rewrite Hc2.
    split; [exact (SimLoaderFacts.query_at pages250 [] db 200) |].
    vm_compute. discriminate. }
  assert (Hpages : resps ≫= (fun resp => default [] (results resp)) = pages250)
    by (vm_compute; reflexivity).
  split; [exact Hans |].
  destruct (loader_returns SimNotion.client db (SimNotion.holding pages250) 3
              resps Hans) as (s' & Hrun & Hqs).
  - rewrite Hpages. apply Forall_fmap, Forall_forall. intros x _.
    apply well_typed_page_with_id.
  - simpl. lia.
  - exists s'. rewrite Hpages in Hrun. split; [exact Hrun |].
    rewrite Hqs. vm_compute. reflexivity.
Defined.

(** ** The load and the pass *)

Lemma notion_is_queried_first_witness :
  first_run = (first_run.1, first_run.2) /\
  exists loading syncing,
    trace first_run.1 = loading ++ syncing /\
    length (query_calls loading) = 1%nat /\
    query_calls syncing = [] /\
    canvas_ids (create_calls syncing) = ["1"; "2"].
Proof.
  split; [exact (surjective_pairing first_run) |].
  destruct (notion_is_queried_first IsoSeconds.lib SimNotion.client db
              name_map (SimNotion.holding []) 5 T0 two_homeworks
              first_run.1 first_run.2 (surjective_pairing first_run))
    as (loading & syncing & Htr & Hload & Hc & _ & Hq & _).
  exists loading, syncing. split; [exact Htr |].
  split; [rewrite Hload; vm_compute; reflexivity |].
  split; [exact Hq |].
  assert (Hall : canvas_ids (create_calls (trace first_run.1)) = ["1"; "2"])
    by (vm_compute; reflexivity).
  rewrite Htr in Hall. unfold create_calls in *.
  rewrite omap_app, Hc in Hall. exact Hall.
Defined.

Lemma id_set_is_baseline_plus_created_witness :
  let f := fetch_existing_canvas_ids SimNotion.client db 5
             (initial_state SimNotion.client (SimNotion.holding [])) in
  f = (f.1, Done ∅) /\
  first_run = (first_run.1, first_run.2) /\
  existing_canvas_ids first_run.1 =
  ∅ ∪ list_to_set (prop_Canvas_ID <$> created (trace first_run.1)).
Proof.
  intros f.
  assert (Hf : f = (f.1, Done ∅)).
  { rewrite (surjective_pairing f) at 1. f_equal; vm_compute; reflexivity. }
  split; [exact Hf |]. split; [exact (surjective_pairing first_run) |].
  exact (id_set_is_baseline_plus_created IsoSeconds.lib SimNotion.client db
           name_map (SimNotion.holding []) 5 T0 two_homeworks f.1 ∅
           first_run.1 first_run.2 Hf (surjective_pairing first_run)).
Defined.


Lemma every_due_assignment_is_accounted_for_witness :
  let r := run_with second_fails 5 T0 (paginated [math]) in
  r = (r.1, Done tt) /\
  due_in_window IsoSeconds.lib (utc_now T0) week_out0 hw2
    (mk_datetime (T0 + 3 * usec_per_day + 10 * 3600 * usec_per_second)
       (Some 0)) /\
  ("2" ∈ (∅ : gset string) \/
   (exists req, req ∈ created (trace r.1) /\ prop_Canvas_ID req = "2") \/
   (exists req e, (req, e) ∈ failed_creates (trace r.1) /\
      prop_Canvas_ID req = "2")).
Proof.
  intros r.
  assert (Hr : r = (r.1, Done tt)).
  { rewrite (surjective_pairing r) at 1. f_equal; vm_compute; reflexivity. }
  assert (Hd : due_in_window IsoSeconds.lib (utc_now T0) week_out0 hw2
                 (mk_datetime
                    (T0 + 3 * usec_per_day + 10 * 3600 * usec_per_second)
                    (Some 0))).
  { eapply due_in_window_intro;
      [reflexivity | discriminate | vm_compute; reflexivity
      | vm_compute; reflexivity]. }
  split; [exact Hr |]. split; [exact Hd |].
  eapply (every_due_assignment_is_accounted_for IsoSeconds.lib
            SimNotion.client db name_map second_fails 5 T0 (paginated [math])
            second_fails_loaded ∅ r.1 week_out0 math "Math" hw2).
  - vm_compute. reflexivity.
  - exact Hr.
  - vm_compute. reflexivity.
  - left.
  - reflexivity.
  - right. left.
  - exact Hd.
Defined.

(** ** Courses and their enumerations *)

Lemma finished_course_counts_all_witness :
  let r := process_course IsoSeconds.lib SimNotion.client db name_map
             (utc_now T0) week_out0
             (course 101 "Math 101" (paginated [hw1; undated; late; hw1]))
             (initial_state SimNotion.client (SimNotion.holding [])) in
  r = (r.1, Done tt) /\
  canvas_ids (create_calls (trace r.1)) = ["1"] /\
  last (trace r.1) =
  Some (EvLog DEBUG "Finished course %s, checked %d assignments"
          ["Math 101"; "4"]).
Proof.
  intros r.
  assert (Hr : r = (r.1, Done tt)).
  { rewrite (surjective_pairing r) at 1. f_equal; vm_compute; reflexivity. }
  split; [exact Hr |]. split; [vm_compute; reflexivity |].
  destruct (finished_course_counts_all IsoSeconds.lib SimNotion.client db
              name_map (utc_now T0) week_out0
              (course 101 "Math 101" (paginated [hw1; undated; late; hw1]))
              "Math" (initial_state SimNotion.client (SimNotion.holding []))
              r.1 eq_refl Hr) as [_ Hlast].
  exact Hlast.
Defined.

Lemma course_listing_failure_aborts_witness :
  let r1 := run_with (SimNotion.holding []) 5 T0 (paginated [math]) in
  r1 = (r1.1, Done tt) /\
  exists s2,
    run_with (SimNotion.holding []) 5 T0 (pl_app [math] (PLRaise connection_reset))
    = (s2, Raised connection_reset) /\
    canvas_ids (created (trace s2)) = ["1"; "2"; "3"].
Proof.
  intros r1.
  assert (Hr : r1 = (r1.1, Done tt)).
  { rewrite (surjective_pairing r1) at 1. f_equal; vm_compute; reflexivity. }
  split; [exact Hr |].
  destruct (course_listing_failure_aborts IsoSeconds.lib SimNotion.client db
              name_map (SimNotion.holding []) 5 T0 [math] connection_reset
              r1.1 Hr) as (s2 & Hrun & Htr & _).
  exists s2. split; [exact Hrun |].
  assert (Hall : canvas_ids (created (trace r1.1)) = ["1"; "2"; "3"])
    by (vm_compute; reflexivity).
  rewrite Htr in Hall. unfold created in *. rewrite omap_app in Hall.
  simpl in Hall. rewrite app_nil_r in Hall. exact Hall.
Defined.

Lemma assignment_listing_failure_aborts_witness :
  let r1 := run_with (SimNotion.holding []) 5 T0
              (paginated ([] ++ [course 101 "Math 101" (paginated [hw1])])) in
  name_map !! course_name math_interrupted = Some "Math" /\
  r1 = (r1.1, Done tt) /\
  exists s2,
    run_with (SimNotion.holding []) 5 T0
      (pl_app [] (PLCons math_interrupted (paginated [physics])))
    = (s2, Raised connection_reset) /\
    notion_st s2 = notion_st r1.1.
Proof.
  intros r1.
  assert (Hr : r1 = (r1.1, Done tt)).
  { rewrite (surjective_pairing r1) at 1. f_equal; vm_compute; reflexivity. }
  split; [reflexivity |]. split; [exact Hr |].
  destruct (assignment_listing_failure_aborts IsoSeconds.lib SimNotion.client
              db name_map (SimNotion.holding []) 5 T0 [] math_interrupted
              "Math" [hw1] connection_reset (paginated [physics]) r1.1
              eq_refl eq_refl Hr) as (s2 & Hrun & _ & Hst & _).
  exists s2. split; [exact Hrun | exact Hst].
Defined.

Lemma well_dated_intro (lib : DatetimeLib) (a : Assignment)
    (due_str : string) (d : datetime) (o : Z) (end_at : datetime) :
  assignment_due_at a = Some due_str ->
  fromisoformat lib (str_replace "Z" "+00:00" due_str) = Some d ->
  utcoffset d = Some o ->
  dt_add d (timedelta_minutes 30) = Ok end_at ->
  well_dated lib a.
Proof.
  intros Hdue Hparse Ho Hend due_str' Hdue' _.
  rewrite Hdue in Hdue'. injection Hdue' as <-. by exists d, o, end_at.
Defined.

Lemma run_survives_create_failures_witness :
  fetch_existing_canvas_ids SimNotion.client db 5
    (initial_state SimNotion.client second_fails)
  = (second_fails_loaded, Done ∅) /\
  Forall (well_dated IsoSeconds.lib) [hw1; hw2; hw3] /\
  exists s',
    run_with second_fails 5 T0 (paginated [math]) = (s', Done tt) /\
    last (trace s') = Some (EvLog INFO "Sync run complete" []).
Proof.
  assert (Hf : fetch_existing_canvas_ids SimNotion.client db 5
                 (initial_state SimNotion.client second_fails)
               = (second_fails_loaded, Done ∅)) by (vm_compute; reflexivity).
  assert (Hwd : Forall (well_dated IsoSeconds.lib) [hw1; hw2; hw3]).
  { repeat constructor;
      (eapply well_dated_intro;
       [reflexivity | vm_compute; reflexivity | reflexivity
       | vm_compute; reflexivity]). }
  split; [exact Hf |]. split; [exact Hwd |].
  apply (run_survives_create_failures IsoSeconds.lib SimNotion.client db
           name_map second_fails 5 T0 (paginated [math]) second_fails_loaded
           ∅ week_out0 Hf).
  - vm_compute. reflexivity.
  - exact I.
  - intros c Hc _. apply list_elem_of_singleton in Hc as ->.
    split; [exact I | exact Hwd].
Defined.

(** ** Dates *)

Lemma end_time_is_representable_witness :
  let d := mk_datetime (T0 + 2 * usec_per_day + 10 * 3600 * usec_per_second)
             (Some 0) in
  window_check (utc_now T0) d week_out0 = Ok true /\
  exists o end_at,
    utcoffset d = Some o /\
    dt_add d (timedelta_minutes 30) = Ok end_at /\
    utcoffset end_at = Some o /\
    instant end_at = Some (wall d - o + timedelta_minutes 30).
Proof.
  intros d.
  assert (Hwin : window_check (utc_now T0) d week_out0 = Ok true)
    by (vm_compute; reflexivity).
  split; [exact Hwin |].
  apply (end_time_is_representable IsoSeconds.lib T0 week_out0 d).
  - vm_compute. discriminate.
  - vm_compute. discriminate.
  - intros o [= <-]. split; vm_compute; reflexivity.
  - vm_compute. reflexivity.
  - exact Hwin.
Defined.

Lemma normalised_due_date_has_no_Z_witness :
  has_char "Z" (str_replace "Z" "+00:00" "2024-01-03T10:00:00Z") = false /\
  str_replace "Z" "+00:00" "2024-01-03T10:00:00Z" = "2024-01-03T10:00:00+00:00".
Proof.
  destruct (normalised_due_date_has_no_Z "2024-01-03T10:00:00Z") as (Hno & _).
  split; [exact Hno | reflexivity].
Defined.

(** ** What a run fetches, tells and dies of *)

Lemma mapped_courses_are_fetched_in_order_witness :
  let r := run_with (SimNotion.holding []) 5 T0
             (paginated [art; math; physics; math]) in
  r = (r.1, r.2) /\ r.2 = Done tt /\
  fetched_courses (trace r.1) = ["Math 101"; "Physics 2"; "Math 101"].
Proof.
  intros r.
  assert (Hdone : r.2 = Done tt) by (vm_compute; reflexivity).
  split; [exact (surjective_pairing r) |]. split; [exact Hdone |].
  destruct (mapped_courses_are_fetched_in_order IsoSeconds.lib
              SimNotion.client db name_map (SimNotion.holding []) 5 T0
              (paginated [art; math; physics; math]) r.1 r.2
              (surjective_pairing r)) as [_ Hall].
  destruct (Hall Hdone) as [_ ->]. vm_compute. reflexivity.
Defined.

Lemma console_reports_every_create_witness :
  let r := run_with second_fails 5 T0 (paginated [math]) in
  r = (r.1, r.2) /\
  filter about_creates (console (trace r.1)) = omap create_report (trace r.1) /\
  record_args <$> omap create_report (trace r.1)
  = [["Homework 1"; "Math"]; ["Homework 2"; "2"]; ["Homework 3"; "Math"]].
Proof.
  intros r. split; [exact (surjective_pairing r) |].
  split; [| vm_compute; reflexivity].
  exact (proj1 (console_reports_every_create IsoSeconds.lib SimNotion.client
                  db name_map second_fails 5 T0 (paginated [math]) r.1 r.2
                  (surjective_pairing r))).
Defined.

Lemma what_ends_a_run_witness :
  let courses := PLCons essay_first (paginated [physics]) in
  let r := run_with (SimNotion.holding []) 5 T0 courses in
  r = (r.1, Raised ValueError) /\
  listing_errors name_map courses = [] /\
  failed_queries (trace r.1) = [] /\
  exists p,
    p ∈ candidates name_map courses /\
    due_date_fault IsoSeconds.lib T0 p.2 ValueError (trace r.1).
Proof.
  intros courses r.
  assert (Hr : r = (r.1, Raised ValueError)).
  { rewrite (surjective_pairing r) at 1. f_equal; vm_compute; reflexivity. }
  assert (Hq : failed_queries (trace r.1) = []) by (vm_compute; reflexivity).
  assert (Hl : listing_errors name_map courses = []) by reflexivity.
  split; [exact Hr |]. split; [exact Hl |]. split; [exact Hq |].
  destruct (what_ends_a_run IsoSeconds.lib SimNotion.client db name_map
              (SimNotion.holding []) 5 T0 courses r.1 ValueError Hr)
    as [Hquery|[[Hkey _]|[[Hover _]|[Hdue|Hlist]]]].
  - rewrite Hq in Hquery. discriminate.
  - discriminate.
  - discriminate.
  - exact Hdue.
  - rewrite Hl in Hlist. apply elem_of_nil in Hlist. destruct Hlist.
Defined.

Lemma clean_run_creates_exactly_the_new_witness :
  let f := fetch_existing_canvas_ids SimNotion.client db 5
             (initial_state SimNotion.client (SimNotion.holding [])) in
  f = (f.1, Done ∅) /\
  first_run = (first_run.1, Done tt) /\
  failed_creates (trace first_run.1) = [] /\
  canvas_ids (created (trace first_run.1)) = ["1"; "2"] /\
  NoDup (prop_Canvas_ID <$> created (trace first_run.1)).
Proof.
  intros f.
  assert (Hf : f = (f.1, Done ∅)).
  { rewrite (surjective_pairing f) at 1. f_equal; vm_compute; reflexivity. }
  assert (Hr : first_run = (first_run.1, Done tt)).
  { rewrite (surjective_pairing first_run) at 1.
    f_equal; vm_compute; reflexivity. }
  assert (Hok : failed_creates (trace first_run.1) = [])
    by (vm_compute; reflexivity).
  split; [exact Hf |]. split; [exact Hr |]. split; [exact Hok |].
  split; [vm_compute; reflexivity |].
  destruct (clean_run_creates_exactly_the_new IsoSeconds.lib SimNotion.client
              db name_map (SimNotion.holding []) 5 T0 two_homeworks f.1 ∅
              first_run.1 week_out0 Hf Hr) as (_ & Hnd & _).
  - vm_compute. reflexivity.
  - exact Hok.
  - exact Hnd.
Defined.


